(** * Sales value matrix: the data classification pipeline

    A shallow embedding of the data-processing functions of
    [sales_value_matrix.py] ([detect_encoding], [clean_column_names],
    [map_engagement_level], [process_uploaded_data], [process_data]) and of
    the upload callback [handle_upload], with the properties the
    specification states about them.

    Conventions of the embedding:
    - a Python [str] is a [string]; a character is a code point below 256,
      so [str.strip], [str.lower] and [in] are the Python operations on
      such text;
    - a pandas cell is a [cell]; a column is a list of cells and a frame an
      ordered list of labelled columns, labels possibly repeated, as pandas
      has them;
    - a Python [float] is an IEEE-754 binary64 number, [spec_float] with
      precision 53 and maximal exponent 1024;
    - the libraries the program calls on raw bytes ([chardet], [base64],
      the pandas readers) are the fields of a record [Libraries] that the
      loader takes as an argument;
    - the labels of a table as a reader returns it are any scalars, those
      of a frame that [clean_column_names] has returned are texts; a float
      cell is kept as its [str()] text, so the sum of no column at all,
      the float 0.0 in pandas, is the integer 0 here. *)

From Stdlib Require Import ZArith List String Ascii Strings.Byte Bool Lia.
From Stdlib Require Import DecimalString SpecFloat.
Import ListNotations.

Local Open Scope string_scope.
Local Open Scope Z_scope.

(* ================================================================== *)
(** * Python strings *)
(* ================================================================== *)

Module PyStr.

(** [c.isspace()] for a code point below 256: TAB..CR, FS..US, SPACE,
    NEL (0x85) and NBSP (0xA0). *)
Definition is_space (c : ascii) : bool :=
  let n := N_of_ascii c in
  ((9 <=? n) && (n <=? 13) || (28 <=? n) && (n <=? 32)
   || (n =? 133) || (n =? 160))%N.

(** [c.lower()] for a code point below 256: A..Z and the Latin-1 capitals
    0xC0..0xDE (0xD7, the multiplication sign, apart) move up by 32. *)
Definition lower_char (c : ascii) : ascii :=
  let n := N_of_ascii c in
  if ((65 <=? n) && (n <=? 90)
      || (192 <=? n) && (n <=? 222) && negb (n =? 215))%N
  then ascii_of_N (n + 32) else c.

(** [s.lower()] *)
Fixpoint lower (s : string) : string :=
  match s with
  | EmptyString => EmptyString
  | String c s' => String (lower_char c) (lower s')
  end.

(** [s.lstrip()] *)
Fixpoint lstrip (s : string) : string :=
  match s with
  | EmptyString => EmptyString
  | String c s' => if is_space c then lstrip s' else s
  end.

(** [s.rstrip()] *)
Fixpoint rstrip (s : string) : string :=
  match s with
  | EmptyString => EmptyString
  | String c s' =>
      match rstrip s' with
      | EmptyString => if is_space c then EmptyString else String c EmptyString
      | r => String c r
      end
  end.

(** [s.strip()] *)
Definition strip (s : string) : string := rstrip (lstrip s).

(** [s.replace(old, new)] for one-character [old] and [new]. *)
Fixpoint replace (old new : ascii) (s : string) : string :=
  match s with
  | EmptyString => EmptyString
  | String c s' =>
      String (if Ascii.eqb c old then new else c) (replace old new s')
  end.

(** [needle in s] *)
Fixpoint contains (needle s : string) : bool :=
  prefix needle s ||
  match s with
  | EmptyString => false
  | String _ s' => contains needle s'
  end.

(** [s in l] for a list of strings [l]. *)
Definition mem (s : string) (l : list string) : bool :=
  existsb (String.eqb s) l.

(** No character of [s] is white space. *)
Fixpoint no_space (s : string) : bool :=
  match s with
  | EmptyString => true
  | String c s' => negb (is_space c) && no_space s'
  end.

End PyStr.
Import PyStr.

(* ================================================================== *)
(** * Cells *)
(* ================================================================== *)

(** A pandas cell: a missing value, a text, an integer, a boolean, or any
    other scalar (a float, a timestamp), kept as the text [str()] gives
    for it. *)
Inductive cell : Type :=
| NaN
| Str (s : string)
| Int (z : Z)
| Bool (b : bool)
| Obj (repr : string).

(** [str(x)], also what [astype(str)] writes into a cell. *)
Definition py_str (x : cell) : string :=
  match x with
  | NaN => "nan"
  | Str s => s
  | Int z => NilZero.string_of_int (Z.to_int z)
  | Bool true => "True"
  | Bool false => "False"
  | Obj r => r
  end.

(* ================================================================== *)
(** * Engagement level *)
(* ================================================================== *)

(** [map_engagement_level(stage)] *)
Definition map_engagement_level (stage : cell) : Z :=
  let stage := lower (strip (py_str stage)) in
  if contains "untouch" stage then 0
  else if contains "free" stage then 1
  else if contains "direct" stage || contains "da-d" stage then 2
  else if contains "lite" stage then 3
  else if contains "full" stage then 4
  else 0.

(** The specification's reading of the mapping: a table of keyword groups
    tried in order, the first group with a keyword found in the text
    deciding the level. *)
Definition engagement_rules : list (list string * Z) :=
  [ (["untouch"], 0); (["free"], 1); (["direct"; "da-d"], 2);
    (["lite"], 3); (["full"], 4) ].

Fixpoint first_match (rules : list (list string * Z)) (s : string)
  (default : Z) : Z :=
  match rules with
  | [] => default
  | (keywords, level) :: rules' =>
      if existsb (fun k => contains k s) keywords then level
      else first_match rules' s default
  end.

(* ================================================================== *)
(** * Python floats *)
(* ================================================================== *)

(** IEEE-754 binary64, the Python [float] and the numpy [float64]. *)
Definition float : Type := spec_float.

Definition float_of_Z (z : Z) : float := binary_normalize 53 1024 z 0 false.
Definition fmul (x y : float) : float := SFmul 53 1024 x y.

(** [x >= y], [x < y] and [x > y]; each is [False] as soon as an operand
    is not a number. *)
Definition fge (x y : float) : bool := SFleb y x.
Definition flt (x y : float) : bool := SFltb x y.
Definition fgt (x y : float) : bool := SFltb y x.

(** The literals [0.65], [0.7] and [2.0]. *)
Definition f0_65 : float := S754_finite false 5854679515581645 (-53).
Definition f0_7 : float := S754_finite false 6305039478318694 (-53).
Definition f2_0 : float := S754_finite false 4503599627370496 (-51).

(* ================================================================== *)
(** * Results of fallible steps *)
(* ================================================================== *)

(** Why a step does not complete. [NotASeries col]: the label [col] is
    carried by several columns, so that [df[col]] is a frame where the
    program goes on as with a Series; pandas raises [AttributeError] on
    its [.str], and the embedding does not follow the program further on
    such a frame. [AttributeError type_name attr]: a value of the type
    named has no method [attr]. *)
Inductive failure : Type :=
| KeyError (col : string)
| NotASeries (col : string)
| TypeError
| UnpackError (expected got : nat)
| External (msg : string)
| AttributeError (type_name attr : string).

Inductive result (A : Type) : Type :=
| Ok (a : A)
| Raise (e : failure).
Arguments Ok {A} a.
Arguments Raise {A} e.

Definition bind {A B : Type} (r : result A) (k : A -> result B) : result B :=
  match r with
  | Ok a => k a
  | Raise e => Raise e
  end.

Notation "x <- r ;; k" := (bind r (fun x => k))
  (at level 61, r at next level, right associativity).
Notation "' pat <- r ;; k" := (bind r (fun x => match x with pat => k end))
  (at level 61, pat pattern, r at next level, right associativity).

Fixpoint mapM {A B : Type} (f : A -> result B) (l : list A)
  : result (list B) :=
  match l with
  | [] => Ok []
  | x :: l' => y <- f x ;; ys <- mapM f l' ;; Ok (y :: ys)
  end.

(** [str(e)] of a caught exception; the loader's handler only meets the
    failure to unpack, those of the libraries and a label without
    [strip]. *)
Definition str_failure (e : failure) : string :=
  match e with
  | KeyError col => "'" ++ col ++ "'"
  | NotASeries _ => "'DataFrame' object has no attribute 'str'"
  | TypeError => "unsupported operand type"
  | UnpackError expected got =>
      let n := fun k : nat => NilZero.string_of_uint (Nat.to_uint k) in
      if (got <? expected)%nat
      then "not enough values to unpack (expected " ++ n expected
           ++ ", got " ++ n got ++ ")"
      else "too many values to unpack (expected " ++ n expected ++ ")"
  | External msg => msg
  | AttributeError type_name attr =>
      "'" ++ type_name ++ "' object has no attribute '" ++ attr ++ "'"
  end.

(* ================================================================== *)
(** * Frames *)
(* ================================================================== *)

Definition Series : Type := list cell.

(** A frame: the length of its index and its labelled columns, in order.
    Every column of a frame read from a file has [nrows] cells. *)
Record DataFrame : Type := mkDF {
  nrows : nat;
  cols : list (string * Series)
}.

(** [df.columns] *)
Definition columns (df : DataFrame) : list string := map fst (cols df).

(** [df.empty]: some axis has length 0. *)
Definition empty (df : DataFrame) : bool :=
  (nrows df =? 0)%nat || (List.length (cols df) =? 0)%nat.

(** The columns [df[col]] selects, all those labelled [col]. *)
Definition getitem (df : DataFrame) (col : string) : list Series :=
  map snd (filter (fun p => String.eqb (fst p) col) (cols df)).

(** [df[col]] where the program uses it as a Series. *)
Definition get_series (df : DataFrame) (col : string) : result Series :=
  match getitem df col with
  | [] => Raise (KeyError col)
  | [s] => Ok s
  | _ => Raise (NotASeries col)
  end.

(** [df[col] = s]: every column labelled [col] is overwritten, and a new
    column is appended when there is none. *)
Definition setitem (df : DataFrame) (col : string) (s : Series) : DataFrame :=
  if mem col (columns df)
  then mkDF (nrows df)
         (map (fun p => if String.eqb (fst p) col then (fst p, s) else p)
            (cols df))
  else mkDF (nrows df) (cols df ++ [(col, s)])%list.

(** [df[labels]] for a list of labels. *)
Fixpoint select (df : DataFrame) (labels : list string)
  : result (list Series) :=
  match labels with
  | [] => Ok []
  | l :: labels' =>
      match getitem df l with
      | [] => Raise (KeyError l)
      | ss => rest <- select df labels' ;; Ok (ss ++ rest)%list
      end
  end.

(** [s.dropna()] *)
Definition dropna (s : Series) : Series :=
  filter (fun x => match x with NaN => false | _ => true end) s.

(** [unique()]: the distinct values, in order of first appearance. *)
Fixpoint unique_from (seen : list string) (l : list string) : list string :=
  match l with
  | [] => []
  | x :: l' =>
      if mem x seen then unique_from seen l'
      else x :: unique_from (x :: seen) l'
  end.
Definition unique (l : list string) : list string := unique_from [] l.

Definition cell_eqb (x y : cell) : bool :=
  match x, y with
  | NaN, NaN => true
  | Str a, Str b => String.eqb a b
  | Int a, Int b => Z.eqb a b
  | Bool a, Bool b => Bool.eqb a b
  | Obj a, Obj b => String.eqb a b
  | _, _ => false
  end.

Fixpoint unique_cells_from (seen : list cell) (l : list cell) : list cell :=
  match l with
  | [] => []
  | x :: l' =>
      if existsb (cell_eqb x) seen then unique_cells_from seen l'
      else x :: unique_cells_from (x :: seen) l'
  end.
Definition unique_cells (l : list cell) : list cell := unique_cells_from [] l.

(* ================================================================== *)
(** * Column normalizer *)
(* ================================================================== *)

(** A column label as a reader gives it: a text, or another scalar (a
    number or a date in the header row of a workbook), of which only the
    name of its type is kept. *)
Inductive label : Type :=
| Text (s : string)
| NonText (type_name : string).

(** A frame as a reader returns it: its labels need not be texts. *)
Record Table : Type := mkTable {
  table_nrows : nat;
  table_cols : list (label * Series)
}.

(** [df.columns] of such a frame. *)
Definition table_columns (df : Table) : list label := map fst (table_cols df).

(** The labels that are texts, in order. *)
Fixpoint texts (labels : list label) : list string :=
  match labels with
  | [] => []
  | Text s :: labels' => s :: texts labels'
  | NonText _ :: labels' => texts labels'
  end.

(** [col.strip().lower().replace(' ', '_')] for a text. *)
Definition clean_label (col : string) : string :=
  replace " " "_" (lower (strip col)).

(** The same expression for any label: only a text has [strip]. *)
Definition clean_name (col : label) : result string :=
  match col with
  | Text s => Ok (clean_label s)
  | NonText type_name => Raise (AttributeError type_name "strip")
  end.

(** [clean_column_names(df)]: the comprehension goes through the labels in
    order and stops at the first that raises; the assignment to
    [df.columns] is only reached with one text per column. *)
Definition clean_column_names (df : Table) : result DataFrame :=
  labels <- mapM clean_name (table_columns df) ;;
  Ok (mkDF (table_nrows df) (combine labels (map snd (table_cols df)))).

(** The key a label is cleaned to, when it is a text. *)
Definition key_of (col : label) : option string :=
  match col with
  | Text s => Some (clean_label s)
  | NonText _ => None
  end.

(** The columns of a table whose label is cleaned to a key. *)
Definition columns_cleaned_to (df : Table) (key : string) : list Series :=
  map snd
    (filter (fun p => match key_of (fst p) with
                      | Some k => String.eqb k key
                      | None => false
                      end)
       (table_cols df)).

(** The specification's reading of a collision: under a key that several
    original labels normalize to, the cleaned frame holds one column, the
    last of them. *)
Definition last_one_wins (df : Table) : Prop :=
  forall (df_clean : DataFrame) (key : string),
    clean_column_names df = Ok df_clean ->
    In key (columns df_clean) ->
    getitem df_clean key = [last (columns_cleaned_to df key) []].

(* ================================================================== *)
(** * Boolean-column inference *)
(* ================================================================== *)

Definition bool_vocabulary : list string :=
  ["yes"; "no"; "y"; "n"; "1"; "0"; "true"; "false"].

(** The body of the [try] for one column: [Ok b] when the test evaluates
    to [b], [Raise] when it raises. *)
Definition is_value_column (df : DataFrame) (col : string) : result bool :=
  s <- get_series df col ;;
  let unique_vals :=
    unique (map (fun x => lower (strip (py_str x))) (dropna s)) in
  Ok (forallb (fun val => mem val bool_vocabulary) unique_vals).

(** The loop over [df_clean.columns]; a column whose test raises is
    skipped by the bare [except]. *)
Fixpoint infer_loop (df : DataFrame) (todo value_columns : list string)
  : list string :=
  match todo with
  | [] => value_columns
  | col :: todo' =>
      match is_value_column df col with
      | Ok true => infer_loop df todo' (value_columns ++ [col])%list
      | _ => infer_loop df todo' value_columns
      end
  end.

Definition infer_value_columns (df : DataFrame) : list string :=
  infer_loop df (columns df) [].

(* ================================================================== *)
(** * Classifier *)
(* ================================================================== *)

Definition yes_words : list string := ["yes"; "y"; "1"; "true"].

(** [lambda x: 'Yes' if x in ['yes', 'y', '1', 'true'] else 'No'] *)
Definition yes_no (x : cell) : cell :=
  Str (if match x with Str s => mem s yes_words | _ => false end
       then "Yes" else "No").

(** The body of the cleaning loop for one value column. *)
Definition standardize (df : DataFrame) (col : string) : result DataFrame :=
  s <- get_series df col ;;
  let df := setitem df col (map (fun x => Str (lower (strip (py_str x)))) s) in
  s <- get_series df col ;;
  Ok (setitem df col (map yes_no s)).

Fixpoint standardize_all (df : DataFrame) (value_columns : list string)
  : result DataFrame :=
  match value_columns with
  | [] => Ok df
  | col :: value_columns' =>
      df' <- standardize df col ;; standardize_all df' value_columns'
  end.

(** [x.map({'Yes': 1, 'No': 0})] on one cell; [None] is the missing value
    a cell outside the dictionary maps to. *)
Definition yes_no_score (x : cell) : option Z :=
  match x with
  | Str s => if String.eqb s "Yes" then Some 1
             else if String.eqb s "No" then Some 0 else None
  | _ => None
  end.

(** [.sum(axis=1)]: the sum of each row, missing values skipped. *)
Definition row_sum (cs : list (list (option Z))) (i : nat) : Z :=
  fold_right
    (fun col acc => match nth i col None with Some v => v + acc | None => acc end)
    0 cs.

Definition sum_axis1 (n : nat) (cs : list (list (option Z))) : list Z :=
  map (row_sum cs) (seq 0 n).

(** A cell as an operand of a comparison against a float. *)
Definition to_float (x : cell) : result float :=
  match x with
  | Int z => Ok (float_of_Z z)
  | Bool b => Ok (float_of_Z (if b then 1 else 0))
  | NaN => Ok S754_nan
  | _ => Raise TypeError
  end.

(** [s >= t] and [s < t] for a Series [s] and a float [t]. *)
Definition ge_scalar (s : Series) (t : float) : result (list bool) :=
  mapM (fun x => v <- to_float x ;; Ok (fge v t)) s.
Definition lt_scalar (s : Series) (t : float) : result (list bool) :=
  mapM (fun x => v <- to_float x ;; Ok (flt v t)) s.

(** [a & b] *)
Definition mask_and (a b : list bool) : list bool :=
  map (fun p : bool * bool => fst p && snd p) (combine a b).

(** [np.select(condlist, choicelist, default)]: element by element, the
    choice of the first condition that holds. *)
Fixpoint np_select (condlist : list (list bool)) (choicelist : list string)
  (default : list string) : list string :=
  match condlist, choicelist with
  | c :: condlist', choice :: choicelist' =>
      map (fun p : bool * string => if fst p then choice else snd p)
        (combine c (np_select condlist' choicelist' default))
  | _, _ => default
  end.

(** [np.clip(x * 12 + 25, 20, 60)] on one cell. *)
Definition size_of (x : cell) : result cell :=
  match x with
  | Int z => Ok (Int (Z.min (Z.max (z * 12 + 25) 20) 60))
  | NaN => Ok NaN
  | _ => Raise TypeError
  end.

Definition quadrants : list string :=
  [ "Strategic Partners"; "Growth Opportunities";
    "High Value Prospects"; "Basic Users" ].

(** [max_score * 0.65] *)
Definition value_threshold_of (max_score : Z) : float :=
  fmul (float_of_Z max_score) f0_65.

(** [len(value_columns) or 1] *)
Definition max_score_of (value_columns : list string) : Z :=
  match List.length value_columns with
  | O => 1
  | n => Z.of_nat n
  end.

(** The value scores: [df[value_columns]], mapped to 1 and 0 and summed
    row by row. *)
Definition value_scores (df : DataFrame) (value_columns : list string)
  : result (list Z) :=
  selected <- select df value_columns ;;
  Ok (sum_axis1 (nrows df) (map (map yes_no_score) selected)).

(** The engagement levels: those of the first column whose label contains
    stage or subscription, 0 everywhere without such a column. *)
Definition engagement_levels (df : DataFrame) : result Series :=
  let stage_col :=
    find (fun col => contains "stage" col || contains "subscription" col)
      (columns df) in
  match stage_col with
  | Some (String c col) =>
      s <- get_series df (String c col) ;;
      Ok (map (fun x => Int (map_engagement_level x)) s)
  | _ => Ok (repeat (Int 0) (nrows df))
  end.

(** The quadrant labels from the two score columns. *)
Definition quadrant_labels (value_score engagement_level : Series)
  (max_score : Z) (n : nat) : result (list string) :=
  let value_threshold := value_threshold_of max_score in
  let engagement_threshold := f2_0 in
  v_ge <- ge_scalar value_score value_threshold ;;
  v_lt <- lt_scalar value_score value_threshold ;;
  e_ge <- ge_scalar engagement_level engagement_threshold ;;
  e_lt <- lt_scalar engagement_level engagement_threshold ;;
  let conditions :=
    [ mask_and v_ge e_ge; mask_and v_lt e_ge;
      mask_and v_ge e_lt; mask_and v_lt e_lt ] in
  Ok (np_select conditions quadrants (repeat "Unclassified" n)).

(** [process_data(df, value_columns)] *)
Definition process_data (df : DataFrame) (value_columns : list string)
  : result (DataFrame * Z) :=
  (* Clean and standardize data *)
  df <- standardize_all df value_columns ;;
  (* Calculate value score *)
  value_score <- value_scores df value_columns ;;
  let df := setitem df "value_score" (map Int value_score) in
  let max_score := max_score_of value_columns in
  (* Map engagement levels *)
  engagement <- engagement_levels df ;;
  let df := setitem df "engagement_level" engagement in
  (* Quadrant classification *)
  vs <- get_series df "value_score" ;;
  en <- get_series df "engagement_level" ;;
  quadrant <- quadrant_labels vs en max_score (nrows df) ;;
  let df := setitem df "quadrant" (map Str quadrant) in
  vs <- get_series df "value_score" ;;
  size <- mapM size_of vs ;;
  let df := setitem df "size" size in
  Ok (df, max_score).

(** The field [name] of the record in row [i]. *)
Definition field (df : DataFrame) (name : string) (i : nat) : option cell :=
  match get_series df name with
  | Ok s => nth_error s i
  | Raise _ => None
  end.

(** The specification's quadrant table. *)
Definition quadrant_table (value_high engagement_high : bool) : string :=
  match value_high, engagement_high with
  | true, true => "Strategic Partners"
  | false, true => "Growth Opportunities"
  | true, false => "High Value Prospects"
  | false, false => "Basic Users"
  end.

(* ================================================================== *)
(** * Loader *)
(* ================================================================== *)

(** The dictionary [chardet.detect] returns. *)
Record detection : Type := mkDetection {
  encoding : option string;
  confidence : float
}.

(** The library functions the loader calls on the raw upload. *)
Record Libraries : Type := mkLibraries {
  chardet_detect : list byte -> detection;
  b64decode : string -> result (list byte);
  read_excel : list byte -> result Table;
  read_csv : list byte -> option string -> result Table
}.

(** [detect_encoding(decoded_content)] *)
Definition detect_encoding (L : Libraries) (decoded_content : list byte)
  : option string :=
  let result := chardet_detect L decoded_content in
  if fgt (confidence result) f0_7 then encoding result else Some "utf-8".

(** [s.split(sep)] for a one-character separator. *)
Fixpoint split (sep : ascii) (s : string) : list string :=
  match s with
  | EmptyString => [EmptyString]
  | String c s' =>
      if Ascii.eqb c sep then EmptyString :: split sep s'
      else match split sep s' with
           | piece :: pieces => String c piece :: pieces
           | [] => [String c EmptyString]
           end
  end.

(** [b.startswith(p)] *)
Fixpoint startswith (b p : list byte) : bool :=
  match p, b with
  | [], _ => true
  | _ :: _, [] => false
  | x :: p', y :: b' => Byte.eqb x y && startswith b' p'
  end.

(** [b'PK\x03\x04'] *)
Definition zip_signature : list byte := [x50; x4b; x03; x04].

(** The values the loader and the callback pass around. *)
Inductive pyval : Type :=
| PNone
| PStr (s : string)
| PInt (z : Z)
| PList (l : list string)
| PFrame (df : DataFrame).

(** A Python tuple. *)
Definition tuple : Type := list pyval.

(** [a, b, c = t] *)
Definition unpack3 (t : tuple) : result (pyval * pyval * pyval) :=
  match t with
  | [a; b; c] => Ok (a, b, c)
  | _ => Raise (UnpackError 3 (List.length t))
  end.

(** [not contents] *)
Definition falsy (contents : option string) : bool :=
  match contents with
  | None => true
  | Some EmptyString => true
  | Some _ => false
  end.

(** The statements of the [try] block up to the parsed frame. *)
Definition read_table (L : Libraries) (contents : string) : result Table :=
  match split "," contents with
  | [content_type; content_string] =>
      decoded <- b64decode L content_string ;;
      if startswith decoded zip_signature then read_excel L decoded
      else read_csv L decoded (detect_encoding L decoded)
  | pieces => Raise (UnpackError 2 (List.length pieces))
  end.

(** The [try] block as a whole: the tuple it returns. The labels it
    returns as [original_columns] are texts: [clean_column_names] has
    accepted each of them by then. *)
Definition try_load (L : Libraries) (contents : string) : result tuple :=
  df <- read_table L contents ;;
  let original_columns := table_columns df in
  df_clean <- clean_column_names df ;;
  let value_columns := infer_value_columns df_clean in
  Ok [PFrame df_clean; PList value_columns; PList (texts original_columns)].

(** [process_uploaded_data(contents, filename)] *)
Definition process_uploaded_data (L : Libraries) (contents : option string)
  (filename : string) : tuple :=
  match contents with
  | None | Some EmptyString => [PNone; PStr "No file uploaded"]
  | Some contents =>
      match try_load L contents with
      | Ok t => t
      | Raise e =>
          [PNone; PStr ("Error processing file: " ++ str_failure e); PList []]
      end
  end.

(* ================================================================== *)
(** * Upload callback *)
(* ================================================================== *)

(** A piece of an f-string: literal text or a formatted value. *)
Inductive fpart : Type :=
| Lit (s : string)
| Fmt (v : pyval).

(** [dbc.Alert(text, color=...)] *)
Record alert : Type := mkAlert {
  alert_text : list fpart;
  alert_color : string
}.

(** What the visualization layout takes from the data. *)
Record layout : Type := mkLayout {
  layout_file : string;
  group_options : list cell;
  agency_options : list cell
}.

(** One output of a callback: [no_update] or a new value. *)
Inductive output (A : Type) : Type :=
| no_update
| Update (a : A).
Arguments no_update {A}.
Arguments Update {A} a.

(** The seven outputs of [handle_upload], in order. *)
Record outputs : Type := mkOutputs {
  out_upload_status : output alert;
  out_main_content : output layout;
  out_processed_data : output DataFrame;
  out_value_columns : output (list string);
  out_max_value_score : output Z;
  out_filename_store : output string;
  out_original_columns : output (list string)
}.

(** The properties the outputs write to; a store is empty until a
    callback first writes it. *)
Record session : Type := mkSession {
  upload_status : option alert;
  main_content : option layout;
  processed_data : option DataFrame;
  value_columns_store : option (list string);
  max_value_score : option Z;
  filename_store : option string;
  original_columns_store : option (list string)
}.

Definition write {A : Type} (old : option A) (o : output A) : option A :=
  match o with
  | no_update => old
  | Update a => Some a
  end.

(** The session after a callback run; a run that raises writes nothing. *)
Definition apply_outputs (s : session) (r : result outputs) : session :=
  match r with
  | Raise _ => s
  | Ok o =>
      mkSession
        (write (upload_status s) (out_upload_status o))
        (write (main_content s) (out_main_content o))
        (write (processed_data s) (out_processed_data o))
        (write (value_columns_store s) (out_value_columns o))
        (write (max_value_score s) (out_max_value_score o))
        (write (filename_store s) (out_filename_store o))
        (write (original_columns_store s) (out_original_columns o))
  end.

(** The options of a filter: the distinct values of the first column [p]
    accepts, none when no column does. *)
Definition filter_options (p : string -> bool) (df : DataFrame)
  : result (list cell) :=
  match find p (columns df) with
  | Some (String c col) =>
      s <- get_series df (String c col) ;; Ok (unique_cells s)
  | _ => Ok []
  end.

Definition all_no_update : outputs :=
  mkOutputs no_update no_update no_update no_update no_update no_update
    no_update.

Definition error_outputs (value_columns : pyval) : outputs :=
  mkOutputs
    (Update (mkAlert [Lit "Error: "; Fmt value_columns] "danger"))
    no_update no_update no_update no_update no_update no_update.

(** The callback after its three values are unpacked. *)
Definition handle_loaded (df value_columns original_columns : pyval)
  (filename : string) : result outputs :=
  match df with
  | PNone => Ok (error_outputs value_columns)
  | PFrame df =>
      if empty df then Ok (error_outputs value_columns)
      else
        match value_columns, original_columns with
        | PList value_columns, PList original_columns =>
            ' (processed_df, max_score) <- process_data df value_columns ;;
            group_options <-
              filter_options (fun col => contains "group" col) processed_df ;;
            agency_options <-
              filter_options
                (fun col => contains "agency" col && contains "name" col)
                processed_df ;;
            Ok (mkOutputs
                  (Update
                     (mkAlert
                        [ Lit "✅ Successfully processed: "; Fmt (PStr filename);
                          Lit " (";
                          Fmt (PInt (Z.of_nat (nrows processed_df)));
                          Lit " agencies)" ]
                        "success"))
                  (Update (mkLayout filename group_options agency_options))
                  (Update processed_df)
                  (Update value_columns)
                  (Update max_score)
                  (Update filename)
                  (Update original_columns))
        | _, _ => Raise TypeError
        end
  | _ => Raise TypeError
  end.

(** [handle_upload(contents, filename)] *)
Definition handle_upload (L : Libraries) (contents : option string)
  (filename : string) : result outputs :=
  if falsy contents then Ok all_no_update
  else
    ' (df, value_columns, original_columns) <-
      unpack3 (process_uploaded_data L contents filename) ;;
    handle_loaded df value_columns original_columns filename.

(* ================================================================== *)
(** * Sample inputs *)
(* ================================================================== *)

(** Library functions for closed examples: the guesser always answers
    [d], the text is its own decoding, and both readers answer [t]. *)
Definition demo_libraries (d : detection) (t : result Table) : Libraries :=
  mkLibraries (fun _ => d) (fun s => Ok (list_byte_of_string s))
    (fun _ => t) (fun _ _ => t).

(** The frame of the collision: two labels with one canonical key. *)
Definition collision_frame : Table :=
  mkTable 1 [ (Text "Agency", [Str "first"]); (Text "agency ", [Str "second"]) ].

(** A table with four boolean columns and one record: three of them Yes,
    stage Orders 360 Full. *)
Definition scenario_frame : Table :=
  mkTable 1 [ (Text "Agency Name", [Str "Acme Home Health"]);
              (Text "Stage", [Str "Orders 360 Full"]);
              (Text "Uses Portal", [Str "Yes"]);
              (Text "Uses Fax", [Str "Yes"]);
              (Text "Uses EHR", [Str "No"]);
              (Text "Uses Mobile", [Str "Yes"]) ].

(** The same table as [clean_column_names] returns it. *)
Definition scenario_clean : DataFrame :=
  mkDF 1 [ ("agency_name", [Str "Acme Home Health"]);
           ("stage", [Str "Orders 360 Full"]);
           ("uses_portal", [Str "Yes"]);
           ("uses_fax", [Str "Yes"]);
           ("uses_ehr", [Str "No"]);
           ("uses_mobile", [Str "Yes"]) ].

(** A workbook whose header row holds a year beside a text. *)
Definition year_frame : Table :=
  mkTable 1 [ (Text "Agency", [Str "Acme"]); (NonText "int", [Str "Yes"]) ].

(** Contents whose second piece starts with the signature of a
    workbook. *)
Definition workbook_contents : string :=
  "data:application/octet-stream;base64,"
  ++ String "P" (String "K" (String "003" (String "004" "AAAA"))).

(** A table with a header and no record. *)
Definition header_frame : Table := mkTable 0 [ (Text "Agency", []) ].

(* ================================================================== *)
(** * Auxiliary predicates *)

(** The stores that hold the classified snapshot. *)
Definition snapshot (s : session)
  : option DataFrame * option (list string) * option Z * option string
    * option (list string) :=
  (processed_data s, value_columns_store s, max_value_score s,
   filename_store s, original_columns_store s).



(* ================================================================== *)

(** The text is empty or starts with a character that is not white
    space. *)
Definition clean_head (s : string) : Prop :=
  match s with
  | EmptyString => True
  | String c _ => is_space c = false
  end.

(** What the cleaning loop makes of one cell. *)
Definition normalize_cell (x : cell) : cell :=
  yes_no (Str (lower (strip (py_str x)))).

(** The number of the listed columns whose cell in row [i] is
    affirmative. *)
Definition count_yes (df : DataFrame) (value_columns : list string) (i : nat)
  : nat :=
  List.length
    (filter
       (fun col =>
          match field df col i with
          | Some x => mem (lower (strip (py_str x))) yes_words
          | None => false
          end)
       value_columns).

(** Every column has as many cells as the index has rows. *)
Definition well_shaped (df : DataFrame) : Prop :=
  Forall (fun p => List.length (snd p) = nrows df) (cols df).

(** The quadrant of one record, from its two scores. *)
Definition quadrant_of (max_score value_score engagement_level : Z) : string :=
  quadrant_table
    (fge (float_of_Z value_score) (value_threshold_of max_score))
    (fge (float_of_Z engagement_level) f2_0).




(** The test the inference loop applies to a column. *)
Definition passes (df : DataFrame) (col : string) : bool :=
  match is_value_column df col with
  | Ok true => true
  | _ => false
  end.

(* ================================================================== *)
(** * Notions for the properties of the pipeline *)
(* ================================================================== *)

(** The labels the classifier writes, in the order it writes them. *)
Definition derived_labels : list string :=
  ["value_score"; "engagement_level"; "quadrant"; "size"].

(** The size of the bubble of a record with the given value score. *)
Definition size_for (value_score : Z) : Z :=
  Z.min (Z.max (value_score * 12 + 25) 20) 60.

(** The test that selects the stage column. *)
Definition stage_like (col : string) : bool :=
  contains "stage" col || contains "subscription" col.

(** Every character of the text is white space. *)
Fixpoint all_space (s : string) : bool :=
  match s with
  | EmptyString => true
  | String c s' => is_space c && all_space s'
  end.


(* ================================================================== *)
(** * Visualization callback *)
(* ================================================================== *)

(** What stops a callback. [Failure (NotASeries col)] is kept apart from
    the exceptions: it marks a frame that the embedding does not follow,
    and no handler of the embedding catches it. *)
Inductive exception : Type :=
| Failure (e : failure)
| IndexError
| MissingKey (key : string)
| UnboundLocalError (name : string).

Inductive outcome (A : Type) : Type :=
| Return (a : A)
| Throw (e : exception).
Arguments Return {A} a.
Arguments Throw {A} e.

Definition and_then {A B : Type} (o : outcome A) (k : A -> outcome B)
  : outcome B :=
  match o with
  | Return a => k a
  | Throw e => Throw e
  end.

Definition lift {A : Type} (r : result A) : outcome A :=
  match r with
  | Ok a => Return a
  | Raise e => Throw (Failure e)
  end.

(** [s.isin(values)] and [s == value] for texts: a cell that is not a
    text is equal to none. *)
Definition isin (s : Series) (values : list string) : list bool :=
  map (fun x => match x with Str v => mem v values | _ => false end) s.

Definition eq_scalar (s : Series) (value : string) : list bool :=
  map (fun x => match x with Str v => String.eqb v value | _ => false end) s.

(** [df[mask]]: the rows where the mask holds. *)
Definition keep (mask : list bool) (s : Series) : Series :=
  map snd (filter fst (combine mask s)).

Definition filter_rows (df : DataFrame) (mask : list bool) : DataFrame :=
  mkDF (List.length (filter (fun b : bool => b) mask))
    (map (fun p => (fst p, keep mask (snd p))) (cols df)).

(** The positions of the cells of a column that hold one of the given
    texts, in increasing order. *)
Definition selected_rows (s : Series) (values : list string) : list nat :=
  filter
    (fun i => match nth_error s i with
              | Some (Str t) => mem t values
              | _ => false
              end)
    (seq 0 (List.length s)).

(** One of the two filters: [if selected and col in df.columns:
    df = df[df[col].isin(selected)]]. *)
Definition apply_filter (df : DataFrame) (col : string)
  (selected : option (list string)) : result DataFrame :=
  match selected with
  | Some (v :: vs) =>
      if mem col (columns df)
      then s <- get_series df col ;; Ok (filter_rows df (isin s (v :: vs)))
      else Ok df
  | _ => Ok df
  end.

(** [next((col for col in df.columns if 'agency' in col and 'name' in
    col), 'agency_name')] and the like for the group. *)
Definition agency_col_of (df : DataFrame) : string :=
  match find (fun col => contains "agency" col && contains "name" col)
          (columns df) with
  | Some col => col
  | None => "agency_name"
  end.

Definition group_col_of (df : DataFrame) : string :=
  match find (fun col => contains "group" col) (columns df) with
  | Some col => col
  | None => "physician_group"
  end.

(** The dictionary of display names: the original labels zipped with the
    columns, or each column with [col.replace('_', ' ').title()], kept as
    the comprehension it is. *)
Inductive names : Type :=
| Zipped (pairs : list (string * string))
| Titled (cols : list string).

Definition display_names (original_columns : option (list string))
  (cols : list string) : names :=
  match original_columns with
  | Some (o :: os) =>
      if (List.length (o :: os) =? List.length cols)%nat
      then Zipped (combine cols (o :: os))
      else Titled cols
  | _ => Titled cols
  end.

(** A point of the click data, with its ['x'] and ['text'] when it has
    them. *)
Record point : Type := mkPoint {
  point_x : option string;
  point_text : option string
}.

(** A record as [iloc] gives it: its cells by label. *)
Definition row : Type := list (string * cell).

(** [click_data['points'][0]['x']] in the heatmap view, [...['text']]
    otherwise. *)
Definition clicked_name (view_mode : string) (points : list point)
  : outcome string :=
  match points with
  | [] => Throw IndexError
  | p :: _ =>
      if String.eqb view_mode "heatmap"
      then match point_x p with
           | Some n => Return n
           | None => Throw (MissingKey "x")
           end
      else match point_text p with
           | Some n => Return n
           | None => Throw (MissingKey "text")
           end
  end.

(** [df[df[agency_col] == agency_name].iloc[0]] *)
Definition first_row (df : DataFrame) (agency_col agency_name : string)
  : outcome row :=
  and_then (lift (get_series df agency_col)) (fun s =>
  let found := filter_rows df (eq_scalar s agency_name) in
  match nrows found with
  | O => Throw IndexError
  | S _ => Return (map (fun p => (fst p, hd NaN (snd p))) (cols found))
  end).

Section Visualization.

Variables Figure Card : Type.

(** The parts of the callback that only draw: the empty figure, the
    reading of the stored frame, and the statements of the quadrant
    branch, of the heatmap branch and of the details card, each as a
    function of the variables it reads. The two branches assign [fig] and
    nothing else that is read after them. *)
Record Views : Type := mkViews {
  go_Figure : Figure;
  read_json : DataFrame -> result DataFrame;
  quadrant_figure :
    list string -> option Z -> string -> string -> DataFrame
    -> outcome Figure;
  heatmap_figure :
    list string -> names -> string -> DataFrame -> outcome Figure;
  details_card :
    row -> string -> string -> string -> list string -> option Z -> names
    -> outcome Card
}.

(** What the details area shows. *)
Inductive panel : Type :=
| PanelCard (card : Card)
| PanelAlert (a : alert).

Definition details_alert : panel :=
  PanelAlert (mkAlert [Lit "Could not load agency details"] "danger").

(** The statements under [if click_data:]; the pair is [details_open]
    and [agency_details]. *)
Definition agency_details_of (V : Views) (df : DataFrame)
  (agency_col group_col : string) (value_columns : list string)
  (max_score : option Z) (shown : names) (view_mode : string)
  (click_data : option (list point)) : outcome (bool * output panel) :=
  match click_data with
  | None => Return (false, no_update)
  | Some points =>
      match and_then (clicked_name view_mode points) (fun agency_name =>
            and_then (first_row df agency_col agency_name) (fun agency_data =>
            Return (agency_name, agency_data))) with
      | Throw (Failure (NotASeries col)) => Throw (Failure (NotASeries col))
      | Throw _ => Return (true, Update details_alert)
      | Return (agency_name, agency_data) =>
          match details_card V agency_data agency_name agency_col group_col
                  value_columns max_score shown with
          | Return card => Return (true, Update (PanelCard card))
          | Throw _ => Return (true, Update details_alert)
          end
      end
  end.

(** The figure, when a branch assigns it. *)
Definition figure_of (V : Views) (df : DataFrame)
  (agency_col group_col : string) (value_columns : list string)
  (max_score : option Z) (shown : names) (view_mode : string)
  (show_quadrants : list string) : outcome (option Figure) :=
  if String.eqb view_mode "quadrant"
  then and_then
         (quadrant_figure V show_quadrants max_score group_col agency_col df)
         (fun fig => Return (Some fig))
  else if String.eqb view_mode "heatmap" && negb (empty df)
  then and_then (heatmap_figure V value_columns shown agency_col df)
         (fun fig => Return (Some fig))
  else Return None.

(** [update_visualization(...)]; [prop_id] is
    [ctx.triggered[0]['prop_id']]. *)
Definition update_visualization (V : Views) (prop_id : string)
  (data_json : option DataFrame) (value_columns : option (list string))
  (max_score : option Z) (selected_groups selected_agencies : option (list string))
  (view_mode : string) (show_quadrants : list string)
  (reset_click : option nat) (click_data : option (list point))
  (original_columns : option (list string))
  : outcome (Figure * bool * output panel) :=
  let trigger_id := hd EmptyString (split "." prop_id) in
  if String.eqb trigger_id "reset-view"
  then Return (go_Figure V, false, no_update)
  else
    match data_json, value_columns with
    | Some data, Some (c :: cs) =>
        let value_columns := c :: cs in
        and_then (lift (read_json V data)) (fun df =>
        let agency_col := agency_col_of df in
        let group_col := group_col_of df in
        and_then (lift (apply_filter df group_col selected_groups)) (fun df =>
        and_then (lift (apply_filter df agency_col selected_agencies))
          (fun df =>
        let shown := display_names original_columns (columns df) in
        and_then (figure_of V df agency_col group_col value_columns max_score
                    shown view_mode show_quadrants) (fun fig =>
        and_then (agency_details_of V df agency_col group_col value_columns
                    max_score shown view_mode click_data) (fun details =>
        match fig with
        | Some fig => Return (fig, fst details, snd details)
        | None => Throw (UnboundLocalError "fig")
        end)))))
    | _, _ => Return (go_Figure V, false, no_update)
    end.

End Visualization.

Arguments go_Figure {Figure Card} v.
Arguments read_json {Figure Card} v.
Arguments quadrant_figure {Figure Card} v.
Arguments heatmap_figure {Figure Card} v.
Arguments details_card {Figure Card} v.
Arguments mkViews {Figure Card}.
Arguments PanelCard {Card} card.
Arguments PanelAlert {Card} a.
Arguments details_alert {Card}.
Arguments agency_details_of {Figure Card} V.
Arguments figure_of {Figure Card} V.
Arguments update_visualization {Figure Card} V.

(** Views for closed examples: figures and cards that only say which
    branch drew them. *)
Definition demo_views : Views string string :=
  mkViews "empty" (fun df => Ok df)
    (fun _ _ _ _ _ => Return "quadrant")
    (fun _ _ _ _ => Return "heatmap")
    (fun _ agency_name _ _ _ _ _ => Return agency_name).

(* ================================================================== *)
(** * The operations on sample inputs *)
(* ================================================================== *)

Example py_str_ex :
  map py_str [Int (-12); Int 0; NaN; Bool true; Obj "1.0"]
  = ["-12"; "0"; "nan"; "True"; "1.0"].
Proof. reflexivity. Qed.

Example strip_lower_ex :
  lower (strip "  Orders 360 FULL  ") = "orders 360 full"
  /\ rstrip "ab  c  " = "ab  c"
  /\ strip "   " = "".
Proof. repeat split. Qed.

Example clean_label_ex :
  map clean_label ["  Agency  Name "; "Uses EHR"; "stage"]
  = ["agency__name"; "uses_ehr"; "stage"].
Proof. reflexivity. Qed.

Example split_ex :
  split "," "data:text/csv;base64,QUJD" = ["data:text/csv;base64"; "QUJD"]
  /\ split "," "" = [""]
  /\ split "," "a,b,,c" = ["a"; "b"; ""; "c"].
Proof. repeat split. Qed.

Example engagement_ex :
  map (fun s => map_engagement_level (Str s))
    ["Orders 360 Full"; "DA-Direct"; "Free (untouched)"; "Lite"; ""; "x"]
  = [4; 2; 0; 3; 0; 0]
  /\ map_engagement_level NaN = 0.
Proof. split; reflexivity. Qed.

Example clean_column_names_ex :
  clean_column_names scenario_frame = Ok scenario_clean
  /\ clean_column_names year_frame = Raise (AttributeError "int" "strip")
  /\ str_failure (AttributeError "int" "strip")
     = "'int' object has no attribute 'strip'".
Proof. repeat split. Qed.

(** Two columns that share a key are both skipped by the inference. *)
Example inference_collision_ex :
  exists df,
    clean_column_names
      (mkTable 1 [ (Text "Portal", [Str "yes"]); (Text "portal ", [Str "no"]);
                   (Text "Fax", [Int 1]); (Text "Notes", [Str "call back"]) ])
    = Ok df
    /\ infer_value_columns df = ["fax"].
Proof. eexists. split; reflexivity. Qed.

(** Three boolean columns, one record all No, no stage column. *)
Example all_no_ex :
  let df := mkDF 1 [ ("a", [Str "No"]); ("b", [Str "no"]); ("c", [Int 0]) ] in
  exists df',
    process_data df (infer_value_columns df) = Ok (df', 3)
    /\ field df' "value_score" 0 = Some (Int 0)
    /\ field df' "engagement_level" 0 = Some (Int 0)
    /\ field df' "quadrant" 0 = Some (Str "Basic Users")
    /\ field df' "size" 0 = Some (Int 25).
Proof.
  cbv zeta. eexists. split; [vm_compute; reflexivity|]. repeat split.
Qed.

(** No boolean column: the maximum score is 1 and the threshold 0.65. *)
Example no_value_column_ex :
  let df := mkDF 1 [ ("agency", [Str "Acme"]); ("stage", [Str "Lite"]) ] in
  infer_value_columns df = []
  /\ value_threshold_of 1 = f0_65
  /\ exists df',
       process_data df [] = Ok (df', 1)
       /\ field df' "value_score" 0 = Some (Int 0)
       /\ field df' "engagement_level" 0 = Some (Int 3)
       /\ field df' "quadrant" 0 = Some (Str "Growth Opportunities").
Proof.
  cbv zeta. split; [reflexivity|]. split; [reflexivity|].
  eexists. split; [vm_compute; reflexivity|]. repeat split.
Qed.

(* ================================================================== *)
(** * Properties of the string operations *)
(* ================================================================== *)

Section StringFacts.

Lemma append_nil_r (s : string) : s ++ "" = s.
Proof. induction s as [|c s IH]; simpl; [reflexivity | now rewrite IH]. Qed.

Lemma append_assoc (a b c : string) : (a ++ b) ++ c = a ++ b ++ c.
Proof. induction a as [|x a IH]; simpl; [reflexivity | now rewrite IH]. Qed.

Lemma prefix_iff (n s : string) :
  prefix n s = true <-> exists b, s = n ++ b.
Proof.
  revert s; induction n as [|c n IH]; intros s.
  - split; [intros _; now exists s | intros _; now destruct s].
  - destruct s as [|d s]; simpl.
    + split; [discriminate | intros [b Hb]; discriminate].
    + destruct (ascii_dec c d) as [->|Hcd].
      * rewrite IH. split; intros [b Hb]; exists b; simpl in *; congruence.
      * split; [discriminate | intros [b Hb]; simpl in Hb; congruence].
Qed.

Lemma contains_iff (n s : string) :
  contains n s = true <-> exists a b, s = a ++ n ++ b.
Proof.
  induction s as [|c s IH]; cbn [contains].
  - rewrite orb_false_r, prefix_iff. split.
    + intros [b Hb]. now exists "", b.
    + intros [a [b Hab]]. destruct a; simpl in Hab; [now exists b | discriminate].
  - rewrite orb_true_iff, prefix_iff, IH. split.
    + intros [[b Hb] | [a [b Hab]]].
      * now exists "", b.
      * exists (String c a), b. simpl. now rewrite Hab.
    + intros [a [b Hab]]. destruct a as [|x a]; simpl in Hab.
      * left. now exists b.
      * right. exists a, b. congruence.
Qed.

Lemma lower_app (a b : string) : lower (a ++ b) = lower a ++ lower b.
Proof. induction a as [|c a IH]; simpl; [reflexivity | now rewrite IH]. Qed.

Lemma contains_lower (n s : string) :
  contains n s = true -> contains (lower n) (lower s) = true.
Proof.
  rewrite !contains_iff. intros [a [b ->]].
  exists (lower a), (lower b). now rewrite !lower_app.
Qed.

Lemma is_space_lower_char (c : ascii) : is_space (lower_char c) = is_space c.
Proof.
  destruct c as [[] [] [] [] [] [] [] []]; reflexivity.
Qed.

Lemma lower_char_idem (c : ascii) : lower_char (lower_char c) = lower_char c.
Proof.
  destruct c as [[] [] [] [] [] [] [] []]; reflexivity.
Qed.

Lemma lower_lstrip (s : string) : lower (lstrip s) = lstrip (lower s).
Proof.
  induction s as [|c s IH]; simpl; [reflexivity|].
  rewrite is_space_lower_char. destruct (is_space c); [exact IH | reflexivity].
Qed.

Lemma lower_rstrip (s : string) : lower (rstrip s) = rstrip (lower s).
Proof.
  induction s as [|c s IH]; simpl; [reflexivity|].
  rewrite <- IH, is_space_lower_char.
  destruct (rstrip s); simpl; [destruct (is_space c) |]; reflexivity.
Qed.

Lemma lower_strip (s : string) : lower (strip s) = strip (lower s).
Proof. unfold strip. now rewrite lower_rstrip, lower_lstrip. Qed.

(** Stripping on the left removes a prefix of the text before a word that
    starts with a character that is not white space. *)
Lemma lstrip_keeps (a : string) (c : ascii) (n b : string) :
  is_space c = false ->
  exists a', lstrip (a ++ String c n ++ b) = a' ++ String c n ++ b.
Proof.
  intros Hc. induction a as [|x a IH]; simpl.
  - rewrite Hc. now exists "".
  - destruct (is_space x); [exact IH | now exists (String x a)].
Qed.

Lemma rstrip_word (n b : string) :
  n <> "" -> no_space n = true -> exists b', rstrip (n ++ b) = n ++ b'.
Proof.
  induction n as [|c n IH]; intros Hn Hs; [congruence|].
  simpl in Hs. apply andb_true_iff in Hs as [Hc Hs].
  apply negb_true_iff in Hc. simpl.
  destruct n as [|d n].
  - simpl. destruct (rstrip b) eqn:Hb.
    + rewrite Hc. now exists "".
    + now exists (String a s).
  - destruct (IH ltac:(discriminate) Hs) as [b' Hb'].
    rewrite Hb'. simpl. now exists b'.
Qed.

Lemma rstrip_app (a m : string) :
  rstrip m <> "" -> rstrip (a ++ m) = a ++ rstrip m.
Proof.
  intros Hm. induction a as [|x a IH]; simpl; [reflexivity|].
  rewrite IH. destruct (a ++ rstrip m) eqn:E; [|reflexivity].
  destruct a; simpl in E; [congruence | discriminate].
Qed.

Lemma contains_strip (n s : string) :
  n <> "" -> no_space n = true ->
  contains n s = true -> contains n (strip s) = true.
Proof.
  intros Hn Hs. rewrite !contains_iff. intros [a [b ->]].
  destruct n as [|c n]; [congruence|].
  assert (Hc : is_space c = false).
  { simpl in Hs. apply andb_true_iff in Hs as [Hc _].
    now apply negb_true_iff in Hc. }
  destruct (lstrip_keeps a c n b Hc) as [a' Ha'].
  unfold strip. rewrite Ha'.
  destruct (rstrip_word (String c n) b Hn Hs) as [b' Hb'].
  rewrite rstrip_app; rewrite Hb'; [|discriminate].
  now exists a', b'.
Qed.

(** A lower-case word without white space found in the text, in any
    letter case, is found in the stripped lower-case text. *)
Lemma contains_normalized (n s : string) :
  n <> "" -> no_space n = true ->
  contains n (lower s) = true -> contains n (lower (strip s)) = true.
Proof.
  intros Hn Hs H. rewrite lower_strip. now apply contains_strip.
Qed.

End StringFacts.

(* ================================================================== *)
(** * Engagement mapping *)
(* ================================================================== *)

Lemma engagement_untouch (stage : cell) :
  contains "untouch" (lower (py_str stage)) = true ->
  map_engagement_level stage = 0.
Proof.
  intros H. unfold map_engagement_level.
  rewrite (contains_normalized "untouch" _ ltac:(discriminate) eq_refl H).
  reflexivity.
Qed.

(** C2. The engagement level is the level of the first rule of the table
    (untouch 0, free 1, direct or da-d 2, lite 3, full 4, else 0) with a
    keyword in the stripped lower-case stage value; so a stage value
    containing both free and untouch, as written or in any letter case,
    gets level 0. *)
Theorem map_engagement_level_first_match (stage : cell) :
  map_engagement_level stage
  = first_match engagement_rules (lower (strip (py_str stage))) 0
  /\ (contains "free" (py_str stage) = true ->
      contains "untouch" (py_str stage) = true ->
      map_engagement_level stage = 0)
  /\ (contains "free" (lower (py_str stage)) = true ->
      contains "untouch" (lower (py_str stage)) = true ->
      map_engagement_level stage = 0).
Proof.
  split; [|split].
  - unfold map_engagement_level, engagement_rules, first_match, existsb.
    rewrite !orb_false_r. reflexivity.
  - intros _ H. apply engagement_untouch.
    exact (contains_lower "untouch" _ H).
  - intros _ H. now apply engagement_untouch.
Qed.

Lemma map_engagement_level_first_match_witness :
  map_engagement_level (Str "  Free trial (UNTOUCHED) ") = 0.
Proof.
  apply (proj2 (proj2 (map_engagement_level_first_match
                         (Str "  Free trial (UNTOUCHED) "))));
    reflexivity.
Defined.

(* ================================================================== *)
(** * Column normalizer *)
(* ================================================================== *)

Section CleanLabel.

Lemma rstrip_idem (s : string) : rstrip (rstrip s) = rstrip s.
Proof.
  induction s as [|c s IH]; simpl; [reflexivity|].
  destruct (rstrip s) as [|d r] eqn:E.
  - destruct (is_space c) eqn:Hc; simpl; [reflexivity | now rewrite Hc].
  - cbn [rstrip]. cbn [rstrip] in IH. now rewrite IH.
Qed.

Lemma lstrip_clean_head (s : string) : clean_head (lstrip s).
Proof.
  induction s as [|c s IH]; simpl; [exact I|].
  destruct (is_space c) eqn:Hc; [exact IH | exact Hc].
Qed.

Lemma rstrip_clean_head (s : string) : clean_head s -> clean_head (rstrip s).
Proof.
  destruct s as [|c s]; simpl; [trivial|]. intros Hc.
  destruct (rstrip s); [rewrite Hc|]; exact Hc.
Qed.

Lemma lstrip_fixed (s : string) : clean_head s -> lstrip s = s.
Proof. destruct s as [|c s]; simpl; [trivial | now intros ->]. Qed.

Lemma strip_clean_head (s : string) : clean_head (strip s).
Proof. apply rstrip_clean_head, lstrip_clean_head. Qed.

Lemma strip_idem (s : string) : strip (strip s) = strip s.
Proof.
  unfold strip at 1. rewrite (lstrip_fixed _ (strip_clean_head s)).
  apply rstrip_idem.
Qed.

Lemma replace_clean_head (s : string) :
  clean_head s -> clean_head (replace " " "_" s).
Proof.
  destruct s as [|c s]; simpl; [trivial|]. intros Hc.
  destruct (Ascii.eqb_spec c " ") as [->|_]; [reflexivity | exact Hc].
Qed.

Lemma replace_rstrip_fixed (s : string) :
  rstrip s = s -> rstrip (replace " " "_" s) = replace " " "_" s.
Proof.
  induction s as [|c s IH]; simpl; [reflexivity|].
  destruct (rstrip s) as [|d r] eqn:E.
  - destruct (is_space c) eqn:Hc; [discriminate|].
    intros [= <-]. simpl.
    destruct (Ascii.eqb_spec c " ") as [->|_]; [discriminate|].
    now rewrite Hc.
  - intros [= Hs]. rewrite <- Hs in IH |- *. simpl in IH |- *.
    now rewrite (IH eq_refl).
Qed.

Lemma prefix_blank (c : ascii) (s : string) :
  prefix " " (String c s) = Ascii.eqb c " ".
Proof.
  destruct (prefix " " (String c s)) eqn:E.
  - apply prefix_iff in E as [b Hb]. simpl in Hb.
    injection Hb as -> _. reflexivity.
  - destruct (Ascii.eqb_spec c " ") as [->|_]; [|reflexivity].
    assert (H : prefix " " (String " " s) = true)
      by (apply prefix_iff; now exists s).
    congruence.
Qed.

Lemma replace_no_blank (s : string) : contains " " (replace " " "_" s) = false.
Proof.
  induction s as [|c s IH]; [reflexivity|].
  cbn [replace contains]. rewrite IH, orb_false_r, prefix_blank.
  destruct (Ascii.eqb_spec c " ") as [->|Hc]; [reflexivity|].
  now apply Ascii.eqb_neq.
Qed.

Lemma replace_fixed (s : string) :
  contains " " s = false -> replace " " "_" s = s.
Proof.
  induction s as [|c s IH]; [reflexivity|].
  cbn [replace contains]. rewrite prefix_blank.
  intros H. apply orb_false_iff in H as [Hp Hs].
  now rewrite (IH Hs), Hp.
Qed.

Lemma lower_idem (s : string) : lower (lower s) = lower s.
Proof.
  induction s as [|c s IH]; simpl; [reflexivity|].
  now rewrite lower_char_idem, IH.
Qed.

Lemma lower_replace (s : string) :
  lower (replace " " "_" s) = replace " " "_" (lower s).
Proof.
  induction s as [|c s IH]; simpl; [reflexivity|]. rewrite IH. f_equal.
  destruct c as [[] [] [] [] [] [] [] []]; reflexivity.
Qed.

Lemma clean_label_lower (col : string) :
  lower (clean_label col) = clean_label col.
Proof. unfold clean_label. now rewrite lower_replace, lower_idem. Qed.

Lemma clean_label_stripped (col : string) :
  strip (clean_label col) = clean_label col.
Proof.
  unfold clean_label, strip at 1.
  assert (Hh : clean_head (lower (strip col))).
  { rewrite lower_strip. apply strip_clean_head. }
  rewrite (lstrip_fixed _ (replace_clean_head _ Hh)).
  apply replace_rstrip_fixed.
  rewrite lower_strip. unfold strip. apply rstrip_idem.
Qed.

Lemma clean_label_idem (col : string) :
  clean_label (clean_label col) = clean_label col.
Proof.
  unfold clean_label at 1.
  rewrite clean_label_stripped, clean_label_lower.
  apply replace_fixed, replace_no_blank.
Qed.

Lemma texts_map_Text (names : list string) : texts (map Text names) = names.
Proof. induction names as [|n names IH]; simpl; [reflexivity | now rewrite IH]. Qed.

(** The labels of a table are all texts, or there is a first one that is
    not. *)
Lemma labels_cases (labels : list label) :
  labels = map Text (texts labels)
  \/ exists names type_name rest,
       labels = (map Text names ++ NonText type_name :: rest)%list.
Proof.
  induction labels as [|[n|ty] labels IH].
  - now left.
  - destruct IH as [IH | [names [ty [rest IH]]]].
    + left. simpl. now rewrite <- IH.
    + right. exists (n :: names), ty, rest. simpl. now rewrite IH.
  - right. now exists [], ty, labels.
Qed.

Lemma mapM_clean_texts (names : list string) :
  mapM clean_name (map Text names) = Ok (map clean_label names).
Proof.
  induction names as [|n names IH]; [reflexivity|].
  cbn [map mapM clean_name bind]. now rewrite IH.
Qed.

Lemma mapM_clean_nontext (names : list string) (type_name : string)
  (rest : list label) :
  mapM clean_name (map Text names ++ NonText type_name :: rest)%list
  = Raise (AttributeError type_name "strip").
Proof.
  induction names as [|n names IH]; [reflexivity|].
  cbn [map app mapM clean_name bind]. now rewrite IH.
Qed.

(** What [clean_column_names] returns when every label is a text. *)
Lemma clean_texts (df : Table) (names : list string) :
  table_columns df = map Text names ->
  clean_column_names df
  = Ok (mkDF (table_nrows df)
          (combine (map clean_label names) (map snd (table_cols df)))).
Proof.
  intros H. unfold clean_column_names. now rewrite H, mapM_clean_texts.
Qed.

(** [clean_column_names] returns a frame only for a table whose labels
    are texts. *)
Lemma clean_Ok_texts (df : Table) (df_clean : DataFrame) :
  clean_column_names df = Ok df_clean ->
  table_columns df = map Text (texts (table_columns df))
  /\ df_clean
     = mkDF (table_nrows df)
         (combine (map clean_label (texts (table_columns df)))
            (map snd (table_cols df))).
Proof.
  intros H.
  destruct (labels_cases (table_columns df)) as [Ht | [names [ty [rest Hn]]]].
  - split; [exact Ht|]. rewrite (clean_texts df _ Ht) in H. now injection H.
  - unfold clean_column_names in H.
    rewrite Hn, mapM_clean_nontext in H. discriminate H.
Qed.

Lemma length_texts (df : Table) :
  table_columns df = map Text (texts (table_columns df)) ->
  List.length (texts (table_columns df)) = List.length (table_cols df).
Proof.
  intros H. apply (f_equal (@List.length label)) in H.
  unfold table_columns in H at 1. now rewrite !length_map in H.
Qed.

Lemma map_fst_combine {A B : Type} (l : list A) (l' : list B) :
  List.length l = List.length l' -> map fst (combine l l') = l.
Proof.
  revert l'. induction l as [|a l IH]; intros [|b l'] H; try discriminate;
    [reflexivity|].
  simpl. f_equal. apply IH. now injection H.
Qed.

Lemma map_snd_combine {A B : Type} (l : list A) (l' : list B) :
  List.length l = List.length l' -> map snd (combine l l') = l'.
Proof.
  revert l'. induction l as [|a l IH]; intros [|b l'] H; try discriminate;
    [reflexivity|].
  simpl. f_equal. apply IH. now injection H.
Qed.

(** The cleaned frame: its labels, its values and its rows. *)
Lemma clean_Ok_frame (df : Table) (df_clean : DataFrame) :
  clean_column_names df = Ok df_clean ->
  columns df_clean = map clean_label (texts (table_columns df))
  /\ map snd (cols df_clean) = map snd (table_cols df)
  /\ nrows df_clean = table_nrows df
  /\ List.length (cols df_clean) = List.length (table_cols df).
Proof.
  intros H. destruct (clean_Ok_texts df df_clean H) as [Ht ->].
  pose proof (length_texts df Ht) as Hl.
  assert (Hlen : List.length (map clean_label (texts (table_columns df)))
                 = List.length (map snd (table_cols df)))
    by now rewrite !length_map.
  unfold columns. cbn [cols nrows].
  split; [now apply map_fst_combine|]. split; [now apply map_snd_combine|].
  split; [reflexivity|].
  rewrite length_combine, Hlen, Nat.min_id. apply length_map.
Qed.

(** A key selects in the cleaned frame the columns whose label is cleaned
    to it. *)
Lemma getitem_clean (df : Table) (names : list string) (key : string) :
  table_columns df = map Text names ->
  getitem
    (mkDF (table_nrows df)
       (combine (map clean_label names) (map snd (table_cols df)))) key
  = columns_cleaned_to df key.
Proof.
  unfold getitem, columns_cleaned_to, table_columns. cbn [cols].
  revert names. induction (table_cols df) as [|[l x] cs IH];
    intros [|n names] H; try discriminate; [reflexivity|].
  cbn [map] in H. injection H as -> H.
  cbn [map combine filter fst snd key_of].
  destruct (String.eqb (clean_label n) key); cbn [map snd];
    now rewrite (IH names H).
Qed.

End CleanLabel.

(** C9, as stated, fails: both colliding columns are kept, not the last
    one alone. *)
Lemma clean_collision_keeps_both : ~ last_one_wins collision_frame.
Proof.
  intros H.
  specialize (H (mkDF 1 [ ("agency", [Str "first"]);
                          ("agency", [Str "second"]) ])
                "agency" eq_refl (or_introl eq_refl)).
  vm_compute in H. discriminate H.
Qed.

(** C9, amended. For a table whose labels are all texts, cleaning renames
    the columns in place: the labels are the canonical keys of the
    original labels, in order, and the values are untouched. The key of a
    label is its stripped, lower-case text with every space replaced by an
    underscore; it has no space, no upper-case letter and no white space
    at either end, and cleaning it again gives it back. No collision is
    resolved: a key selects every column whose label normalizes to it, in
    the original order. A label that is not a text has no key: the first
    such label makes the normalizer raise AttributeError, and every table
    is in one of the two cases. *)
Theorem clean_column_names_keeps_columns (df : Table) :
  (forall names : list string,
     table_columns df = map Text names ->
     exists df_clean,
       clean_column_names df = Ok df_clean
       /\ columns df_clean = map clean_label names
       /\ map snd (cols df_clean) = map snd (table_cols df)
       /\ nrows df_clean = table_nrows df
       /\ forall key : string,
            getitem df_clean key = columns_cleaned_to df key)
  /\ (forall (names : list string) (type_name : string) (rest : list label),
        table_columns df = (map Text names ++ NonText type_name :: rest)%list ->
        clean_column_names df = Raise (AttributeError type_name "strip"))
  /\ ((exists names, table_columns df = map Text names)
      \/ exists names type_name rest,
           table_columns df
           = (map Text names ++ NonText type_name :: rest)%list)
  /\ (forall col : string,
        clean_name (Text col) = Ok (replace " " "_" (lower (strip col)))
        /\ clean_label col = replace " " "_" (lower (strip col))
        /\ contains " " (clean_label col) = false
        /\ lower (clean_label col) = clean_label col
        /\ strip (clean_label col) = clean_label col
        /\ clean_label (clean_label col) = clean_label col).
Proof.
  split; [|split; [|split]].
  - intros names Hn.
    pose proof (clean_texts df names Hn) as E.
    eexists. split; [exact E|].
    destruct (clean_Ok_frame df _ E) as [Hc [Hv [Hr _]]].
    rewrite Hn, texts_map_Text in Hc.
    split; [exact Hc|]. split; [exact Hv|]. split; [exact Hr|].
    intros key. now apply getitem_clean.
  - intros names ty rest Hn. unfold clean_column_names.
    now rewrite Hn, mapM_clean_nontext.
  - destruct (labels_cases (table_columns df)) as [H | H];
      [left; eauto | now right].
  - intros col. split; [reflexivity|]. split; [reflexivity|].
    split; [apply replace_no_blank|].
    split; [apply clean_label_lower|].
    split; [apply clean_label_stripped | apply clean_label_idem].
Qed.

Lemma clean_column_names_keeps_columns_witness :
  exists df_clean,
    clean_column_names collision_frame = Ok df_clean
    /\ columns df_clean = ["agency"; "agency"]
    /\ getitem df_clean "agency" = [[Str "first"]; [Str "second"]].
Proof.
  destruct (proj1 (clean_column_names_keeps_columns collision_frame)
              ["Agency"; "agency "] eq_refl)
    as [df_clean [E [Hc [_ [_ Hg]]]]].
  exists df_clean. split; [exact E|]. split; [exact Hc|].
  rewrite Hg. reflexivity.
Defined.

(* ================================================================== *)
(** * Boolean-column inference *)
(* ================================================================== *)

Section Inference.

Lemma mem_In (s : string) (l : list string) : mem s l = true <-> In s l.
Proof.
  unfold mem. rewrite existsb_exists. split.
  - intros [x [Hx E]]. apply String.eqb_eq in E. now subst.
  - intros H. exists s. split; [exact H | apply String.eqb_refl].
Qed.

Lemma unique_from_In (seen l : list string) (x : string) :
  In x (unique_from seen l) <-> In x l /\ ~ In x seen.
Proof.
  revert seen; induction l as [|y l IH]; intros seen; simpl.
  - tauto.
  - destruct (mem y seen) eqn:E.
    + apply mem_In in E. rewrite IH. split.
      * tauto.
      * intros [[->|H] Hn]; [contradiction | tauto].
    + assert (Hy : ~ In y seen) by (rewrite <- mem_In; congruence).
      simpl. rewrite IH. simpl. split.
      * intros [->|[H Hn]]; tauto.
      * intros [[->|H] Hn]; [now left|].
        destruct (string_dec y x) as [->|Hne]; [now left | right; tauto].
Qed.

Lemma unique_In (l : list string) (x : string) : In x (unique l) <-> In x l.
Proof. unfold unique. rewrite unique_from_In. simpl. tauto. Qed.

Lemma dropna_In (s : Series) (x : cell) :
  In x (dropna s) <-> In x s /\ x <> NaN.
Proof.
  unfold dropna. rewrite filter_In. split; intros [H1 H2]; split; trivial.
  - now destruct x.
  - now destruct x.
Qed.

Lemma infer_loop_filter (df : DataFrame) (todo acc : list string) :
  infer_loop df todo acc = (acc ++ filter (passes df) todo)%list.
Proof.
  revert acc; induction todo as [|col todo IH]; intros acc; simpl.
  - now rewrite app_nil_r.
  - unfold passes at 1.
    destruct (is_value_column df col) as [[|]|e]; rewrite IH;
      [now rewrite <- app_assoc | reflexivity | reflexivity].
Qed.

Lemma infer_loop_filter_columns (df : DataFrame) :
  infer_value_columns df = filter (passes df) (columns df).
Proof. apply infer_loop_filter. Qed.

Lemma getitem_In_columns (df : DataFrame) (col : string) :
  getitem df col <> [] -> In col (columns df).
Proof.
  unfold getitem, columns. induction (cols df) as [|[l s] cs IH]; simpl.
  - congruence.
  - destruct (String.eqb_spec l col) as [->|_]; [now left | right; auto].
Qed.

Lemma get_series_Ok (df : DataFrame) (col : string) (s : Series) :
  get_series df col = Ok s <-> getitem df col = [s].
Proof.
  unfold get_series. destruct (getitem df col) as [|s1 [|s2 r]]; split;
    intros H; try discriminate; congruence.
Qed.

Lemma passes_iff (df : DataFrame) (col : string) :
  passes df col = true <->
  exists s, getitem df col = [s] /\
    forall x, In x s -> x <> NaN ->
      In (lower (strip (py_str x))) bool_vocabulary.
Proof.
  unfold passes, is_value_column. split.
  - destruct (get_series df col) as [s|e] eqn:E; cbn [bind]; [|discriminate].
    cbv zeta. destruct (forallb _ _) eqn:F; [intros _ | discriminate].
    exists s. split; [now apply get_series_Ok|].
    intros x Hx Hn. rewrite forallb_forall in F. apply mem_In, F.
    apply unique_In, in_map_iff. exists x.
    split; [reflexivity | now apply dropna_In].
  - intros [s [Hs Hall]]. apply get_series_Ok in Hs. rewrite Hs. cbn [bind].
    cbv zeta. replace (forallb _ _) with true; [reflexivity|].
    symmetry. apply forallb_forall. intros v Hv. apply mem_In.
    apply unique_In, in_map_iff in Hv as [x [<- Hx]].
    apply dropna_In in Hx as [Hx Hn]. now apply Hall.
Qed.

End Inference.

(** C4. A column label is in the boolean column set exactly when it names
    one column of the frame and every non-blank value of that column, once
    stripped and put in lower case, is in the vocabulary yes, no, y, n, 1,
    0, true, false. So a column without a non-blank value is included,
    and a column whose test raises is skipped, the others being judged as
    if it were not there. *)
Theorem infer_value_columns_spec (df : DataFrame) (col : string) :
  (In col (infer_value_columns df) <->
   exists s, getitem df col = [s] /\
     forall x, In x s -> x <> NaN ->
       In (lower (strip (py_str x))) bool_vocabulary)
  /\ (forall s, getitem df col = [s] -> dropna s = [] ->
      In col (infer_value_columns df))
  /\ (forall e, is_value_column df col = Raise e ->
      ~ In col (infer_value_columns df))
  /\ infer_value_columns df = filter (passes df) (columns df).
Proof.
  assert (Hf : infer_value_columns df = filter (passes df) (columns df))
    by apply infer_loop_filter.
  assert (Hiff : In col (infer_value_columns df) <-> passes df col = true).
  { rewrite Hf, filter_In. split; [tauto|]. intros H. split; [|exact H].
    apply passes_iff in H as [s [Hs _]]. apply getitem_In_columns.
    rewrite Hs. discriminate. }
  split; [|split; [|split]].
  - rewrite Hiff. apply passes_iff.
  - intros s Hs Hd. apply Hiff, passes_iff. exists s. split; [exact Hs|].
    intros x Hx Hn. exfalso.
    assert (H : In x (dropna s)) by now apply dropna_In.
    now rewrite Hd in H.
  - intros e He. rewrite Hiff. unfold passes. now rewrite He.
  - exact Hf.
Qed.

Lemma infer_value_columns_spec_witness :
  In "feature" (infer_value_columns
                  (mkDF 2 [ ("feature", [NaN; NaN]);
                            ("name", [Str "a"; Str "b"]) ])).
Proof.
  apply (proj1 (proj2 (infer_value_columns_spec
                         (mkDF 2 [ ("feature", [NaN; NaN]);
                                   ("name", [Str "a"; Str "b"]) ])
                         "feature")) [NaN; NaN]); reflexivity.
Defined.

(* ================================================================== *)
(** * Float comparisons *)
(* ================================================================== *)

Section FloatFacts.

Lemma SFcompare_antisym (x y : float) :
  SFcompare y x = option_map CompOpp (SFcompare x y).
Proof.
  destruct x as [sx|sx| |sx mx ex], y as [sy|sy| |sy my ey]; simpl;
    try reflexivity;
    try (destruct sx; reflexivity); try (destruct sy; reflexivity);
    try (destruct sx, sy; reflexivity).
  f_equal. rewrite (Z.compare_antisym ey ex).
  change (Pos.compare_cont Eq my mx) with (Pos.compare my mx).
  change (Pos.compare_cont Eq mx my) with (Pos.compare mx my).
  rewrite (Pos.compare_antisym my mx).
  destruct sx, sy; try reflexivity;
    destruct (Z.compare ey ex); simpl; try reflexivity;
    destruct (Pos.compare my mx); reflexivity.
Qed.


Lemma flt_not_fgt (x y : float) : flt x y = true -> fgt x y = false.
Proof.
  unfold flt, fgt, SFltb. rewrite (SFcompare_antisym x y).
  now destruct (SFcompare x y) as [[| |]|].
Qed.

Lemma SFcompare_numbers (x y : float) :
  x <> S754_nan -> y <> S754_nan -> SFcompare x y <> None.
Proof.
  intros Hx Hy. destruct x, y; try congruence; simpl; discriminate.
Qed.

(** Between numbers, [x < y] is the negation of [x >= y]. *)
Lemma flt_negb_fge (x y : float) :
  x <> S754_nan -> y <> S754_nan -> flt x y = negb (fge x y).
Proof.
  intros Hx Hy. unfold flt, fge, SFltb, SFleb.
  rewrite (SFcompare_antisym x y).
  pose proof (SFcompare_numbers x y Hx Hy) as Hc.
  destruct (SFcompare x y) as [[| |]|]; [reflexivity .. | congruence].
Qed.

(** Rounding a non-negative mantissa never gives a NaN. *)
Lemma shr_1_nonneg (mrs : shr_record) :
  0 <= shr_m mrs -> 0 <= shr_m (shr_1 mrs).
Proof.
  destruct mrs as [m r s]. simpl.
  destruct m as [|[p|p|]|[p|p|]]; simpl; lia.
Qed.

Lemma iter_pos_invariant {A : Type} (P : A -> Prop) (f : A -> A) :
  (forall x, P x -> P (f x)) ->
  forall (n : positive) (x : A), P x -> P (iter_pos f n x).
Proof.
  intros Hf. induction n as [n IH|n IH|]; intros x Hx; simpl; auto.
Qed.

Lemma shr_fexp_nonneg (m e : Z) (l : location) :
  0 <= m -> 0 <= shr_m (fst (shr_fexp 53 1024 m e l)).
Proof.
  intros Hm. unfold shr_fexp, shr.
  assert (H0 : 0 <= shr_m (shr_record_of_loc m l)) by (now destruct l as [|[]]).
  destruct (fexp 53 1024 (Zdigits2 m + e) - e); simpl; trivial.
  now apply (iter_pos_invariant (fun r => 0 <= shr_m r) shr_1 shr_1_nonneg).
Qed.

Lemma round_nearest_even_nonneg (m : Z) (l : location) :
  0 <= m -> 0 <= round_nearest_even m l.
Proof.
  intros Hm. unfold round_nearest_even.
  destruct l as [|[]]; try destruct (Z.even m); lia.
Qed.

Lemma binary_round_aux_number (s : bool) (m e : Z) (l : location) :
  0 <= m -> binary_round_aux 53 1024 s m e l <> S754_nan.
Proof.
  intros Hm. unfold binary_round_aux.
  pose proof (shr_fexp_nonneg m e l Hm) as H1.
  destruct (shr_fexp 53 1024 m e l) as [mrs' e']. simpl in H1.
  pose proof (shr_fexp_nonneg _ e' loc_Exact
                (round_nearest_even_nonneg _ (loc_of_shr_record mrs') H1))
    as H2.
  destruct (shr_fexp 53 1024 _ e' loc_Exact) as [mrs'' e'']. simpl in H2.
  destruct (shr_m mrs''); [discriminate | | lia].
  destruct (e'' <=? 1024 - 53); discriminate.
Qed.

Lemma float_of_Z_number (z : Z) : float_of_Z z <> S754_nan.
Proof.
  unfold float_of_Z, binary_normalize, binary_round.
  destruct z as [|p|p]; [discriminate | |];
    destruct (shl_align _ _ _) as [mz ez];
    apply binary_round_aux_number; lia.
Qed.

Lemma value_threshold_number (m : Z) : value_threshold_of m <> S754_nan.
Proof.
  unfold value_threshold_of, fmul, f0_65.
  pose proof (float_of_Z_number m) as H.
  destruct (float_of_Z m) as [s|s| |s mx ex]; simpl;
    [discriminate | discriminate | congruence |].
  apply binary_round_aux_number. lia.
Qed.

End FloatFacts.

(* ================================================================== *)
(** * Encoding detector *)
(* ================================================================== *)

(** C5, as stated, fails: at confidence 0.7, which is not below 0.7, the
    detector returns the default and not the guess. *)
Lemma detect_encoding_at_threshold :
  ~ (forall (L : Libraries) (b : list byte),
       flt (confidence (chardet_detect L b)) f0_7 = false ->
       detect_encoding L b = encoding (chardet_detect L b)).
Proof.
  intros H.
  specialize (H (demo_libraries (mkDetection (Some "ascii") f0_7)
                   (Raise (External "")))
                [] eq_refl).
  vm_compute in H. discriminate H.
Qed.

(** C5, amended. The detector returns the guess when the confidence is
    above 0.7 and the default utf-8 otherwise: when the confidence is below
    0.7 and when it is 0.7. It never fails, and it returns an encoding as
    long as the guesser names one whenever its confidence is above 0.7. *)
Theorem detect_encoding_threshold (L : Libraries) (b : list byte) :
  let guess := chardet_detect L b in
  (fgt (confidence guess) f0_7 = true ->
   detect_encoding L b = encoding guess)
  /\ (fgt (confidence guess) f0_7 = false ->
      detect_encoding L b = Some "utf-8")
  /\ (flt (confidence guess) f0_7 = true ->
      detect_encoding L b = Some "utf-8")
  /\ (confidence guess = f0_7 -> detect_encoding L b = Some "utf-8")
  /\ ((encoding guess = None -> fgt (confidence guess) f0_7 = false) ->
      exists e, detect_encoding L b = Some e).
Proof.
  cbv zeta. unfold detect_encoding.
  split; [|split; [|split; [|split]]].
  - now intros ->.
  - now intros ->.
  - intros H. now rewrite (flt_not_fgt _ _ H).
  - now intros ->.
  - intros H. destruct (fgt _ _) eqn:E; [|now exists "utf-8"].
    destruct (encoding (chardet_detect L b)) as [e|]; [now exists e|].
    specialize (H eq_refl). congruence.
Qed.

Lemma detect_encoding_threshold_witness :
  detect_encoding
    (demo_libraries
       (mkDetection (Some "ISO-8859-1") (S754_finite false 6575255455960924 (-53)))
       (Raise (External "")))
    [] = Some "ISO-8859-1".
Proof.
  apply (proj1 (detect_encoding_threshold
                  (demo_libraries
                     (mkDetection (Some "ISO-8859-1")
                        (S754_finite false 6575255455960924 (-53)))
                     (Raise (External "")))
                  [])).
  reflexivity.
Defined.

(* ================================================================== *)
(** * Loader and upload callback *)
(* ================================================================== *)

Section Upload.

Variable L : Libraries.

Lemma falsy_false (contents : option string) :
  falsy contents = false ->
  exists c s, contents = Some (String c s).
Proof.
  destruct contents as [[|c s]|]; try discriminate. intros _. now exists c, s.
Qed.

Lemma loader_pair (contents : option string) (filename : string) :
  falsy contents = true ->
  process_uploaded_data L contents filename
  = [PNone; PStr "No file uploaded"].
Proof. destruct contents as [[|c s]|]; [reflexivity | discriminate | reflexivity]. Qed.

Lemma try_load_triple (contents : string) (t : tuple) :
  try_load L contents = Ok t ->
  exists df v o, t = [PFrame df; PList v; PList o].
Proof.
  unfold try_load. destruct (read_table L contents) as [raw|e]; [|discriminate].
  cbn [bind]. destruct (clean_column_names raw) as [df|e]; [|discriminate].
  cbn [bind]. intros [= <-]. eauto.
Qed.

Lemma loader_triple (contents : option string) (filename : string) :
  falsy contents = false ->
  exists df v o, process_uploaded_data L contents filename = [df; v; o].
Proof.
  intros H. destruct (falsy_false _ H) as [c [s ->]]. simpl.
  destruct (try_load L (String c s)) as [t|e] eqn:E; [|eauto].
  destruct (try_load_triple _ _ E) as [df [v [o ->]]]. eauto.
Qed.




End Upload.




(** C10. With empty or absent contents the loader returns the pair
    (None, No file uploaded), with any other contents a triple; unpacking
    the pair into three values raises, and the callback never does so,
    since it returns before the call when the contents are empty. *)
Theorem loader_return_shape (L : Libraries) (contents : option string)
  (filename : string) :
  (falsy contents = true ->
   process_uploaded_data L contents filename
   = [PNone; PStr "No file uploaded"]
   /\ unpack3 (process_uploaded_data L contents filename)
      = Raise (UnpackError 3 2)
   /\ handle_upload L contents filename = Ok all_no_update)
  /\ (falsy contents = false ->
      List.length (process_uploaded_data L contents filename) = 3%nat
      /\ exists x, unpack3 (process_uploaded_data L contents filename) = Ok x).
Proof.
  split.
  - intros H. rewrite (loader_pair L contents filename H).
    unfold handle_upload. rewrite H. split; [|split]; reflexivity.
  - intros H. destruct (loader_triple L contents filename H) as [df [v [o ->]]].
    split; [reflexivity | now exists (df, v, o)].
Qed.

Lemma loader_return_shape_witness :
  unpack3
    (process_uploaded_data
       (demo_libraries (mkDetection None (S754_zero false))
          (Raise (External "")))
       None "")
  = Raise (UnpackError 3 2).
Proof.
  apply (proj1 (loader_return_shape
                  (demo_libraries (mkDetection None (S754_zero false))
                     (Raise (External "")))
                  None "")).
  reflexivity.
Defined.

(* ================================================================== *)
(** * Reading and writing columns *)
(* ================================================================== *)

Section FrameFacts.

Lemma getitem_nil_iff (df : DataFrame) (col : string) :
  getitem df col = [] <-> mem col (columns df) = false.
Proof.
  unfold getitem, columns, mem. induction (cols df) as [|[l s] cs IH]; simpl.
  - tauto.
  - rewrite (String.eqb_sym col l).
    destruct (String.eqb l col); simpl; [split; discriminate | exact IH].
Qed.

Lemma getitem_setitem_same (df : DataFrame) (col : string) (s : Series) :
  getitem (setitem df col s) col
  = match getitem df col with
    | [] => [s]
    | l => map (fun _ => s) l
    end.
Proof.
  unfold setitem. destruct (mem col (columns df)) eqn:E.
  - assert (Hne : getitem df col <> []).
    { rewrite getitem_nil_iff. congruence. }
    assert (H : getitem (mkDF (nrows df)
                  (map (fun p => if String.eqb (fst p) col then (fst p, s) else p)
                     (cols df))) col
                = map (fun _ => s) (getitem df col)).
    { unfold getitem. simpl. clear. induction (cols df) as [|[l x] cs IH];
        simpl; [reflexivity|].
      destruct (String.eqb l col) eqn:El; simpl; rewrite El; simpl;
        now rewrite IH. }
    rewrite H. now destruct (getitem df col).
  - apply getitem_nil_iff in E. rewrite E. unfold getitem in *. simpl.
    rewrite filter_app, map_app, E. simpl. now rewrite String.eqb_refl.
Qed.

Lemma getitem_setitem_other (df : DataFrame) (col col' : string) (s : Series) :
  col' <> col -> getitem (setitem df col s) col' = getitem df col'.
Proof.
  intros Hne. apply String.eqb_neq in Hne.
  unfold setitem. destruct (mem col (columns df)); unfold getitem; simpl.
  - induction (cols df) as [|[l x] cs IH]; simpl; [reflexivity|].
    destruct (String.eqb l col) eqn:El; simpl.
    + apply String.eqb_eq in El. subst l. rewrite String.eqb_sym, Hne.
      exact IH.
    + destruct (String.eqb l col'); simpl; now rewrite IH.
  - rewrite filter_app, map_app. simpl. rewrite String.eqb_sym, Hne.
    now rewrite app_nil_r.
Qed.

Lemma nrows_setitem (df : DataFrame) (col : string) (s : Series) :
  nrows (setitem df col s) = nrows df.
Proof. unfold setitem. now destruct (mem col (columns df)). Qed.

Lemma columns_setitem (df : DataFrame) (col : string) (s : Series) :
  columns (setitem df col s)
  = if mem col (columns df) then columns df else (columns df ++ [col])%list.
Proof.
  unfold setitem, columns. destruct (mem col (map fst (cols df))); simpl.
  - rewrite map_map. apply map_ext. intros [l x]. simpl.
    now destruct (String.eqb l col).
  - now rewrite map_app.
Qed.

Lemma get_series_setitem_other (df : DataFrame) (col col' : string)
  (s : Series) :
  col' <> col -> get_series (setitem df col s) col' = get_series df col'.
Proof.
  intros H. unfold get_series. now rewrite getitem_setitem_other.
Qed.

(** A Series read back under the label it was written to is the one
    written. *)
Lemma get_series_setitem_inv (df : DataFrame) (col : string) (s s' : Series) :
  get_series (setitem df col s) col = Ok s' -> s' = s.
Proof.
  rewrite get_series_Ok, getitem_setitem_same.
  destruct (getitem df col) as [|x [|y l]]; simpl; congruence.
Qed.

Lemma get_series_setitem_same (df : DataFrame) (col : string) (s : Series) :
  (List.length (getitem df col) <= 1)%nat ->
  get_series (setitem df col s) col = Ok s.
Proof.
  intros H. rewrite get_series_Ok, getitem_setitem_same.
  destruct (getitem df col) as [|x [|y l]]; simpl in *; [reflexivity .. | lia].
Qed.

(** With pairwise distinct labels a label selects at most one column. *)
Lemma getitem_NoDup (df : DataFrame) (col : string) :
  NoDup (columns df) -> (List.length (getitem df col) <= 1)%nat.
Proof.
  unfold getitem, columns. induction (cols df) as [|[l x] cs IH]; simpl;
    intros Hnd; [lia|].
  inversion Hnd as [|? ? Hnot Hnd']; subst.
  destruct (String.eqb_spec l col) as [->|_]; [|now apply IH].
  simpl. replace (filter _ cs) with (@nil (string * Series)); [simpl; lia|].
  symmetry. clear -Hnot. induction cs as [|[l x] cs IH]; simpl; [reflexivity|].
  simpl in Hnot. destruct (String.eqb_spec l col) as [->|_]; [tauto|].
  apply IH. tauto.
Qed.

Lemma get_series_NoDup (df : DataFrame) (col : string) :
  NoDup (columns df) -> In col (columns df) ->
  exists s, get_series df col = Ok s.
Proof.
  intros Hnd Hin. pose proof (getitem_NoDup df col Hnd) as Hle.
  assert (Hne : getitem df col <> []).
  { rewrite getitem_nil_iff. apply mem_In in Hin. congruence. }
  unfold get_series.
  destruct (getitem df col) as [|x [|y l]]; simpl in *;
    [congruence | now exists x | lia].
Qed.

Lemma NoDup_setitem (df : DataFrame) (col : string) (s : Series) :
  NoDup (columns df) -> NoDup (columns (setitem df col s)).
Proof.
  intros H. rewrite columns_setitem. destruct (mem col (columns df)) eqn:E.
  - exact H.
  - apply NoDup_app; [exact H | constructor; [tauto | constructor] |].
    intros x Hx [<-|[]]. apply mem_In in Hx. congruence.
Qed.

Lemma well_shaped_setitem (df : DataFrame) (col : string) (s : Series) :
  well_shaped df -> List.length s = nrows df ->
  well_shaped (setitem df col s).
Proof.
  unfold well_shaped, setitem. intros H Hs.
  destruct (mem col (columns df)); simpl.
  - rewrite Forall_map. revert H. apply Forall_impl. intros [l x] Hx. simpl.
    now destruct (String.eqb l col).
  - apply Forall_app. split; [exact H | now constructor].
Qed.

Lemma well_shaped_get_series (df : DataFrame) (col : string) (s : Series) :
  well_shaped df -> get_series df col = Ok s -> List.length s = nrows df.
Proof.
  unfold well_shaped. rewrite get_series_Ok. unfold getitem. intros H Hs.
  assert (Hin : In s (map snd (filter (fun p => String.eqb (fst p) col)
                                 (cols df)))) by (rewrite Hs; now left).
  apply in_map_iff in Hin as [[l x] [<- Hin]].
  apply filter_In in Hin as [Hin _].
  rewrite Forall_forall in H. exact (H _ Hin).
Qed.

End FrameFacts.

(* ================================================================== *)
(** * Value normalization *)
(* ================================================================== *)

Section Standardize.

Lemma normalize_cell_rule (x : cell) :
  normalize_cell x
  = Str (if mem (lower (strip (py_str x))) yes_words then "Yes" else "No").
Proof. reflexivity. Qed.

Lemma normalize_cell_idem (x : cell) :
  normalize_cell (normalize_cell x) = normalize_cell x.
Proof.
  rewrite (normalize_cell_rule x).
  now destruct (mem (lower (strip (py_str x))) yes_words).
Qed.

Lemma map_normalize_idem (s : Series) :
  map normalize_cell (map normalize_cell s) = map normalize_cell s.
Proof.
  rewrite map_map. apply map_ext. intros x. apply normalize_cell_idem.
Qed.

Lemma standardize_Ok (df df' : DataFrame) (col : string) :
  standardize df col = Ok df' ->
  exists s, getitem df col = [s]
    /\ getitem df' col = [map normalize_cell s]
    /\ (forall c, c <> col -> getitem df' c = getitem df c)
    /\ columns df' = columns df
    /\ nrows df' = nrows df.
Proof.
  unfold standardize. destruct (get_series df col) as [s|e] eqn:E;
    cbn [bind]; [|discriminate].
  apply get_series_Ok in E.
  rewrite get_series_setitem_same by (rewrite E; simpl; lia).
  cbn [bind]. intros [= <-]. exists s.
  assert (Hm : mem col (columns df) = true).
  { destruct (mem col (columns df)) eqn:Hm; [reflexivity|].
    apply getitem_nil_iff in Hm. congruence. }
  split; [exact E|]. split; [|split; [|split]].
  - rewrite !getitem_setitem_same, E. simpl. now rewrite map_map.
  - intros c Hc. now rewrite !getitem_setitem_other.
  - rewrite !columns_setitem, Hm. now rewrite Hm.
  - now rewrite !nrows_setitem.
Qed.

Lemma standardize_total (df : DataFrame) (col : string) (s : Series) :
  getitem df col = [s] -> exists df', standardize df col = Ok df'.
Proof.
  intros E. unfold standardize.
  rewrite (proj2 (get_series_Ok df col s) E). cbn [bind].
  rewrite get_series_setitem_same by (rewrite E; simpl; lia).
  cbn [bind]. eauto.
Qed.

Lemma standardize_all_Ok (vcols : list string) :
  forall df df' : DataFrame,
    standardize_all df vcols = Ok df' ->
    columns df' = columns df
    /\ nrows df' = nrows df
    /\ (forall c, ~ In c vcols -> getitem df' c = getitem df c)
    /\ (forall c, In c vcols ->
        exists s, getitem df c = [s]
          /\ getitem df' c = [map normalize_cell s]).
Proof.
  induction vcols as [|col r IH]; intros df df'; simpl.
  - intros [= <-]. repeat split; tauto.
  - destruct (standardize df col) as [d1|e] eqn:E1; cbn [bind];
      [|discriminate].
    intros E2.
    destruct (standardize_Ok _ _ _ E1) as [s [Hs [Hs1 [Ho [Hc Hn]]]]].
    destruct (IH _ _ E2) as [Hc' [Hn' [Ho' Hi']]].
    split; [congruence|]. split; [congruence|]. split.
    + intros c Hc0. rewrite Ho' by tauto. apply Ho. intros ->. tauto.
    + intros c Hin. destruct (in_dec string_dec c r) as [Hr|Hr].
      * destruct (Hi' c Hr) as [s1 [Hd1 Hd']].
        destruct (string_dec c col) as [->|Hne].
        -- exists s. split; [exact Hs|]. rewrite Hd'.
           rewrite Hs1 in Hd1. injection Hd1 as <-.
           now rewrite map_normalize_idem.
        -- exists s1. split; [|exact Hd']. now rewrite <- (Ho c Hne).
      * assert (c = col) as -> by (destruct Hin; [congruence | tauto]).
        exists s. split; [exact Hs|]. now rewrite (Ho' col Hr).
Qed.

Lemma standardize_all_total (vcols : list string) :
  forall df : DataFrame,
    (forall col, In col vcols -> exists s, getitem df col = [s]) ->
    exists df', standardize_all df vcols = Ok df'.
Proof.
  induction vcols as [|col r IH]; intros df H; simpl; [eauto|].
  destruct (H col (or_introl eq_refl)) as [s Hs].
  destruct (standardize_total df col s Hs) as [d1 E1].
  rewrite E1. cbn [bind]. apply IH. intros c Hc.
  destruct (standardize_Ok _ _ _ E1) as [s0 [_ [Hs1 [Ho _]]]].
  destruct (string_dec c col) as [->|Hne]; [eauto|].
  rewrite (Ho c Hne). apply H. now right.
Qed.

Lemma inferred_columns_single (df : DataFrame) (col : string) :
  In col (infer_value_columns df) -> exists s, getitem df col = [s].
Proof.
  rewrite infer_loop_filter_columns, filter_In. intros [_ H].
  apply passes_iff in H as [s [Hs _]]. eauto.
Qed.

End Standardize.

(** C3. The cleaning loop completes on value columns that each name one
    column of the frame, as the inferred ones always do, and leaves in
    every cell of every such column Yes when the stripped lower-case text
    of the value is yes, y, 1 or true, and No otherwise, a blank value
    included; the other columns are untouched. *)
Theorem standardize_all_yes_no (df : DataFrame) (vcols : list string) :
  (forall col, In col vcols -> exists s, getitem df col = [s]) ->
  exists df',
    standardize_all df vcols = Ok df'
    /\ columns df' = columns df
    /\ (forall col s, In col vcols -> get_series df col = Ok s ->
        get_series df' col = Ok (map normalize_cell s))
    /\ (forall col, ~ In col vcols -> getitem df' col = getitem df col)
    /\ (forall x,
          normalize_cell x
          = Str (if mem (lower (strip (py_str x))) yes_words
                 then "Yes" else "No"))
    /\ normalize_cell NaN = Str "No"
    /\ exists df'', standardize_all df (infer_value_columns df) = Ok df''.
Proof.
  intros H. destruct (standardize_all_total vcols df H) as [df' E].
  destruct (standardize_all_Ok vcols df df' E) as [Hc [_ [Ho Hi]]].
  exists df'. split; [exact E|]. split; [exact Hc|]. split; [|split; [|split]].
  - intros col s Hin Hs. destruct (Hi col Hin) as [s0 [H0 H1]].
    apply get_series_Ok in Hs. rewrite Hs in H0. injection H0 as <-.
    now apply get_series_Ok.
  - exact Ho.
  - exact normalize_cell_rule.
  - split; [reflexivity|].
    apply standardize_all_total. exact (inferred_columns_single df).
Qed.

Lemma standardize_all_yes_no_witness :
  exists df',
    standardize_all
      (mkDF 3 [ ("agency", [Str "a"; Str "b"; Str "c"]);
                ("portal", [Str " YES"; NaN; Int 1]) ])
      ["portal"] = Ok df'
    /\ get_series df' "portal" = Ok [Str "Yes"; Str "No"; Str "Yes"].
Proof.
  destruct (standardize_all_yes_no
              (mkDF 3 [ ("agency", [Str "a"; Str "b"; Str "c"]);
                        ("portal", [Str " YES"; NaN; Int 1]) ])
              ["portal"]) as [df' [E [_ [H _]]]].
  - intros col [<-|[]]. now exists [Str " YES"; NaN; Int 1].
  - exists df'. split; [exact E|].
    exact (H "portal" [Str " YES"; NaN; Int 1] (or_introl eq_refl) eq_refl).
Defined.

(* ================================================================== *)
(** * Value score *)
(* ================================================================== *)

Section ValueScore.

Lemma nth_nth_error {A : Type} (l : list A) (i : nat) (d : A) :
  nth i l d = match nth_error l i with Some x => x | None => d end.
Proof.
  revert i; induction l as [|a l IH]; intros [|i]; simpl; auto.
Qed.

Lemma select_Ok (df : DataFrame) (labels : list string) (l : list Series) :
  select df labels = Ok l -> l = flat_map (getitem df) labels.
Proof.
  revert l; induction labels as [|c r IH]; intros l; simpl.
  - now intros [= <-].
  - destruct (getitem df c) as [|x xs]; [discriminate|].
    destruct (select df r) as [rest|e]; cbn [bind]; [|discriminate].
    intros [= <-]. now rewrite (IH rest eq_refl).
Qed.

Lemma select_total (df : DataFrame) (labels : list string) :
  (forall c, In c labels -> exists s, getitem df c = [s]) ->
  exists l, select df labels = Ok l.
Proof.
  induction labels as [|c r IH]; intros H; simpl; [eauto|].
  destruct (H c (or_introl eq_refl)) as [s ->].
  destruct IH as [rest ->]; [intros; apply H; now right|].
  cbn [bind]. eauto.
Qed.

Lemma field_getitem (df : DataFrame) (col : string) (s : Series) (i : nat) :
  getitem df col = [s] -> field df col i = nth_error s i.
Proof.
  intros H. unfold field. now rewrite (proj2 (get_series_Ok df col s) H).
Qed.

(** The row sum over the standardized columns counts the affirmative
    cells of the original ones. *)
Lemma row_sum_count (df d1 : DataFrame) (labels : list string) (i : nat) :
  (forall c, In c labels ->
     exists s, getitem df c = [s] /\ getitem d1 c = [map normalize_cell s]) ->
  row_sum (map (map yes_no_score) (flat_map (getitem d1) labels)) i
  = Z.of_nat (count_yes df labels i).
Proof.
  unfold count_yes. induction labels as [|c r IH]; intros H; [reflexivity|].
  destruct (H c (or_introl eq_refl)) as [s [Hs Hs1]].
  cbn [flat_map filter]. rewrite Hs1. cbn [app map row_sum fold_right].
  fold (row_sum (map (map yes_no_score) (flat_map (getitem d1) r)) i).
  rewrite IH by (intros; apply H; now right).
  rewrite (field_getitem df c s i Hs), nth_nth_error, !nth_error_map.
  destruct (nth_error s i) as [x|]; cbn [option_map]; [|reflexivity].
  rewrite normalize_cell_rule.
  destruct (mem (lower (strip (py_str x))) yes_words); cbv [yes_no_score String.eqb Ascii.eqb Bool.eqb];
    cbn [List.length]; lia.
Qed.

Lemma count_yes_le (df : DataFrame) (labels : list string) (i : nat) :
  0 <= Z.of_nat (count_yes df labels i) <= max_score_of labels.
Proof.
  unfold count_yes, max_score_of.
  pose proof (filter_length_le
                (fun col =>
                   match field df col i with
                   | Some x => mem (lower (strip (py_str x))) yes_words
                   | None => false
                   end) labels) as H.
  destruct (List.length labels) eqn:E; lia.
Qed.

Lemma max_score_of_pos (labels : list string) : 1 <= max_score_of labels.
Proof. unfold max_score_of. destruct (List.length labels); lia. Qed.

Lemma value_scores_Ok (df d1 : DataFrame) (vcols : list string)
  (vs : list Z) :
  standardize_all df vcols = Ok d1 ->
  value_scores d1 vcols = Ok vs ->
  vs = map (fun i => Z.of_nat (count_yes df vcols i)) (seq 0 (nrows df)).
Proof.
  intros E1. unfold value_scores.
  destruct (select d1 vcols) as [sel|e] eqn:E2; cbn [bind]; [|discriminate].
  intros [= <-]. apply select_Ok in E2. subst sel.
  destruct (standardize_all_Ok vcols df d1 E1) as [_ [Hn [_ Hi]]].
  rewrite Hn. unfold sum_axis1. apply map_ext. intros i.
  now apply row_sum_count.
Qed.

Lemma value_scores_total (df d1 : DataFrame) (vcols : list string) :
  standardize_all df vcols = Ok d1 -> exists vs, value_scores d1 vcols = Ok vs.
Proof.
  intros E1. destruct (standardize_all_Ok vcols df d1 E1) as [_ [_ [_ Hi]]].
  unfold value_scores.
  destruct (select_total d1 vcols) as [sel ->]; [|cbn [bind]; eauto].
  intros c Hc. destruct (Hi c Hc) as [s [_ Hs]]. eauto.
Qed.

End ValueScore.

(* ================================================================== *)
(** * Engagement levels and quadrants *)
(* ================================================================== *)

Section Quadrants.

Lemma map_engagement_level_range (x : cell) :
  0 <= map_engagement_level x <= 4.
Proof.
  unfold map_engagement_level.
  repeat match goal with
         | |- context [if ?b then _ else _] => destruct b
         end; lia.
Qed.

Lemma engagement_levels_Ok (df : DataFrame) (en : Series) :
  engagement_levels df = Ok en ->
  exists es, en = map Int es
    /\ Forall (fun e => 0 <= e <= 4) es
    /\ (well_shaped df -> List.length es = nrows df).
Proof.
  unfold engagement_levels.
  destruct (find _ (columns df)) as [[|c col]|].
  - intros [= <-]. exists (repeat 0 (nrows df)).
    split; [now rewrite map_repeat|]. split; [|intros _; apply repeat_length].
    apply Forall_forall. intros e He. apply repeat_spec in He. lia.
  - destruct (get_series df (String c col)) as [s|e] eqn:E; cbn [bind];
      [|discriminate].
    intros [= <-]. exists (map map_engagement_level s).
    split; [now rewrite map_map|]. split.
    + apply Forall_forall. intros e He. apply in_map_iff in He as [x [<- _]].
      apply map_engagement_level_range.
    + intros Hw. rewrite length_map. exact (well_shaped_get_series _ _ _ Hw E).
  - intros [= <-]. exists (repeat 0 (nrows df)).
    split; [now rewrite map_repeat|]. split; [|intros _; apply repeat_length].
    apply Forall_forall. intros e He. apply repeat_spec in He. lia.
Qed.

Lemma engagement_levels_total (df : DataFrame) :
  NoDup (columns df) -> exists en, engagement_levels df = Ok en.
Proof.
  intros Hnd. unfold engagement_levels.
  destruct (find _ (columns df)) as [[|c col]|] eqn:F; eauto.
  apply find_some in F as [Hin _].
  destruct (get_series_NoDup df _ Hnd Hin) as [s ->]. cbn [bind]. eauto.
Qed.

Lemma ge_scalar_ints (vs : list Z) (t : float) :
  ge_scalar (map Int vs) t = Ok (map (fun v => fge (float_of_Z v) t) vs).
Proof.
  unfold ge_scalar. induction vs as [|v vs IH]; [reflexivity|].
  cbn [map mapM to_float bind]. now rewrite IH.
Qed.

Lemma lt_scalar_ints (vs : list Z) (t : float) :
  lt_scalar (map Int vs) t = Ok (map (fun v => flt (float_of_Z v) t) vs).
Proof.
  unfold lt_scalar. induction vs as [|v vs IH]; [reflexivity|].
  cbn [map mapM to_float bind]. now rewrite IH.
Qed.

Lemma size_of_ints (vs : list Z) :
  mapM size_of (map Int vs)
  = Ok (map (fun z => Int (Z.min (Z.max (z * 12 + 25) 20) 60)) vs).
Proof.
  induction vs as [|v vs IH]; [reflexivity|].
  cbn [map mapM size_of bind]. now rewrite IH.
Qed.

Lemma f2_0_number : f2_0 <> S754_nan.
Proof. discriminate. Qed.

(** The first of the four conditions that holds for a record is the one
    the quadrant table names. *)
Lemma first_condition (m v e : Z) (rest : string) :
  let a := fge (float_of_Z v) (value_threshold_of m) in
  let b := flt (float_of_Z v) (value_threshold_of m) in
  let c := fge (float_of_Z e) f2_0 in
  let d := flt (float_of_Z e) f2_0 in
  (if a && c then "Strategic Partners"
   else if b && c then "Growth Opportunities"
   else if a && d then "High Value Prospects"
   else if b && d then "Basic Users" else rest)
  = quadrant_of m v e.
Proof.
  cbv zeta. unfold quadrant_of.
  rewrite (flt_negb_fge _ _ (float_of_Z_number v) (value_threshold_number m)).
  rewrite (flt_negb_fge _ _ (float_of_Z_number e) f2_0_number).
  destruct (fge (float_of_Z v) _), (fge (float_of_Z e) _); reflexivity.
Qed.

Lemma mask_and_map {A B : Type} (f : A -> bool) (g : B -> bool)
  (l : list A) (l' : list B) :
  mask_and (map f l) (map g l')
  = map (fun p => f (fst p) && g (snd p)) (combine l l').
Proof.
  unfold mask_and. revert l'; induction l as [|x l IH]; intros [|y l'];
    simpl; [reflexivity .. |]. now rewrite IH.
Qed.

Lemma select_step {A : Type} (choice : string) (f : A -> bool)
  (r : A -> string) (l : list A) :
  map (fun p : bool * string => if fst p then choice else snd p)
    (combine (map f l) (map r l))
  = map (fun x => if f x then choice else r x) l.
Proof. induction l as [|x l IH]; simpl; [reflexivity | now rewrite IH]. Qed.

Lemma repeat_as_map {A B : Type} (b : B) (l : list A) :
  repeat b (List.length l) = map (fun _ => b) l.
Proof. induction l as [|x l IH]; simpl; [reflexivity | now rewrite IH]. Qed.

Lemma quadrant_labels_ints (m : Z) (vs es : list Z) (n : nat) :
  List.length vs = n -> List.length es = n ->
  quadrant_labels (map Int vs) (map Int es) m n
  = Ok (map (fun p => quadrant_of m (fst p) (snd p)) (combine vs es)).
Proof.
  intros Hv He. unfold quadrant_labels. cbv zeta.
  rewrite !ge_scalar_ints, !lt_scalar_ints. cbn [bind]. f_equal.
  assert (Hn : n = List.length (combine vs es)).
  { rewrite length_combine. lia. }
  rewrite Hn, (repeat_as_map "Unclassified" (combine vs es)).
  rewrite !mask_and_map. unfold quadrants. cbn [np_select].
  rewrite !select_step. apply map_ext. intros [v e]. cbn [fst snd].
  apply first_condition.
Qed.

End Quadrants.

(* ================================================================== *)
(** * The classifier as a whole *)
(* ================================================================== *)

Section ProcessData.

Lemma well_shaped_standardize (df df' : DataFrame) (col : string) :
  well_shaped df -> standardize df col = Ok df' -> well_shaped df'.
Proof.
  intros Hw. unfold standardize.
  destruct (get_series df col) as [s|e] eqn:E; cbn [bind]; [|discriminate].
  pose proof (well_shaped_get_series df col s Hw E) as Hl.
  apply get_series_Ok in E.
  rewrite get_series_setitem_same by (rewrite E; simpl; lia).
  cbn [bind]. intros [= <-].
  apply well_shaped_setitem; [apply well_shaped_setitem; [exact Hw|]|].
  - now rewrite length_map.
  - now rewrite !length_map, nrows_setitem.
Qed.

Lemma well_shaped_standardize_all (vcols : list string) :
  forall df df' : DataFrame,
    well_shaped df -> standardize_all df vcols = Ok df' -> well_shaped df'.
Proof.
  induction vcols as [|col r IH]; intros df df' Hw; simpl.
  - now intros [= <-].
  - destruct (standardize df col) as [d1|e] eqn:E; cbn [bind];
      [|discriminate].
    apply IH. exact (well_shaped_standardize df d1 col Hw E).
Qed.

Lemma length_value_scores (df : DataFrame) (vcols : list string) :
  List.length
    (map (fun i => Z.of_nat (count_yes df vcols i)) (seq 0 (nrows df)))
  = nrows df.
Proof. now rewrite length_map, length_seq. Qed.

(** What a completed run of the classifier has computed. *)
Lemma process_data_Ok (df df' : DataFrame) (vcols : list string) (m : Z) :
  process_data df vcols = Ok (df', m) ->
  let vs := map (fun i => Z.of_nat (count_yes df vcols i))
              (seq 0 (nrows df)) in
  exists (d3 : DataFrame) (es : list Z) (q : list string) (size : Series),
    m = max_score_of vcols
    /\ Forall (fun e => 0 <= e <= 4) es
    /\ (well_shaped df -> List.length es = nrows df)
    /\ (NoDup (columns df) -> NoDup (columns d3))
    /\ quadrant_labels (map Int vs) (map Int es) m (nrows df) = Ok q
    /\ get_series d3 "value_score" = Ok (map Int vs)
    /\ get_series d3 "engagement_level" = Ok (map Int es)
    /\ df' = setitem (setitem d3 "quadrant" (map Str q)) "size" size.
Proof.
  unfold process_data.
  destruct (standardize_all df vcols) as [d1|e] eqn:E1; cbn [bind];
    [|discriminate].
  destruct (value_scores d1 vcols) as [vs0|e] eqn:E2; cbn [bind];
    [|discriminate].
  pose proof (value_scores_Ok df d1 vcols vs0 E1 E2) as Hvs.
  destruct (standardize_all_Ok vcols df d1 E1) as [Hc [Hn _]].
  destruct (engagement_levels _) as [en|e] eqn:E3; cbn [bind];
    [|discriminate].
  destruct (engagement_levels_Ok _ _ E3) as [es [Hen [Hrange Hlen]]].
  destruct (get_series _ "value_score") as [vsS|e] eqn:E4; cbn [bind];
    [|discriminate].
  rewrite get_series_setitem_other in E4 by discriminate.
  pose proof (get_series_setitem_inv _ _ _ _ E4) as HvsS.
  destruct (get_series _ "engagement_level") as [enS|e] eqn:E5; cbn [bind];
    [|discriminate].
  pose proof (get_series_setitem_inv _ _ _ _ E5) as HenS.
  destruct (quadrant_labels vsS enS _ _) as [q|e] eqn:E6; cbn [bind];
    [|discriminate].
  destruct (get_series (setitem _ "quadrant" _) "value_score")
    as [vs2|e] eqn:E7; cbn [bind]; [|discriminate].
  destruct (mapM size_of vs2) as [size|e] eqn:E8; cbn [bind]; [|discriminate].
  intros [= <- <-]. cbv zeta.
  exists (setitem (setitem d1 "value_score" (map Int vs0)) "engagement_level"
            en), es, q, size.
  subst vsS enS en vs0. rewrite !nrows_setitem, Hn in E6.
  split; [reflexivity|]. split; [exact Hrange|]. split; [|split].
  - intros Hw. rewrite Hlen, nrows_setitem; [exact Hn|].
    apply well_shaped_setitem;
      [exact (well_shaped_standardize_all vcols df d1 Hw E1)|].
    rewrite length_map, Hn. apply length_value_scores.
  - intros Hnd. apply NoDup_setitem, NoDup_setitem. now rewrite Hc.
  - split; [exact E6|]. split; [|split; [exact E5 | reflexivity]].
    rewrite get_series_setitem_other by discriminate. exact E4.
Qed.

Lemma quadrant_labels_total (vs es : list Z) (m : Z) (n : nat) :
  exists q, quadrant_labels (map Int vs) (map Int es) m n = Ok q.
Proof.
  unfold quadrant_labels. cbv zeta.
  rewrite !ge_scalar_ints, !lt_scalar_ints. cbn [bind]. eauto.
Qed.

(** The classifier completes on a frame with pairwise distinct labels and
    value columns taken among them. *)
Lemma process_data_total (df : DataFrame) (vcols : list string) :
  NoDup (columns df) -> incl vcols (columns df) ->
  exists df' m, process_data df vcols = Ok (df', m).
Proof.
  intros Hnd Hincl. unfold process_data.
  destruct (standardize_all_total vcols df) as [d1 E1].
  { intros c Hc. destruct (get_series_NoDup df c Hnd (Hincl c Hc)) as [s Hs].
    exists s. now apply get_series_Ok. }
  rewrite E1. cbn [bind].
  destruct (value_scores_total df d1 vcols E1) as [vs E2].
  rewrite E2. cbn [bind].
  destruct (standardize_all_Ok vcols df d1 E1) as [Hc _].
  assert (Hnd1 : NoDup (columns d1)) by now rewrite Hc.
  set (d2 := setitem d1 "value_score" (map Int vs)).
  assert (Hnd2 : NoDup (columns d2)) by now apply NoDup_setitem.
  destruct (engagement_levels_total d2 Hnd2) as [en E3].
  rewrite E3. cbn [bind].
  destruct (engagement_levels_Ok d2 en E3) as [es [-> _]].
  set (d3 := setitem d2 "engagement_level" (map Int es)).
  assert (E4 : get_series d3 "value_score" = Ok (map Int vs)).
  { unfold d3. rewrite get_series_setitem_other by discriminate.
    apply get_series_setitem_same, getitem_NoDup, Hnd1. }
  rewrite E4. cbn [bind].
  assert (E5 : get_series d3 "engagement_level" = Ok (map Int es)).
  { apply get_series_setitem_same, getitem_NoDup, Hnd2. }
  rewrite E5. cbn [bind].
  destruct (quadrant_labels_total vs es (max_score_of vcols) (nrows d3))
    as [q ->].
  cbn [bind]. rewrite get_series_setitem_other by discriminate.
  rewrite E4. cbn [bind]. rewrite size_of_ints. cbn [bind]. eauto.
Qed.

End ProcessData.

(* ================================================================== *)
(** * Records of the classified table *)
(* ================================================================== *)

Section Records.

Lemma nth_error_map_seq {A : Type} (f : nat -> A) (n i : nat) :
  (i < n)%nat -> nth_error (map f (seq 0 n)) i = Some (f i).
Proof.
  intros H. rewrite nth_error_map.
  rewrite (nth_error_nth' (seq 0 n) 0%nat) by now rewrite length_seq.
  now rewrite seq_nth.
Qed.




Lemma infer_value_columns_incl (df : DataFrame) :
  incl (infer_value_columns df) (columns df).
Proof.
  intros c. rewrite infer_loop_filter_columns, filter_In. tauto.
Qed.

End Records.

(** C7. The classifier completes on a frame with pairwise distinct labels
    and value columns among them, and whenever it completes the maximum
    score is the number of value columns, 1 when there is none, and the
    value score of every record is the number of its value columns that
    are affirmative, a number between 0 and the maximum score. *)
Theorem value_score_in_range (df : DataFrame) (vcols : list string) :
  (NoDup (columns df) -> incl vcols (columns df) ->
   exists df' m, process_data df vcols = Ok (df', m))
  /\ forall df' m,
       process_data df vcols = Ok (df', m) ->
       (vcols = [] -> m = 1)
       /\ (vcols <> [] -> m = Z.of_nat (List.length vcols))
       /\ forall i, (i < nrows df)%nat ->
            field df' "value_score" i
            = Some (Int (Z.of_nat (count_yes df vcols i)))
            /\ 0 <= Z.of_nat (count_yes df vcols i) <= m.
Proof.
  split; [apply process_data_total|].
  intros df' m E.
  destruct (process_data_Ok df df' vcols m E)
    as [d3 [es [q [size [-> [_ [_ [_ [_ [Hv [_ ->]]]]]]]]]]].
  split; [now intros -> |]. split.
  - unfold max_score_of. destruct vcols; [congruence | reflexivity].
  - intros i Hi. split; [|apply count_yes_le].
    unfold field.
    rewrite (get_series_setitem_other _ "size") by discriminate.
    rewrite (get_series_setitem_other _ "quadrant") by discriminate.
    rewrite Hv, nth_error_map. now rewrite (nth_error_map_seq _ _ _ Hi).
Qed.

Lemma value_score_in_range_witness :
  exists df' m,
    process_data scenario_clean
      (infer_value_columns scenario_clean)
    = Ok (df', m).
Proof.
  apply (proj1 (value_score_in_range scenario_clean
                  (infer_value_columns scenario_clean))).
  - vm_compute. repeat constructor; simpl; intuition discriminate.
  - apply infer_value_columns_incl.
Defined.

Section QuadrantRules.








Lemma scenario_frame_shape :
  NoDup (columns scenario_clean)
  /\ well_shaped scenario_clean.
Proof.
  split.
  - vm_compute. repeat constructor; simpl; intuition discriminate.
  - unfold well_shaped. vm_compute. repeat constructor.
Qed.

End QuadrantRules.





(* ================================================================== *)
(** * The classified frame *)
(* ================================================================== *)

Section ClassifiedFrame.

(** The frame a completed run returns, written out. *)
Lemma process_data_frame (df df' : DataFrame) (vcols : list string) (m : Z) :
  process_data df vcols = Ok (df', m) ->
  let vs := map (fun i => Z.of_nat (count_yes df vcols i))
              (seq 0 (nrows df)) in
  exists (d1 : DataFrame) (es : list Z) (q : list string),
    standardize_all df vcols = Ok d1
    /\ value_scores d1 vcols = Ok vs
    /\ engagement_levels (setitem d1 "value_score" (map Int vs))
       = Ok (map Int es)
    /\ quadrant_labels (map Int vs) (map Int es) m (nrows df) = Ok q
    /\ m = max_score_of vcols
    /\ df' = setitem
               (setitem
                  (setitem (setitem d1 "value_score" (map Int vs))
                     "engagement_level" (map Int es))
                  "quadrant" (map Str q))
               "size" (map (fun v => Int (size_for v)) vs).
Proof.
  unfold process_data.
  destruct (standardize_all df vcols) as [d1|e] eqn:E1; cbn [bind];
    [|discriminate].
  destruct (value_scores d1 vcols) as [vs0|e] eqn:E2; cbn [bind];
    [|discriminate].
  pose proof (value_scores_Ok df d1 vcols vs0 E1 E2) as Hvs.
  destruct (standardize_all_Ok vcols df d1 E1) as [Hc [Hn _]].
  destruct (engagement_levels _) as [en|e] eqn:E3; cbn [bind];
    [|discriminate].
  destruct (engagement_levels_Ok _ _ E3) as [es [Hen _]].
  destruct (get_series _ "value_score") as [vsS|e] eqn:E4; cbn [bind];
    [|discriminate].
  rewrite get_series_setitem_other in E4 by discriminate.
  pose proof (get_series_setitem_inv _ _ _ _ E4) as HvsS.
  destruct (get_series _ "engagement_level") as [enS|e] eqn:E5; cbn [bind];
    [|discriminate].
  pose proof (get_series_setitem_inv _ _ _ _ E5) as HenS.
  destruct (quadrant_labels vsS enS _ _) as [q|e] eqn:E6; cbn [bind];
    [|discriminate].
  destruct (get_series (setitem _ "quadrant" _) "value_score")
    as [vs2|e] eqn:E7; cbn [bind]; [|discriminate].
  rewrite get_series_setitem_other in E7 by discriminate.
  rewrite get_series_setitem_other in E7 by discriminate.
  rewrite E4 in E7. injection E7 as <-.
  subst vsS enS en vs0. rewrite size_of_ints. cbn [bind].
  intros [= <- <-]. cbv zeta. exists d1, es, q.
  rewrite !nrows_setitem, Hn in E6.
  repeat split; assumption.
Qed.

End ClassifiedFrame.

Section DerivedColumns.

Lemma mem_app (c : string) (l l' : list string) :
  mem c (l ++ l') = mem c l || mem c l'.
Proof. unfold mem. apply existsb_app. Qed.

Lemma find_app_none {A : Type} (p : A -> bool) (l l' : list A) :
  find p l' = None -> find p (l ++ l') = find p l.
Proof.
  intros H. induction l as [|x l IH]; simpl; [exact H|].
  destruct (p x); [reflexivity | exact IH].
Qed.

Lemma find_none_iff {A : Type} (p : A -> bool) (l : list A) :
  find p l = None <-> forall x, In x l -> p x = false.
Proof.
  split; [apply find_none|].
  induction l as [|x l IH]; intros H; simpl; [reflexivity|].
  rewrite (H x (or_introl eq_refl)). apply IH. intros y Hy. apply H. now right.
Qed.


Lemma engagement_levels_none (d : DataFrame) :
  find stage_like (columns d) = None ->
  engagement_levels d = Ok (repeat (Int 0) (nrows d)).
Proof.
  unfold engagement_levels. fold stage_like.
  change (fun col => contains "stage" col || contains "subscription" col)
    with stage_like.
  now intros ->.
Qed.

Lemma stage_like_nonempty (c : string) : stage_like c = true -> c <> "".
Proof. intros H ->. discriminate H. Qed.

Lemma engagement_levels_some (d : DataFrame) (c : string) :
  find stage_like (columns d) = Some c ->
  engagement_levels d
  = bind (get_series d c)
      (fun s => Ok (map (fun x => Int (map_engagement_level x)) s)).
Proof.
  unfold engagement_levels.
  change (fun col => contains "stage" col || contains "subscription" col)
    with stage_like.
  intros H. rewrite H. apply find_some in H as [_ H].
  destruct c as [|a c]; [discriminate H | reflexivity].
Qed.

Lemma map_Int_inj (l l' : list Z) : map Int l = map Int l' -> l = l'.
Proof.
  revert l'; induction l as [|x l IH]; intros [|y l']; simpl;
    try discriminate; [reflexivity|].
  intros [= -> H]. now rewrite (IH l' H).
Qed.


(** The fields of the classified frame, for a frame with pairwise
    distinct labels. *)
Lemma classified_fields (df df' : DataFrame) (vcols : list string) (m : Z) :
  NoDup (columns df) ->
  process_data df vcols = Ok (df', m) ->
  let vs := map (fun i => Z.of_nat (count_yes df vcols i))
              (seq 0 (nrows df)) in
  exists (d1 : DataFrame) (es : list Z),
    standardize_all df vcols = Ok d1
    /\ engagement_levels (setitem d1 "value_score" (map Int vs))
       = Ok (map Int es)
    /\ NoDup (columns df')
    /\ get_series df' "value_score" = Ok (map Int vs)
    /\ get_series df' "engagement_level" = Ok (map Int es)
    /\ get_series df' "size" = Ok (map (fun v => Int (size_for v)) vs).
Proof.
  intros Hnd E. cbv zeta.
  destruct (process_data_frame df df' vcols m E)
    as [d1 [es [q [E1 [_ [E3 [_ [_ ->]]]]]]]].
  destruct (standardize_all_Ok vcols df d1 E1) as [Hc _].
  assert (Hnd1 : NoDup (columns d1)) by now rewrite Hc.
  exists d1, es. split; [exact E1|]. split; [exact E3|].
  split; [now repeat apply NoDup_setitem|]. split; [|split].
  - rewrite !get_series_setitem_other by discriminate.
    apply get_series_setitem_same, getitem_NoDup, Hnd1.
  - rewrite !get_series_setitem_other by discriminate.
    apply get_series_setitem_same, getitem_NoDup. now apply NoDup_setitem.
  - apply get_series_setitem_same, getitem_NoDup.
    now repeat apply NoDup_setitem.
Qed.

Lemma size_for_values (v : Z) :
  0 <= v ->
  25 <= size_for v <= 60
  /\ (v <= 2 -> size_for v = 12 * v + 25)
  /\ (3 <= v -> size_for v = 60).
Proof. unfold size_for. lia. Qed.

End DerivedColumns.

(** X1. The bubble size of a record is 12 * value_score + 25 capped at
    60: 25, 37 and 49 for the value scores 0, 1 and 2, and 60 from 3 on.
    It grows with the value score and never goes below 25, so the lower
    bound 20 of the clip is never met. *)
Theorem bubble_size_range (df : DataFrame) (vcols : list string) :
  NoDup (columns df) -> incl vcols (columns df) ->
  exists df' m,
    process_data df vcols = Ok (df', m)
    /\ (forall i, (i < nrows df)%nat ->
        let v := Z.of_nat (count_yes df vcols i) in
        field df' "value_score" i = Some (Int v)
        /\ field df' "size" i = Some (Int (size_for v))
        /\ 25 <= size_for v <= 60
        /\ (v <= 2 -> size_for v = 12 * v + 25)
        /\ (3 <= v -> size_for v = 60))
    /\ (forall a b, a <= b -> size_for a <= size_for b).
Proof.
  intros Hnd Hincl.
  destruct (process_data_total df vcols Hnd Hincl) as [df' [m E]].
  exists df', m. split; [exact E|]. split; [|unfold size_for; lia].
  intros i Hi. cbv zeta.
  destruct (classified_fields df df' vcols m Hnd E)
    as [d1 [es [_ [_ [_ [Hv [_ Hs]]]]]]].
  pose proof (nth_error_map_seq
                (fun i => Z.of_nat (count_yes df vcols i)) _ _ Hi) as Hvi.
  unfold field. rewrite Hv, Hs.
  rewrite (nth_error_map Int), (nth_error_map (fun v => Int (size_for v))).
  rewrite Hvi. cbn [option_map].
  split; [reflexivity|]. split; [reflexivity|].
  apply size_for_values. lia.
Qed.

Lemma bubble_size_range_witness :
  exists df' m,
    process_data scenario_clean
      [ "uses_portal"; "uses_fax"; "uses_ehr"; "uses_mobile" ]
    = Ok (df', m)
    /\ field df' "size" 0 = Some (Int 60).
Proof.
  destruct (bubble_size_range scenario_clean
              [ "uses_portal"; "uses_fax"; "uses_ehr"; "uses_mobile" ]
              (proj1 scenario_frame_shape))
    as [df' [m [E [H _]]]].
  - intros c Hc. vm_compute. simpl in Hc. intuition.
  - exists df', m. split; [exact E|].
    exact (proj1 (proj2 (H 0%nat ltac:(vm_compute; lia)))).
Defined.



Section KeepsTable.

Lemma mem_single_other (c c' : string) (l : list string) :
  c <> c' -> mem c (l ++ [c']) = mem c l.
Proof.
  intros H. rewrite mem_app. unfold mem at 2. simpl.
  apply String.eqb_neq in H. rewrite H. now rewrite !orb_false_r.
Qed.

(** The labels after the four writes of the classifier. *)
Lemma columns_derived (d : DataFrame) (s1 s2 s3 s4 : Series) :
  columns
    (setitem
       (setitem (setitem (setitem d "value_score" s1) "engagement_level" s2)
          "quadrant" s3)
       "size" s4)
  = (columns d
     ++ filter (fun l => negb (mem l (columns d))) derived_labels)%list.
Proof.
  rewrite !columns_setitem. unfold derived_labels. cbn [filter].
  destruct (mem "value_score" (columns d)) eqn:B1;
    rewrite ?mem_single_other by discriminate;
    destruct (mem "engagement_level" (columns d)) eqn:B2;
    rewrite ?mem_single_other by discriminate;
    destruct (mem "quadrant" (columns d)) eqn:B3;
    rewrite ?mem_single_other by discriminate;
    destruct (mem "size" (columns d)) eqn:B4;
    cbn [negb app]; rewrite <- ?app_assoc; cbn [app];
    now rewrite ?app_nil_r.
Qed.

Lemma getitem_setitem_all (d : DataFrame) (c : string) (s : Series) :
  getitem (setitem d c s) c <> []
  /\ Forall (fun x => x = s) (getitem (setitem d c s) c).
Proof.
  rewrite getitem_setitem_same. destruct (getitem d c) as [|x l].
  - split; [discriminate | now repeat constructor].
  - split; [discriminate|]. apply Forall_forall. intros y Hy.
    apply in_map_iff in Hy as [z [<- _]]. reflexivity.
Qed.

Lemma length_quadrant_labels (vs es : list Z) (m : Z) (n : nat)
  (q : list string) :
  List.length vs = n -> List.length es = n ->
  quadrant_labels (map Int vs) (map Int es) m n = Ok q ->
  List.length q = n.
Proof.
  intros Hv He. rewrite (quadrant_labels_ints m vs es n Hv He).
  intros [= <-]. rewrite length_map, length_combine. lia.
Qed.

End KeepsTable.

Lemma classified_table (df df' : DataFrame) (vcols : list string)
  (m : Z) :
  process_data df vcols = Ok (df', m) ->
  nrows df' = nrows df
  /\ columns df'
     = (columns df
        ++ filter (fun l => negb (mem l (columns df))) derived_labels)%list
  /\ (forall c, ~ In c vcols -> ~ In c derived_labels ->
      getitem df' c = getitem df c)
  /\ (forall c, In c vcols -> ~ In c derived_labels ->
      exists s, getitem df c = [s]
        /\ getitem df' c = [map normalize_cell s])
  /\ (getitem df' "value_score" <> []
      /\ Forall
           (fun s => s = map (fun i => Int (Z.of_nat (count_yes df vcols i)))
                           (seq 0 (nrows df)))
           (getitem df' "value_score"))
  /\ (getitem df' "size" <> []
      /\ Forall
           (fun s => s = map (fun i => Int (size_for
                                              (Z.of_nat (count_yes df vcols i))))
                           (seq 0 (nrows df)))
           (getitem df' "size"))
  /\ (well_shaped df -> well_shaped df').
Proof.
  intros E.
  destruct (process_data_frame df df' vcols m E)
    as [d1 [es [q [E1 [_ [E3 [E6 [_ ->]]]]]]]].
  destruct (standardize_all_Ok vcols df d1 E1) as [Hc [Hn [Ho Hi]]].
  assert (Hd : forall c, ~ In c derived_labels ->
                 c <> "value_score" /\ c <> "engagement_level"
                 /\ c <> "quadrant" /\ c <> "size").
  { intros c H. unfold derived_labels in H. simpl in H. intuition. }
  split; [now rewrite !nrows_setitem|].
  split; [now rewrite columns_derived, Hc|].
  split; [|split; [|split; [|split]]].
  - intros c Hv Hder. destruct (Hd c Hder) as [H1 [H2 [H3 H4]]].
    rewrite !getitem_setitem_other by assumption. now apply Ho.
  - intros c Hv Hder. destruct (Hd c Hder) as [H1 [H2 [H3 H4]]].
    rewrite !getitem_setitem_other by assumption. now apply Hi.
  - rewrite !(getitem_setitem_other _ _ "value_score") by discriminate.
    rewrite <- (map_map (fun i => Z.of_nat (count_yes df vcols i)) Int).
    apply getitem_setitem_all.
  - rewrite <- (map_map (fun i => Z.of_nat (count_yes df vcols i))
                  (fun v => Int (size_for v))).
    apply getitem_setitem_all.
  - intros Hw.
    pose proof (well_shaped_standardize_all vcols df d1 Hw E1) as Hw1.
    assert (Hl : List.length
                   (map (fun i => Z.of_nat (count_yes df vcols i))
                      (seq 0 (nrows df))) = nrows df)
      by apply length_value_scores.
    assert (Hw2 : well_shaped
                    (setitem d1 "value_score"
                       (map Int (map (fun i => Z.of_nat (count_yes df vcols i))
                                   (seq 0 (nrows df)))))).
    { apply well_shaped_setitem; [exact Hw1|]. now rewrite length_map, Hn. }
    destruct (engagement_levels_Ok _ _ E3) as [es' [Hes [_ Hlen]]].
    apply map_Int_inj in Hes. subst es'. specialize (Hlen Hw2).
    rewrite nrows_setitem, Hn in Hlen.
    pose proof (length_quadrant_labels _ _ _ _ _ Hl Hlen E6) as Hq.
    repeat apply well_shaped_setitem; try exact Hw1;
      rewrite ?nrows_setitem, ?length_map, ?length_seq, ?Hn;
      solve [assumption | reflexivity].
Qed.

(** X3. A completed run of the classifier keeps the table: the same rows,
    the same columns in the same order followed by those of value_score,
    engagement_level, quadrant and size that were not there, the value
    columns rewritten to Yes and No and every other column untouched. An
    uploaded column that already carries one of the four labels is not
    kept: all it holds afterwards is what the classifier computed. *)
Theorem process_data_keeps_table (df df' : DataFrame) (vcols : list string)
  (m : Z) :
  process_data df vcols = Ok (df', m) ->
  nrows df' = nrows df
  /\ columns df'
     = (columns df
        ++ filter (fun l => negb (mem l (columns df))) derived_labels)%list
  /\ (forall c, ~ In c vcols -> ~ In c derived_labels ->
      getitem df' c = getitem df c)
  /\ (forall c, In c vcols -> ~ In c derived_labels ->
      exists s, getitem df c = [s]
        /\ getitem df' c = [map normalize_cell s])
  /\ (getitem df' "value_score" <> []
      /\ Forall
           (fun s => s = map (fun i => Int (Z.of_nat (count_yes df vcols i)))
                           (seq 0 (nrows df)))
           (getitem df' "value_score"))
  /\ (getitem df' "size" <> []
      /\ Forall
           (fun s => s = map (fun i => Int (size_for
                                              (Z.of_nat (count_yes df vcols i))))
                           (seq 0 (nrows df)))
           (getitem df' "size"))
  /\ (well_shaped df -> well_shaped df').
Proof. exact (classified_table df df' vcols m). Qed.

Lemma process_data_keeps_table_witness :
  exists df' m,
    process_data
      (mkDF 2 [ ("agency", [Str "a"; Str "b"]);
                ("size", [Str "large"; Str "small"]);
                ("portal", [Str "yes"; Str "no"]) ])
      ["portal"]
    = Ok (df', m)
    /\ columns df'
       = ["agency"; "size"; "portal"; "value_score"; "engagement_level";
          "quadrant"]
    /\ field df' "size" 0 = Some (Int 37).
Proof.
  eexists. eexists. split; [vm_compute; reflexivity|].
  split.
  - refine (proj1 (proj2 (process_data_keeps_table
                            (mkDF 2 [ ("agency", [Str "a"; Str "b"]);
                                      ("size", [Str "large"; Str "small"]);
                                      ("portal", [Str "yes"; Str "no"]) ])
                            _ ["portal"] 1 _))).
    vm_compute. reflexivity.
  - reflexivity.
Defined.

Section Idempotence.

Lemma map_fixed {A : Type} (f : A -> A) (l : list A) :
  (forall x, In x l -> f x = x) -> map f l = l.
Proof.
  induction l as [|x l IH]; intros H; simpl; [reflexivity|].
  rewrite (H x (or_introl eq_refl)), IH; [reflexivity|].
  intros y Hy. apply H. now right.
Qed.

(** Writing a column its own content changes nothing. *)
Lemma setitem_fixed (d : DataFrame) (c : string) (s : Series) :
  get_series d c = Ok s -> setitem d c s = d.
Proof.
  intros H. apply get_series_Ok in H. unfold setitem.
  assert (Hm : mem c (columns d) = true).
  { destruct (mem c (columns d)) eqn:Hm; [reflexivity|].
    apply getitem_nil_iff in Hm. congruence. }
  rewrite Hm. destruct d as [n cs]. simpl. f_equal.
  apply map_fixed. intros [l x] Hin. simpl.
  destruct (String.eqb_spec l c) as [->|_]; [|reflexivity].
  assert (Hx : In x (getitem (mkDF n cs) c)).
  { unfold getitem. simpl. apply in_map_iff. exists (c, x).
    split; [reflexivity|]. apply filter_In. split; [exact Hin|].
    simpl. apply String.eqb_refl. }
  rewrite H in Hx. destruct Hx as [<-|[]]. reflexivity.
Qed.

Lemma setitem_setitem (d : DataFrame) (c : string) (s s' : Series) :
  setitem (setitem d c s) c s' = setitem d c s'.
Proof.
  unfold setitem at 1 3. rewrite columns_setitem.
  destruct (mem c (columns d)) eqn:Hm.
  - unfold setitem. rewrite Hm. simpl. f_equal. rewrite map_map.
    apply map_ext. intros [l x]. simpl.
    destruct (String.eqb l c) eqn:E; simpl; now rewrite E.
  - rewrite mem_app, Hm. unfold mem at 1. simpl. rewrite String.eqb_refl.
    simpl. unfold setitem. rewrite Hm. simpl. f_equal.
    rewrite map_app. simpl. rewrite String.eqb_refl. f_equal.
    apply map_fixed. intros [l x] Hin. simpl.
    destruct (String.eqb_spec l c) as [->|_]; [|reflexivity].
    exfalso. assert (Hc : In c (columns d)).
    { unfold columns. apply in_map_iff. now exists (c, x). }
    apply mem_In in Hc. congruence.
Qed.

Lemma standardize_fixed (d : DataFrame) (c : string) (s : Series) :
  get_series d c = Ok s -> map normalize_cell s = s ->
  standardize d c = Ok d.
Proof.
  intros H Hs. unfold standardize. rewrite H. cbn [bind].
  rewrite get_series_setitem_same
    by (apply get_series_Ok in H; rewrite H; simpl; lia).
  cbn [bind]. rewrite setitem_setitem, map_map.
  change (map (fun x => yes_no (Str (lower (strip (py_str x))))) s)
    with (map normalize_cell s).
  now rewrite Hs, (setitem_fixed d c s H).
Qed.

Lemma standardize_all_fixed (vcols : list string) (d : DataFrame) :
  (forall c, In c vcols ->
     exists s, get_series d c = Ok s /\ map normalize_cell s = s) ->
  standardize_all d vcols = Ok d.
Proof.
  induction vcols as [|c r IH]; intros H; simpl; [reflexivity|].
  destruct (H c (or_introl eq_refl)) as [s [Hs Hn]].
  rewrite (standardize_fixed d c s Hs Hn). cbn [bind].
  apply IH. intros c' Hc'. apply H. now right.
Qed.

Lemma select_ext (d d' : DataFrame) (labels : list string) :
  (forall c, In c labels -> getitem d' c = getitem d c) ->
  select d' labels = select d labels.
Proof.
  induction labels as [|c r IH]; intros H; simpl; [reflexivity|].
  rewrite (H c (or_introl eq_refl)), IH; [reflexivity|].
  intros c' Hc'. apply H. now right.
Qed.

Lemma find_stage_setitem_other (d : DataFrame) (c : string) (s : Series) :
  stage_like c = false ->
  find stage_like (columns (setitem d c s)) = find stage_like (columns d).
Proof.
  intros H. rewrite columns_setitem. destruct (mem c (columns d));
    [reflexivity|].
  apply find_app_none. simpl. now rewrite H.
Qed.

Lemma engagement_levels_ext (d d' : DataFrame) :
  find stage_like (columns d') = find stage_like (columns d) ->
  nrows d' = nrows d ->
  (forall c, stage_like c = true -> get_series d' c = get_series d c) ->
  engagement_levels d' = engagement_levels d.
Proof.
  intros Hf Hn Hg. unfold engagement_levels.
  change (fun col => contains "stage" col || contains "subscription" col)
    with stage_like.
  rewrite Hf, Hn. destruct (find stage_like (columns d)) as [c|] eqn:E;
    [|reflexivity].
  apply find_some in E as [_ E].
  destruct c as [|a c]; [reflexivity|]. now rewrite (Hg _ E).
Qed.

End Idempotence.

(** X4. Classifying a classified table again changes nothing: on a table
    with pairwise distinct labels, none of the value columns being
    called value_score, engagement_level, quadrant or size, a second run
    on the result of the first returns the same frame and the same
    maximum score. *)
Theorem process_data_idempotent (df df' : DataFrame) (vcols : list string)
  (m : Z) :
  NoDup (columns df) ->
  (forall c, In c vcols -> ~ In c derived_labels) ->
  process_data df vcols = Ok (df', m) ->
  process_data df' vcols = Ok (df', m).
Proof.
  intros Hnd Hder E.
  destruct (classified_fields df df' vcols m Hnd E)
    as [d1 [es [E1 [E3 [Hnd' [Hv [He Hs]]]]]]].
  destruct (classified_table df df' vcols m E)
    as [Hn [_ [_ [Hvc _]]]].
  destruct (process_data_frame df df' vcols m E)
    as [d1' [es' [q [E1' [E2 [E3' [E6 [Hm Hdf']]]]]]]].
  rewrite E1 in E1'. injection E1' as <-.
  rewrite E3 in E3'. injection E3' as E3'. apply map_Int_inj in E3'.
  subst es'.
  destruct (standardize_all_Ok vcols df d1 E1) as [_ [Hn1 [_ Hi]]].
  assert (Hq : get_series df' "quadrant" = Ok (map Str q)).
  { rewrite Hdf'. rewrite get_series_setitem_other by discriminate.
    apply get_series_setitem_same, getitem_NoDup.
    now repeat apply NoDup_setitem; destruct (standardize_all_Ok _ _ _ E1)
      as [-> _]. }
  unfold process_data.
  (* the cleaning loop *)
  rewrite (standardize_all_fixed vcols df').
  2:{ intros c Hc. destruct (Hvc c Hc (Hder c Hc)) as [s [_ Hs']].
      exists (map normalize_cell s). split; [now apply get_series_Ok|].
      apply map_normalize_idem. }
  cbn [bind].
  (* the value scores *)
  assert (E2' : value_scores df' vcols
                = Ok (map (fun i => Z.of_nat (count_yes df vcols i))
                        (seq 0 (nrows df)))).
  { rewrite <- E2. unfold value_scores. rewrite Hn, Hn1.
    rewrite (select_ext d1 df'); [reflexivity|].
    intros c Hc. destruct (Hvc c Hc (Hder c Hc)) as [s [Hs0 Hs1]].
    destruct (Hi c Hc) as [s0 [Hs2 Hs3]]. congruence. }
  rewrite E2'. cbn [bind]. rewrite (setitem_fixed df' _ _ Hv).
  (* the engagement levels *)
  assert (E3'' : engagement_levels df' = Ok (map Int es)).
  { rewrite <- E3. apply engagement_levels_ext.
    - rewrite Hdf'. now rewrite !find_stage_setitem_other by reflexivity.
    - now rewrite nrows_setitem, Hn1.
    - intros c Hc. rewrite Hdf'.
      rewrite !get_series_setitem_other; try reflexivity;
        intros ->; discriminate Hc. }
  rewrite E3''. cbn [bind]. rewrite (setitem_fixed df' _ _ He).
  rewrite Hv, He. cbn [bind]. rewrite <- Hm, Hn, E6. cbn [bind].
  rewrite (setitem_fixed df' _ _ Hq), Hv. cbn [bind].
  rewrite size_of_ints. cbn [bind].
  change (map (fun z => Int (Z.min (Z.max (z * 12 + 25) 20) 60)))
    with (map (fun v => Int (size_for v))).
  now rewrite (setitem_fixed df' _ _ Hs).
Qed.

Lemma process_data_idempotent_witness :
  exists df' m,
    process_data scenario_clean
      [ "uses_portal"; "uses_fax"; "uses_ehr"; "uses_mobile" ]
    = Ok (df', m)
    /\ process_data df'
         [ "uses_portal"; "uses_fax"; "uses_ehr"; "uses_mobile" ]
       = Ok (df', m).
Proof.
  eexists. eexists. split; [vm_compute; reflexivity|].
  apply (process_data_idempotent scenario_clean).
  - exact (proj1 scenario_frame_shape).
  - intros c Hc Hd. vm_compute in Hc, Hd.
    repeat (destruct Hc as [<-|Hc];
            [repeat (destruct Hd as [Hd|Hd]; [discriminate Hd|]); exact Hd|]).
    exact Hc.
  - vm_compute. reflexivity.
Defined.

(* ================================================================== *)
(** * The inferred columns *)
(* ================================================================== *)

Section InferredColumns.

Lemma count_occ_columns (df : DataFrame) (c : string) :
  count_occ string_dec (columns df) c = List.length (getitem df c).
Proof.
  unfold columns, getitem. induction (cols df) as [|[l x] cs IH]; simpl;
    [reflexivity|].
  destruct (string_dec l c) as [->|Hne].
  - rewrite String.eqb_refl. simpl. now rewrite IH.
  - apply String.eqb_neq in Hne. now rewrite Hne.
Qed.

Lemma NoDup_filter_once (p : string -> bool) (l : list string) :
  (forall y, p y = true -> (count_occ string_dec l y <= 1)%nat) ->
  NoDup (filter p l).
Proof.
  induction l as [|x l IH]; intros H; simpl; [constructor|].
  assert (Hl : forall y, p y = true -> (count_occ string_dec l y <= 1)%nat).
  { intros y Hy. specialize (H y Hy). simpl in H.
    destruct (string_dec x y); lia. }
  destruct (p x) eqn:Hx; [|now apply IH].
  constructor; [|now apply IH].
  intros Hin. apply filter_In in Hin as [Hin _].
  specialize (H x Hx). simpl in H.
  destruct (string_dec x x) as [_|Hne]; [|congruence].
  apply (count_occ_In string_dec) in Hin. lia.
Qed.

Lemma filter_all {A : Type} (p : A -> bool) (l : list A) :
  (forall x, In x l -> p x = true) -> filter p l = l.
Proof.
  induction l as [|x l IH]; intros H; simpl; [reflexivity|].
  rewrite (H x (or_introl eq_refl)), IH; [reflexivity|].
  intros y Hy. apply H. now right.
Qed.

End InferredColumns.

(** X5. The inferred list of value columns never repeats a label, even
    when the table does, and keeps to the labels of the table, each of its
    labels naming exactly one column; so the maximum score counts every
    boolean column once and is at most the number of columns, 1
    apart. *)
Theorem inferred_columns_distinct (df : DataFrame) :
  NoDup (infer_value_columns df)
  /\ incl (infer_value_columns df) (columns df)
  /\ (forall c, In c (infer_value_columns df) ->
      count_occ string_dec (columns df) c = 1%nat)
  /\ 1 <= max_score_of (infer_value_columns df)
     <= Z.max 1 (Z.of_nat (List.length (columns df))).
Proof.
  assert (Hone : forall c, In c (infer_value_columns df) ->
                   count_occ string_dec (columns df) c = 1%nat).
  { intros c Hc. destruct (inferred_columns_single df c Hc) as [s Hs].
    now rewrite count_occ_columns, Hs. }
  split; [|split; [|split]].
  - rewrite infer_loop_filter_columns. apply NoDup_filter_once.
    intros y Hy. apply passes_iff in Hy as [s [Hs _]].
    rewrite count_occ_columns, Hs. simpl. lia.
  - apply infer_value_columns_incl.
  - exact Hone.
  - split; [apply max_score_of_pos|].
    unfold max_score_of. rewrite infer_loop_filter_columns.
    pose proof (filter_length_le (passes df) (columns df)) as H.
    destruct (List.length (filter (passes df) (columns df))); lia.
Qed.

Lemma inferred_columns_distinct_witness :
  count_occ string_dec
    (columns (mkDF 1 [ ("portal", [Str "yes"]); ("portal", [Str "no"]);
                       ("fax", [Int 1]) ]))
    "fax" = 1%nat.
Proof.
  apply (proj1 (proj2 (proj2 (inferred_columns_distinct
                  (mkDF 1 [ ("portal", [Str "yes"]); ("portal", [Str "no"]);
                            ("fax", [Int 1]) ]))))).
  vm_compute. now left.
Defined.

Lemma no_rows_all_inferred (df : DataFrame) :
  NoDup (columns df) -> well_shaped df -> nrows df = 0%nat ->
  infer_value_columns df = columns df.
Proof.
  intros Hnd Hw Hn. rewrite infer_loop_filter_columns.
  apply filter_all. intros c Hc. apply passes_iff.
  destruct (get_series_NoDup df c Hnd Hc) as [s Hs].
  pose proof (well_shaped_get_series df c s Hw Hs) as Hl.
  exists s. split; [now apply get_series_Ok|].
  rewrite Hn in Hl. destruct s; [|discriminate]. intros x [].
Qed.

(** X6. For a table without rows every column is inferred as a value
    column: with pairwise distinct labels the inferred list is the whole
    list of labels, whatever the columns were meant to hold. *)
Theorem header_only_all_inferred (df : DataFrame) :
  NoDup (columns df) -> well_shaped df -> nrows df = 0%nat ->
  infer_value_columns df = columns df.
Proof. exact (no_rows_all_inferred df). Qed.

Lemma header_only_all_inferred_witness :
  infer_value_columns (mkDF 0 [ ("agency_name", []); ("notes", []) ])
  = ["agency_name"; "notes"].
Proof.
  apply (header_only_all_inferred
           (mkDF 0 [ ("agency_name", []); ("notes", []) ])).
  - repeat constructor; simpl; intuition discriminate.
  - repeat constructor.
  - reflexivity.
Defined.

(* ================================================================== *)
(** * A successful upload *)
(* ================================================================== *)

Section SuccessfulUpload.

Lemma filter_options_total (p : string -> bool) (df : DataFrame) :
  NoDup (columns df) -> exists o, filter_options p df = Ok o.
Proof.
  intros Hnd. unfold filter_options.
  destruct (find p (columns df)) as [[|c col]|] eqn:F; eauto.
  apply find_some in F as [Hin _].
  destruct (get_series_NoDup df _ Hnd Hin) as [s ->]. cbn [bind]. eauto.
Qed.

Lemma read_table_nonempty (L : Libraries) (contents : string)
  (raw : Table) :
  read_table L contents = Ok raw -> falsy (Some contents) = false.
Proof. destruct contents; [discriminate | reflexivity]. Qed.

(** The loader on contents that read as a table. *)
Lemma loader_reads (L : Libraries) (contents : string) (filename : string)
  (raw : Table) :
  read_table L contents = Ok raw ->
  process_uploaded_data L (Some contents) filename
  = match clean_column_names raw with
    | Ok df =>
        [PFrame df; PList (infer_value_columns df);
         PList (texts (table_columns raw))]
    | Raise e =>
        [PNone; PStr ("Error processing file: " ++ str_failure e); PList []]
    end.
Proof.
  intros Hr. destruct contents as [|c0 contents]; [discriminate Hr|].
  unfold process_uploaded_data, try_load. rewrite Hr. cbn [bind].
  now destruct (clean_column_names raw).
Qed.

Lemma empty_clean (df : Table) (df_clean : DataFrame) :
  clean_column_names df = Ok df_clean ->
  empty df_clean
  = ((table_nrows df =? 0)%nat || (List.length (table_cols df) =? 0)%nat).
Proof.
  intros H. destruct (clean_Ok_frame df df_clean H) as [_ [_ [Hn Hl]]].
  unfold empty. now rewrite Hn, Hl.
Qed.

End SuccessfulUpload.

Lemma upload_succeeds (L : Libraries) (s : session) (contents : string)
  (filename : string) (raw : Table) (names : list string) :
  read_table L contents = Ok raw ->
  table_columns raw = map Text names ->
  table_nrows raw <> 0%nat ->
  names <> [] ->
  NoDup (map clean_label names) ->
  exists df processed layout,
    clean_column_names raw = Ok df
    /\ process_data df (infer_value_columns df)
       = Ok (processed, max_score_of (infer_value_columns df))
    /\ nrows processed = table_nrows raw
    /\ handle_upload L (Some contents) filename
       = Ok (mkOutputs
               (Update
                  (mkAlert
                     [ Lit "✅ Successfully processed: "; Fmt (PStr filename);
                       Lit " ("; Fmt (PInt (Z.of_nat (table_nrows raw)));
                       Lit " agencies)" ]
                     "success"))
               (Update layout) (Update processed)
               (Update (infer_value_columns df))
               (Update (max_score_of (infer_value_columns df)))
               (Update filename) (Update names))
    /\ snapshot (apply_outputs s (handle_upload L (Some contents) filename))
       = (Some processed, Some (infer_value_columns df),
          Some (max_score_of (infer_value_columns df)),
          Some filename, Some names).
Proof.
  intros Hr Ht Hrows Hcols Hnd.
  pose proof (clean_texts raw names Ht) as Hclean.
  set (df := mkDF (table_nrows raw)
               (combine (map clean_label names) (map snd (table_cols raw))))
    in Hclean.
  set (vcols := infer_value_columns df).
  destruct (clean_Ok_frame raw df Hclean) as [Hc [_ [Hn _]]].
  rewrite Ht, texts_map_Text in Hc.
  assert (Hnd' : NoDup (columns df)) by now rewrite Hc.
  assert (Hne : empty df = false).
  { rewrite (empty_clean raw df Hclean). apply orb_false_iff. split.
    - now apply Nat.eqb_neq.
    - apply Nat.eqb_neq. intros Hz.
      apply (f_equal (@List.length label)) in Ht.
      unfold table_columns in Ht. rewrite !length_map, Hz in Ht.
      destruct names; [congruence | discriminate]. }
  destruct (process_data_total df vcols Hnd' (infer_value_columns_incl df))
    as [processed [m E]].
  destruct (process_data_frame df processed vcols m E)
    as [_ [_ [_ [_ [_ [_ [_ [Hm _]]]]]]]].
  subst m.
  destruct (classified_table df processed vcols _ E) as [Hnp _].
  destruct (classified_fields df processed vcols _ Hnd' E)
    as [_ [_ [_ [_ [Hndp _]]]]].
  destruct (filter_options_total (fun col => contains "group" col)
              processed Hndp) as [g Hg].
  destruct (filter_options_total
              (fun col => contains "agency" col && contains "name" col)
              processed Hndp) as [a Ha].
  exists df, processed, (mkLayout filename g a).
  split; [exact Hclean|]. split; [exact E|].
  split; [now rewrite Hnp|].
  assert (Hh : handle_upload L (Some contents) filename
               = Ok (mkOutputs
                       (Update
                          (mkAlert
                             [ Lit "✅ Successfully processed: ";
                               Fmt (PStr filename); Lit " (";
                               Fmt (PInt (Z.of_nat (table_nrows raw)));
                               Lit " agencies)" ]
                             "success"))
                       (Update (mkLayout filename g a)) (Update processed)
                       (Update vcols) (Update (max_score_of vcols))
                       (Update filename) (Update names))).
  { unfold handle_upload. rewrite (read_table_nonempty L contents raw Hr).
    rewrite (loader_reads L contents filename raw Hr), Hclean.
    cbn [unpack3 bind handle_loaded].
    rewrite Hne. fold vcols. rewrite E. cbn [bind]. rewrite Hg. cbn [bind].
    rewrite Ha. cbn [bind]. now rewrite Hnp, Hn, Ht, texts_map_Text. }
  split; [exact Hh|]. rewrite Hh. reflexivity.
Qed.

Lemma upload_rejected (L : Libraries) (s : session) (contents : string)
  (filename : string) (raw : Table) (e : failure) :
  read_table L contents = Ok raw ->
  clean_column_names raw = Raise e ->
  process_uploaded_data L (Some contents) filename
  = [PNone; PStr ("Error processing file: " ++ str_failure e); PList []]
  /\ handle_upload L (Some contents) filename
     = Ok (error_outputs (PStr ("Error processing file: " ++ str_failure e)))
  /\ snapshot (apply_outputs s (handle_upload L (Some contents) filename))
     = snapshot s.
Proof.
  intros Hr He.
  assert (Hp : process_uploaded_data L (Some contents) filename
               = [PNone; PStr ("Error processing file: " ++ str_failure e);
                  PList []])
    by now rewrite (loader_reads L contents filename raw Hr), He.
  assert (Hh : handle_upload L (Some contents) filename
               = Ok (error_outputs
                       (PStr ("Error processing file: " ++ str_failure e)))).
  { unfold handle_upload. rewrite (read_table_nonempty L contents raw Hr), Hp.
    reflexivity. }
  split; [exact Hp|]. split; [exact Hh|]. rewrite Hh. now destruct s.
Qed.

(** X7. An upload that reads as a table with at least one row and one
    column, every label a text and the cleaned labels pairwise distinct,
    always succeeds: the callback shows the success alert with the number
    of rows and writes the five stores together, the classified frame with
    as many rows as the upload, the inferred value columns, their maximum
    score, the file name and the labels as uploaded. An upload that reads
    as a table with a label that is not a text never succeeds: the
    normalizer raises on the first such label, the loader returns no
    table with the message of that failure, and the callback shows it and
    writes no store. *)
Theorem successful_upload (L : Libraries) (s : session) (contents : string)
  (filename : string) (raw : Table) :
  read_table L contents = Ok raw ->
  (forall names : list string,
     table_columns raw = map Text names ->
     table_nrows raw <> 0%nat ->
     names <> [] ->
     NoDup (map clean_label names) ->
     exists df processed layout,
       clean_column_names raw = Ok df
       /\ process_data df (infer_value_columns df)
          = Ok (processed, max_score_of (infer_value_columns df))
       /\ nrows processed = table_nrows raw
       /\ handle_upload L (Some contents) filename
          = Ok (mkOutputs
                  (Update
                     (mkAlert
                        [ Lit "✅ Successfully processed: "; Fmt (PStr filename);
                          Lit " ("; Fmt (PInt (Z.of_nat (table_nrows raw)));
                          Lit " agencies)" ]
                        "success"))
                  (Update layout) (Update processed)
                  (Update (infer_value_columns df))
                  (Update (max_score_of (infer_value_columns df)))
                  (Update filename) (Update names))
       /\ snapshot (apply_outputs s (handle_upload L (Some contents) filename))
          = (Some processed, Some (infer_value_columns df),
             Some (max_score_of (infer_value_columns df)),
             Some filename, Some names))
  /\ (forall (names : list string) (type_name : string) (rest : list label),
        table_columns raw
        = (map Text names ++ NonText type_name :: rest)%list ->
        let msg :=
          PStr ("Error processing file: "
                ++ str_failure (AttributeError type_name "strip")) in
        process_uploaded_data L (Some contents) filename
        = [PNone; msg; PList []]
        /\ handle_upload L (Some contents) filename = Ok (error_outputs msg)
        /\ snapshot (apply_outputs s (handle_upload L (Some contents) filename))
           = snapshot s).
Proof.
  intros Hr. split.
  - intros names. exact (upload_succeeds L s contents filename raw names Hr).
  - intros names ty rest Hn. cbv zeta.
    apply (upload_rejected L s contents filename raw _ Hr).
    unfold clean_column_names. now rewrite Hn, mapM_clean_nontext.
Qed.

Lemma successful_upload_witness :
  (exists processed,
     snapshot
       (apply_outputs (mkSession None None None None None None None)
          (handle_upload
             (demo_libraries (mkDetection None (S754_zero false))
                (Ok scenario_frame))
             (Some "data:text/csv;base64,QQ==") "agencies.csv"))
     = (Some processed,
        Some ["uses_portal"; "uses_fax"; "uses_ehr"; "uses_mobile"],
        Some 4, Some "agencies.csv",
        Some ["Agency Name"; "Stage"; "Uses Portal"; "Uses Fax"; "Uses EHR";
              "Uses Mobile"]))
  /\ handle_upload
       (demo_libraries (mkDetection None (S754_zero false)) (Ok year_frame))
       (Some workbook_contents) "agencies.xlsx"
     = Ok (error_outputs
             (PStr "Error processing file: 'int' object has no attribute 'strip'")).
Proof.
  split.
  - destruct (proj1 (successful_upload
                (demo_libraries (mkDetection None (S754_zero false))
                   (Ok scenario_frame))
                (mkSession None None None None None None None)
                "data:text/csv;base64,QQ==" "agencies.csv" scenario_frame
                eq_refl)
              [ "Agency Name"; "Stage"; "Uses Portal"; "Uses Fax"; "Uses EHR";
                "Uses Mobile" ] eq_refl)
      as [df [processed [layout [E [_ [_ [_ H]]]]]]].
    + discriminate.
    + discriminate.
    + vm_compute. repeat constructor; simpl; intuition discriminate.
    + exists processed. vm_compute in E. injection E as <-. exact H.
  - exact (proj1 (proj2 (proj2 (successful_upload
                (demo_libraries (mkDetection None (S754_zero false))
                   (Ok year_frame))
                (mkSession None None None None None None None)
                workbook_contents "agencies.xlsx" year_frame
                eq_refl)
              ["Agency"] "int" [] eq_refl))).
Defined.

(* ================================================================== *)
(** * The data URL *)
(* ================================================================== *)

Section DataUrl.




End DataUrl.



(** X17. An upload that reads as a table without rows, every label a
    text, is no failure for the loader, which returns the cleaned frame,
    the inferred columns and the labels; the callback then shows a danger
    alert that reads Error: followed by that list of inferred columns, no
    message, and writes no store. With pairwise distinct cleaned labels
    and no cell in any column the list is that of all the cleaned
    labels. *)
Theorem header_only_alert (L : Libraries) (s : session) (contents : string)
  (filename : string) (raw : Table) (names : list string) :
  read_table L contents = Ok raw ->
  table_columns raw = map Text names ->
  table_nrows raw = 0%nat ->
  exists df,
    clean_column_names raw = Ok df
    /\ process_uploaded_data L (Some contents) filename
       = [PFrame df; PList (infer_value_columns df); PList names]
    /\ handle_upload L (Some contents) filename
       = Ok (mkOutputs
               (Update (mkAlert [Lit "Error: ";
                                 Fmt (PList (infer_value_columns df))]
                          "danger"))
               no_update no_update no_update no_update no_update no_update)
    /\ snapshot (apply_outputs s (handle_upload L (Some contents) filename))
       = snapshot s
    /\ (NoDup (map clean_label names) ->
        Forall (fun p => snd p = []) (table_cols raw) ->
        infer_value_columns df = map clean_label names).
Proof.
  intros Hr Ht Hz.
  pose proof (clean_texts raw names Ht) as Hclean.
  set (df := mkDF (table_nrows raw)
               (combine (map clean_label names) (map snd (table_cols raw))))
    in Hclean.
  destruct (clean_Ok_frame raw df Hclean) as [Hc [Hv [Hn _]]].
  rewrite Ht, texts_map_Text in Hc.
  assert (Hp : process_uploaded_data L (Some contents) filename
               = [PFrame df; PList (infer_value_columns df); PList names])
    by now rewrite (loader_reads L contents filename raw Hr), Hclean, Ht,
         texts_map_Text.
  assert (Hh : handle_upload L (Some contents) filename
               = Ok (error_outputs (PList (infer_value_columns df)))).
  { unfold handle_upload. rewrite (read_table_nonempty L contents raw Hr), Hp.
    cbn [unpack3 bind handle_loaded]. unfold empty. now rewrite Hn, Hz. }
  exists df. split; [exact Hclean|]. split; [exact Hp|].
  split; [exact Hh|]. split; [rewrite Hh; now destruct s|].
  intros Hnd Hcells. rewrite <- Hc. apply no_rows_all_inferred.
  - now rewrite Hc.
  - unfold well_shaped.
    apply (proj1 (Forall_map snd
                    (fun x : Series => List.length x = nrows df) (cols df))).
    rewrite Hv, Forall_map. revert Hcells. apply Forall_impl.
    intros [l x] Hx. cbn [snd] in *. subst x. now rewrite Hn, Hz.
  - now rewrite Hn.
Qed.

Lemma header_only_alert_witness :
  handle_upload
    (demo_libraries (mkDetection None (S754_zero false)) (Ok header_frame))
    (Some "data:text/csv;base64,QWdlbmN5") "new.csv"
  = Ok (mkOutputs
          (Update (mkAlert [Lit "Error: "; Fmt (PList ["agency"])] "danger"))
          no_update no_update no_update no_update no_update no_update).
Proof.
  destruct (header_only_alert
              (demo_libraries (mkDetection None (S754_zero false))
                 (Ok header_frame))
              (mkSession None None None None None None None)
              "data:text/csv;base64,QWdlbmN5" "new.csv" header_frame
              ["Agency"] eq_refl eq_refl eq_refl)
    as [df [_ [_ [H [_ Hall]]]]].
  rewrite (Hall ltac:(repeat constructor; simpl; intuition discriminate)
                ltac:(repeat constructor)) in H.
  exact H.
Defined.

(* ================================================================== *)
(** * Letter case and margins *)
(* ================================================================== *)

Section Margins.

Lemma lstrip_all_space (a : string) : all_space a = true -> lstrip a = "".
Proof.
  induction a as [|c a IH]; simpl; [reflexivity|].
  intros H. apply andb_true_iff in H as [Hc Ha]. now rewrite Hc, IH.
Qed.

Lemma rstrip_all_space (a : string) : all_space a = true -> rstrip a = "".
Proof.
  induction a as [|c a IH]; simpl; [reflexivity|].
  intros H. apply andb_true_iff in H as [Hc Ha]. now rewrite IH, Hc.
Qed.

Lemma lstrip_margin (a t : string) :
  all_space a = true -> lstrip (a ++ t) = lstrip t.
Proof.
  induction a as [|c a IH]; simpl; [reflexivity|].
  intros H. apply andb_true_iff in H as [Hc Ha]. now rewrite Hc, IH.
Qed.

Lemma rstrip_margin (t b : string) :
  all_space b = true -> rstrip (t ++ b) = rstrip t.
Proof.
  intros Hb. induction t as [|c t IH]; simpl.
  - now apply rstrip_all_space.
  - now rewrite IH.
Qed.

Lemma lstrip_app_cases (t b : string) :
  (lstrip t = "" /\ lstrip (t ++ b) = lstrip b)
  \/ lstrip (t ++ b) = lstrip t ++ b.
Proof.
  induction t as [|c t IH]; simpl; [now left|].
  destruct (is_space c); [exact IH | now right].
Qed.

Lemma strip_margins (a t b : string) :
  all_space a = true -> all_space b = true ->
  strip (a ++ t ++ b) = strip t.
Proof.
  intros Ha Hb. unfold strip. rewrite (lstrip_margin a _ Ha).
  destruct (lstrip_app_cases t b) as [[H1 H2] | H].
  - rewrite H1, H2, (lstrip_all_space b Hb). reflexivity.
  - rewrite H. now apply rstrip_margin.
Qed.

Lemma normal_form_margins (a t b s : string) :
  all_space a = true -> all_space b = true -> lower t = lower s ->
  lower (strip (a ++ t ++ b)) = lower (strip s).
Proof.
  intros Ha Hb Hl. rewrite (strip_margins a t b Ha Hb).
  now rewrite !lower_strip, Hl.
Qed.

End Margins.

(** X9. Letter case and white space at either end never matter: two
    texts that are the same up to the case of their letters, one of them
    padded with white space on both sides, get the same engagement level
    as stage values, the same Yes or No as values of a boolean column and
    the same key as column labels. *)
Theorem case_and_margins_ignored (a t b s : string) :
  all_space a = true -> all_space b = true -> lower t = lower s ->
  map_engagement_level (Str (a ++ t ++ b)) = map_engagement_level (Str s)
  /\ normalize_cell (Str (a ++ t ++ b)) = normalize_cell (Str s)
  /\ clean_label (a ++ t ++ b) = clean_label s.
Proof.
  intros Ha Hb Hl.
  pose proof (normal_form_margins a t b s Ha Hb Hl) as H.
  unfold map_engagement_level, normalize_cell, clean_label, py_str.
  now rewrite H.
Qed.

Lemma case_and_margins_ignored_witness :
  map_engagement_level (Str ("  " ++ "ORDERS 360 LITE" ++ " "))
  = map_engagement_level (Str "Orders 360 Lite").
Proof.
  apply (proj1 (case_and_margins_ignored "  " "ORDERS 360 LITE" " "
                  "Orders 360 Lite" eq_refl eq_refl eq_refl)).
Defined.

(* ================================================================== *)
(** * The visualization callback *)
(* ================================================================== *)

Section VisualizationFacts.

Context {Figure Card : Type}.
Variable V : Views Figure Card.

Lemma columns_filter_rows (df : DataFrame) (mask : list bool) :
  columns (filter_rows df mask) = columns df.
Proof.
  unfold columns, filter_rows. simpl. rewrite map_map. reflexivity.
Qed.

Lemma apply_filter_columns (df df' : DataFrame) (col : string)
  (selected : option (list string)) :
  apply_filter df col selected = Ok df' -> columns df' = columns df.
Proof.
  unfold apply_filter. destruct selected as [[|v vs]|];
    try (now intros [= <-]).
  destruct (mem col (columns df)); [|now intros [= <-]].
  destruct (get_series df col) as [s|e]; cbn [bind]; [|discriminate].
  intros [= <-]. apply columns_filter_rows.
Qed.

Lemma get_series_NoDup_cases (df : DataFrame) (col : string) :
  NoDup (columns df) ->
  (exists s, get_series df col = Ok s)
  \/ (get_series df col = Raise (KeyError col) /\ ~ In col (columns df)).
Proof.
  intros Hnd. pose proof (getitem_NoDup df col Hnd) as Hle.
  unfold get_series. destruct (getitem df col) as [|x [|y l]] eqn:E.
  - right. split; [reflexivity|]. intros Hin. apply mem_In in Hin.
    apply getitem_nil_iff in E. congruence.
  - left. now exists x.
  - simpl in Hle. lia.
Qed.

Lemma apply_filter_total (df : DataFrame) (col : string)
  (selected : option (list string)) :
  NoDup (columns df) -> exists df', apply_filter df col selected = Ok df'.
Proof.
  intros Hnd. unfold apply_filter. destruct selected as [[|v vs]|]; eauto.
  destruct (mem col (columns df)) eqn:Hm; eauto.
  apply mem_In in Hm. destruct (get_series_NoDup df col Hnd Hm) as [s ->].
  cbn [bind]. eauto.
Qed.

Lemma eq_scalar_none (s : Series) (name : string) :
  ~ In (Str name) s ->
  filter (fun b : bool => b) (eq_scalar s name) = [].
Proof.
  unfold eq_scalar. induction s as [|x s IH]; intros H; simpl; [reflexivity|].
  assert (Hx : match x with Str v => String.eqb v name | _ => false end
               = false).
  { destruct x; try reflexivity. apply String.eqb_neq. intros ->.
    apply H. now left. }
  rewrite Hx. apply IH. intros Hin. apply H. now right.
Qed.

Lemma first_row_absent (df : DataFrame) (agency_col name : string)
  (s : Series) :
  get_series df agency_col = Ok s -> ~ In (Str name) s ->
  first_row df agency_col name = Throw IndexError.
Proof.
  intros Hs Hn. unfold first_row. rewrite Hs. cbn [lift and_then].
  cbv zeta. unfold filter_rows at 1. cbn [nrows].
  now rewrite (eq_scalar_none s name Hn).
Qed.

(** The details never stop the callback on a frame with pairwise
    distinct labels. *)
Lemma agency_details_returns (df : DataFrame) (agency_col group_col : string)
  (value_columns : list string) (max_score : option Z) (shown : names)
  (view_mode : string) (click_data : option (list point)) :
  NoDup (columns df) ->
  exists details,
    agency_details_of V df agency_col group_col value_columns max_score
      shown view_mode click_data = Return details
    /\ (click_data = None -> details = (false, no_update))
    /\ (forall points, click_data = Some points ->
        fst details = true
        /\ (exists p, snd details = Update p)
        /\ (points = [] -> snd details = Update details_alert)
        /\ (~ In agency_col (columns df) ->
            snd details = Update details_alert)
        /\ (forall name s,
              clicked_name view_mode points = Return name ->
              get_series df agency_col = Ok s -> ~ In (Str name) s ->
              snd details = Update details_alert)).
Proof.
  intros Hnd. unfold agency_details_of.
  destruct click_data as [points|].
  2:{ exists (false, no_update). split; [reflexivity|].
      split; [reflexivity | discriminate]. }
  destruct (clicked_name view_mode points) as [name|e] eqn:Hc;
    cbn [and_then].
  - destruct (get_series_NoDup_cases df agency_col Hnd)
      as [[s Hs] | [Hs Hnot]].
    + unfold first_row at 1. rewrite Hs. cbn [lift and_then]. cbv zeta.
      destruct (nrows (filter_rows df (eq_scalar s name))) eqn:Hrows.
      * exists (true, Update details_alert). split; [reflexivity|].
        split; [discriminate|]. intros pts [= <-]. cbn [fst snd].
        repeat split; eauto.
      * cbn [and_then].
        destruct (details_card V _ name agency_col group_col value_columns
                    max_score shown) as [card|e] eqn:Hcard.
        -- exists (true, Update (PanelCard card)). split; [reflexivity|].
           split; [discriminate|]. intros pts [= <-]. cbn [fst snd].
           split; [reflexivity|]. split; [eauto|]. split; [|split].
           ++ intros ->. discriminate Hc.
           ++ intros Hnot. exfalso. apply Hnot.
              apply getitem_In_columns. apply get_series_Ok in Hs.
              rewrite Hs. discriminate.
           ++ intros name' s' Hr Hs' Hn. rewrite Hc in Hr.
              injection Hr as Hr. subst name'.
              injection Hs' as Hs'. subst s'. exfalso.
              unfold filter_rows in Hrows. cbn [nrows] in Hrows.
              now rewrite (eq_scalar_none s name Hn) in Hrows.
        -- exists (true, Update details_alert). split; [reflexivity|].
           split; [discriminate|]. intros pts [= <-]. cbn [fst snd].
           repeat split; eauto.
    + unfold first_row at 1. rewrite Hs. cbn [lift and_then].
      exists (true, Update details_alert). split; [reflexivity|].
      split; [discriminate|]. intros pts [= <-]. cbn [fst snd].
      repeat split; eauto.
  - assert (He : forall c, e <> Failure (NotASeries c)).
    { intros c ->. unfold clicked_name in Hc.
      destruct points as [|p ps]; [discriminate|].
      destruct (String.eqb view_mode "heatmap");
        [destruct (point_x p) | destruct (point_text p)]; discriminate. }
    exists (true, Update details_alert). split.
    + destruct e as [[]| | |]; try reflexivity.
      exfalso. now apply (He col).
    + split; [discriminate|]. intros pts [= <-]. cbn [fst snd].
      repeat split; eauto.
Qed.

End VisualizationFacts.

Section VisualizationRuns.

Context {Figure Card : Type}.
Variable V : Views Figure Card.

(** The callback once the two early returns are passed and the stored
    frame is read and filtered. *)
Lemma update_visualization_drawn (prop_id : string) (data : DataFrame)
  (c : string) (cs : list string) (max_score : option Z)
  (groups agencies : option (list string)) (view_mode : string)
  (show_quadrants : list string) (reset_click : option nat)
  (click_data : option (list point)) (original : option (list string))
  (df df1 df2 : DataFrame) :
  hd EmptyString (split "." prop_id) <> "reset-view" ->
  read_json V data = Ok df ->
  apply_filter df (group_col_of df) groups = Ok df1 ->
  apply_filter df1 (agency_col_of df) agencies = Ok df2 ->
  update_visualization V prop_id (Some data) (Some (c :: cs)) max_score
    groups agencies view_mode show_quadrants reset_click click_data original
  = and_then
      (figure_of V df2 (agency_col_of df) (group_col_of df) (c :: cs)
         max_score (display_names original (columns df2)) view_mode
         show_quadrants)
      (fun fig =>
         and_then
           (agency_details_of V df2 (agency_col_of df) (group_col_of df)
              (c :: cs) max_score (display_names original (columns df2))
              view_mode click_data)
           (fun details =>
              match fig with
              | Some fig => Return (fig, fst details, snd details)
              | None => Throw (UnboundLocalError "fig")
              end)).
Proof.
  intros Ht Hr H1 H2. unfold update_visualization. cbv zeta.
  apply String.eqb_neq in Ht. rewrite Ht, Hr. cbn [lift and_then].
  rewrite H1. cbn [lift and_then]. rewrite H2. reflexivity.
Qed.

Lemma filtered_NoDup (df df1 df2 : DataFrame) (c1 c2 : string)
  (groups agencies : option (list string)) :
  NoDup (columns df) ->
  apply_filter df c1 groups = Ok df1 ->
  apply_filter df1 c2 agencies = Ok df2 ->
  NoDup (columns df2) /\ columns df2 = columns df.
Proof.
  intros Hnd H1 H2. apply apply_filter_columns in H1, H2.
  rewrite H2, H1. now split.
Qed.

End VisualizationRuns.



(** X11. A click never stops the figure from being shown: on a frame with
    pairwise distinct labels, once a branch has drawn the figure the
    callback returns it, with the details closed and untouched when
    nothing is clicked and open otherwise. The details are the alert
    Could not load agency details when the click has no point, when no
    column holds the agency names, or when the clicked name is not among
    the rows the filters left. *)
Theorem click_never_fails {Figure Card : Type} (V : Views Figure Card)
  (prop_id : string) (data : DataFrame) (c : string) (cs : list string)
  (max_score : option Z) (groups agencies : option (list string))
  (view_mode : string) (show_quadrants : list string)
  (reset_click : option nat) (click_data : option (list point))
  (original : option (list string)) (df df1 df2 : DataFrame) (fig : Figure) :
  hd EmptyString (split "." prop_id) <> "reset-view" ->
  read_json V data = Ok df ->
  NoDup (columns df) ->
  apply_filter df (group_col_of df) groups = Ok df1 ->
  apply_filter df1 (agency_col_of df) agencies = Ok df2 ->
  figure_of V df2 (agency_col_of df) (group_col_of df) (c :: cs) max_score
    (display_names original (columns df2)) view_mode show_quadrants
  = Return (Some fig) ->
  exists details_open agency_details,
    update_visualization V prop_id (Some data) (Some (c :: cs)) max_score
      groups agencies view_mode show_quadrants reset_click click_data original
    = Return (fig, details_open, agency_details)
    /\ (click_data = None ->
        details_open = false /\ agency_details = no_update)
    /\ (forall points, click_data = Some points ->
        details_open = true
        /\ (exists p, agency_details = Update p)
        /\ (points = [] -> agency_details = Update details_alert)
        /\ (~ In (agency_col_of df) (columns df) ->
            agency_details = Update details_alert)
        /\ (forall name s,
              clicked_name view_mode points = Return name ->
              get_series df2 (agency_col_of df) = Ok s ->
              ~ In (Str name) s ->
              agency_details = Update details_alert)).
Proof.
  intros Ht Hr Hnd H1 H2 Hf.
  rewrite (update_visualization_drawn V prop_id data c cs max_score groups
             agencies view_mode show_quadrants reset_click click_data
             original df df1 df2 Ht Hr H1 H2).
  rewrite Hf. cbn [and_then].
  destruct (filtered_NoDup df df1 df2 _ _ groups agencies Hnd H1 H2)
    as [Hnd2 Hc2].
  destruct (agency_details_returns V df2 (agency_col_of df) (group_col_of df)
              (c :: cs) max_score (display_names original (columns df2))
              view_mode click_data Hnd2) as [[o d] [-> [Hn Hs]]].
  exists o, d. cbn [and_then fst snd]. split; [reflexivity|]. split.
  - intros Hcl. specialize (Hn Hcl). now injection Hn as -> ->.
  - intros points Hcl. specialize (Hs points Hcl). cbn [fst snd] in Hs.
    rewrite Hc2 in Hs. exact Hs.
Qed.

Lemma click_never_fails_witness :
  update_visualization demo_views "main-visualization.clickData"
    (Some (mkDF 2 [ ("agency_name", [Str "Acme"; Str "Best"]);
                    ("physician_group", [Str "North"; Str "South"]);
                    ("portal", [Str "Yes"; Str "No"]) ]))
    (Some ["portal"]) (Some 1) (Some ["North"]) None "quadrant"
    ["show"] None (Some [mkPoint None (Some "Best")]) None
  = Return ("quadrant", true, Update details_alert).
Proof.
  destruct (click_never_fails demo_views "main-visualization.clickData"
              (mkDF 2 [ ("agency_name", [Str "Acme"; Str "Best"]);
                        ("physician_group", [Str "North"; Str "South"]);
                        ("portal", [Str "Yes"; Str "No"]) ])
              "portal" [] (Some 1) (Some ["North"]) None "quadrant" ["show"]
              None (Some [mkPoint None (Some "Best")]) None
              (mkDF 2 [ ("agency_name", [Str "Acme"; Str "Best"]);
                        ("physician_group", [Str "North"; Str "South"]);
                        ("portal", [Str "Yes"; Str "No"]) ])
              (mkDF 1 [ ("agency_name", [Str "Acme"]);
                        ("physician_group", [Str "North"]);
                        ("portal", [Str "Yes"]) ])
              (mkDF 1 [ ("agency_name", [Str "Acme"]);
                        ("physician_group", [Str "North"]);
                        ("portal", [Str "Yes"]) ])
              "quadrant")
    as [o [d [E [_ H]]]].
  - discriminate.
  - reflexivity.
  - repeat constructor; simpl; intuition discriminate.
  - reflexivity.
  - reflexivity.
  - reflexivity.
  - destruct (H [mkPoint None (Some "Best")] eq_refl)
      as [Ho [_ [_ [_ Hd]]]].
    rewrite E, Ho.
    rewrite (Hd "Best" [Str "Acme"] eq_refl eq_refl
               ltac:(intros [Hx|[]]; discriminate Hx)).
    reflexivity.
Defined.

(** X12. An upload that reads as a table with at least one row and one
    column, every label a text, the cleaned labels pairwise distinct and
    no column boolean-like, uploads with success, its stores written and
    its maximum score 1, and is never drawn: the list of value columns it
    stores is empty, and with it every run of the visualization callback
    returns the empty figure with the details closed, whatever the view,
    the filters and the click. *)
Theorem no_value_column_never_drawn {Figure Card : Type}
  (V : Views Figure Card) (L : Libraries) (s : session) (contents : string)
  (filename : string) (raw : Table) (names : list string) (df : DataFrame) :
  read_table L contents = Ok raw ->
  table_columns raw = map Text names ->
  table_nrows raw <> 0%nat ->
  names <> [] ->
  NoDup (map clean_label names) ->
  clean_column_names raw = Ok df ->
  infer_value_columns df = [] ->
  let s' := apply_outputs s (handle_upload L (Some contents) filename) in
  (exists processed, processed_data s' = Some processed)
  /\ value_columns_store s' = Some []
  /\ max_value_score s' = Some 1
  /\ original_columns_store s' = Some names
  /\ forall prop_id groups agencies view_mode show_quadrants reset_click
       click_data,
       update_visualization V prop_id (processed_data s')
         (value_columns_store s') (max_value_score s') groups agencies
         view_mode show_quadrants reset_click click_data
         (original_columns_store s')
       = Return (go_Figure V, false, no_update).
Proof.
  intros Hr Ht Hrows Hcols Hnd Hclean Hinf. cbv zeta.
  destruct (upload_succeeds L s contents filename raw names Hr Ht Hrows Hcols
              Hnd)
    as [df0 [processed [layout [Hclean0 [_ [_ [_ Hs]]]]]]].
  rewrite Hclean in Hclean0. injection Hclean0 as <-.
  rewrite Hinf in Hs. unfold snapshot in Hs.
  injection Hs as Hp Hv Hm _ Ho.
  split; [now exists processed|]. split; [exact Hv|]. split; [exact Hm|].
  split; [exact Ho|].
  intros. rewrite Hv. unfold update_visualization. cbv zeta.
  destruct (String.eqb _ "reset-view"); [reflexivity|].
  now destruct (processed_data _).
Qed.

Lemma no_value_column_never_drawn_witness :
  update_visualization demo_views "processed-data.data"
    (processed_data
       (apply_outputs (mkSession None None None None None None None)
          (handle_upload
             (demo_libraries (mkDetection None (S754_zero false))
                (Ok (mkTable 1 [ (Text "Agency Name", [Str "Acme"]);
                                 (Text "Stage", [Str "Lite"]) ])))
             (Some "data:text/csv;base64,QQ==") "a.csv")))
    (value_columns_store
       (apply_outputs (mkSession None None None None None None None)
          (handle_upload
             (demo_libraries (mkDetection None (S754_zero false))
                (Ok (mkTable 1 [ (Text "Agency Name", [Str "Acme"]);
                                 (Text "Stage", [Str "Lite"]) ])))
             (Some "data:text/csv;base64,QQ==") "a.csv")))
    (max_value_score
       (apply_outputs (mkSession None None None None None None None)
          (handle_upload
             (demo_libraries (mkDetection None (S754_zero false))
                (Ok (mkTable 1 [ (Text "Agency Name", [Str "Acme"]);
                                 (Text "Stage", [Str "Lite"]) ])))
             (Some "data:text/csv;base64,QQ==") "a.csv")))
    None None "quadrant" ["show"] None None
    (original_columns_store
       (apply_outputs (mkSession None None None None None None None)
          (handle_upload
             (demo_libraries (mkDetection None (S754_zero false))
                (Ok (mkTable 1 [ (Text "Agency Name", [Str "Acme"]);
                                 (Text "Stage", [Str "Lite"]) ])))
             (Some "data:text/csv;base64,QQ==") "a.csv")))
  = Return ("empty", false, no_update).
Proof.
  apply (proj2 (proj2 (proj2 (proj2
           (no_value_column_never_drawn demo_views
              (demo_libraries (mkDetection None (S754_zero false))
                 (Ok (mkTable 1 [ (Text "Agency Name", [Str "Acme"]);
                                  (Text "Stage", [Str "Lite"]) ])))
              (mkSession None None None None None None None)
              "data:text/csv;base64,QQ==" "a.csv"
              (mkTable 1 [ (Text "Agency Name", [Str "Acme"]);
                           (Text "Stage", [Str "Lite"]) ])
              ["Agency Name"; "Stage"]
              (mkDF 1 [ ("agency_name", [Str "Acme"]);
                        ("stage", [Str "Lite"]) ])
              eq_refl eq_refl
              ltac:(discriminate) ltac:(discriminate)
              ltac:(vm_compute; repeat constructor; simpl;
                    intuition discriminate)
              eq_refl eq_refl))))).
Defined.

Section DisplayNames.

Lemma absent_derived_nil (cols : list string) :
  filter (fun l => negb (mem l cols)) derived_labels = []
  <-> incl derived_labels cols.
Proof.
  split.
  - intros H l Hl. destruct (mem l cols) eqn:E; [now apply mem_In|].
    exfalso.
    assert (Hin : In l (filter (fun l => negb (mem l cols)) derived_labels)).
    { apply filter_In. split; [exact Hl | now rewrite E]. }
    now rewrite H in Hin.
  - intros H. induction derived_labels as [|x l IH]; [reflexivity|].
    simpl. assert (Hx : mem x cols = true) by (apply mem_In, H; now left).
    rewrite Hx. apply IH. intros y Hy. apply H. now right.
Qed.

End DisplayNames.

(** X13. The labels as uploaded are shown only for tables that already
    had the four columns value_score, engagement_level, quadrant and size:
    the callback takes them when they are as many as the columns of the
    classified frame, each then paired with the key it cleans to, and the
    classifier appends every one of the four that the upload lacks, so
    that for any other table the display names are those made from the
    keys. *)
Theorem display_names_after_upload (raw : Table) (df df' : DataFrame)
  (vcols : list string) (m : Z) :
  clean_column_names raw = Ok df ->
  process_data df vcols = Ok (df', m) ->
  let original_columns := texts (table_columns raw) in
  map Text original_columns = table_columns raw
  /\ columns df = map clean_label original_columns
  /\ ((exists l, In l derived_labels /\ ~ In l (columns df)) ->
      display_names (Some original_columns) (columns df')
      = Titled (columns df'))
  /\ (incl derived_labels (columns df) ->
      display_names (Some original_columns) (columns df')
      = Zipped (combine (map clean_label original_columns) original_columns)).
Proof.
  intros Hclean E. cbv zeta.
  destruct (clean_Ok_texts raw df Hclean) as [Ht _].
  destruct (clean_Ok_frame raw df Hclean) as [Hcl _].
  set (original := texts (table_columns raw)) in *.
  split; [now symmetry|]. split; [exact Hcl|].
  destruct (classified_table _ df' vcols m E) as [_ [Hc _]].
  set (extra := filter (fun l => negb (mem l (columns df))) derived_labels)
    in Hc.
  assert (Hlen : List.length (columns df')
                 = (List.length original + List.length extra)%nat).
  { rewrite Hc, length_app, Hcl, length_map. reflexivity. }
  split.
  - intros [l [Hl Hnot]].
    assert (Hx : extra <> []).
    { intros Hnil. apply absent_derived_nil in Hnil. now apply Hnot, Hnil. }
    unfold display_names. destruct original as [|o os] eqn:Ho;
      [reflexivity|].
    replace (List.length (o :: os) =? List.length (columns df'))%nat
      with false; [reflexivity|].
    symmetry. apply Nat.eqb_neq. rewrite Hlen.
    destruct extra; [congruence | simpl; lia].
  - intros Hall. pose proof Hall as Hall'.
    apply absent_derived_nil in Hall. fold extra in Hall.
    rewrite Hall, app_nil_r in Hc. rewrite Hall, Nat.add_0_r in Hlen.
    unfold display_names. destruct original as [|o os] eqn:Ho.
    + exfalso. rewrite Hcl in Hall'.
      exact (Hall' "size" ltac:(simpl; tauto)).
    + rewrite Hlen, Nat.eqb_refl, Hc, Hcl. reflexivity.
Qed.

Lemma display_names_after_upload_witness :
  exists df',
    process_data scenario_clean
      [ "uses_portal"; "uses_fax"; "uses_ehr"; "uses_mobile" ]
    = Ok (df', 4)
    /\ display_names (Some (texts (table_columns scenario_frame)))
         (columns df')
       = Titled (columns df').
Proof.
  eexists. split; [vm_compute; reflexivity|].
  refine (proj1 (proj2 (proj2
            (display_names_after_upload scenario_frame scenario_clean _
               [ "uses_portal"; "uses_fax"; "uses_ehr"; "uses_mobile" ]
               4 eq_refl _))) _).
  - vm_compute. reflexivity.
  - exists "size". split; [simpl; tauto|].
    vm_compute. intuition discriminate.
Defined.

(* ================================================================== *)
(** * Rows kept by a mask *)
(* ================================================================== *)

Section KeptRows.

Lemma keep_cons (b : bool) (mask : list bool) (x : cell) (s : Series) :
  keep (b :: mask) (x :: s) = if b then x :: keep mask s else keep mask s.
Proof. unfold keep. simpl. now destruct b. Qed.

Lemma length_keep (mask : list bool) (s : Series) :
  List.length s = List.length mask ->
  List.length (keep mask s) = List.length (filter (fun b : bool => b) mask).
Proof.
  revert s; induction mask as [|b mask IH]; intros [|x s] H;
    try discriminate; [reflexivity|].
  rewrite keep_cons. simpl in *. injection H as H.
  destruct b; simpl; now rewrite IH.
Qed.

(** Keeping the cells of a column by its own membership mask filters
    it. *)
Lemma keep_isin (s : Series) (values : list string) :
  keep (isin s values) s
  = filter (fun x => match x with Str v => mem v values | _ => false end) s.
Proof.
  unfold isin. induction s as [|x s IH]; [reflexivity|].
  cbn [map filter]. rewrite keep_cons, IH. reflexivity.
Qed.

(** The first kept cell is the cell at the first position the mask
    holds. *)
Lemma hd_keep (i : nat) :
  forall (mask : list bool) (s : Series),
    nth_error mask i = Some true ->
    (forall j, (j < i)%nat -> nth_error mask j = Some false) ->
    (i < List.length s)%nat ->
    hd NaN (keep mask s) = nth i s NaN.
Proof.
  induction i as [|i IH]; intros [|b mask] [|x s] Hi Hlt Hl;
    simpl in *; try discriminate; try lia.
  - injection Hi as ->. now rewrite keep_cons.
  - rewrite keep_cons.
    assert (Hb : b = false).
    { specialize (Hlt 0%nat ltac:(lia)). simpl in Hlt. congruence. }
    subst b. apply IH; [exact Hi | | lia].
    intros j Hj. exact (Hlt (S j) ltac:(lia)).
Qed.

Lemma filter_true_nonempty (mask : list bool) (i : nat) :
  nth_error mask i = Some true ->
  filter (fun b : bool => b) mask <> [].
Proof.
  intros H Hnil. apply nth_error_In in H.
  assert (Hin : In true (filter (fun b : bool => b) mask))
    by (apply filter_In; now split).
  now rewrite Hnil in Hin.
Qed.

Lemma filter_map_swap {A B : Type} (f : B -> bool) (g : A -> B)
  (l : list A) :
  filter f (map g l) = map g (filter (fun x => f (g x)) l).
Proof.
  induction l as [|a l IH]; simpl; [reflexivity|].
  destruct (f (g a)); simpl; now rewrite IH.
Qed.

(** The positions where a mask holds. *)
Lemma positions_cons (b : bool) (mask : list bool) :
  filter (fun i => nth i (b :: mask) false) (seq 0 (S (List.length mask)))
  = ((if b then [0%nat] else [])
     ++ map S (filter (fun i => nth i mask false)
                 (seq 0 (List.length mask))))%list.
Proof.
  cbn [seq filter nth]. rewrite <- seq_shift, filter_map_swap.
  now destruct b.
Qed.

(** The kept cells are the cells at the positions where the mask holds,
    in order. *)
Lemma keep_positions (mask : list bool) :
  forall s : Series,
    List.length s = List.length mask ->
    keep mask s
    = map (fun i => nth i s NaN)
        (filter (fun i => nth i mask false) (seq 0 (List.length mask))).
Proof.
  induction mask as [|b mask IH]; intros [|x s] H; try discriminate;
    [reflexivity|].
  injection H as H. rewrite keep_cons.
  cbn [List.length]. rewrite positions_cons, map_app, map_map.
  cbn [nth]. rewrite (IH s H). now destruct b.
Qed.

Lemma length_positions (mask : list bool) :
  List.length (filter (fun b : bool => b) mask)
  = List.length (filter (fun i => nth i mask false)
                   (seq 0 (List.length mask))).
Proof.
  induction mask as [|b mask IH]; [reflexivity|].
  cbn [List.length]. rewrite positions_cons, length_app, length_map.
  cbn [filter]. destruct b; simpl; now rewrite IH.
Qed.

Lemma nth_isin (s : Series) (values : list string) (i : nat) :
  nth i (isin s values) false
  = match nth_error s i with
    | Some (Str t) => mem t values
    | _ => false
    end.
Proof.
  unfold isin. revert i. induction s as [|x s IH]; intros [|i]; simpl;
    try reflexivity. apply IH.
Qed.

Lemma positions_isin (s : Series) (values : list string) :
  filter (fun i => nth i (isin s values) false)
    (seq 0 (List.length (isin s values)))
  = selected_rows s values.
Proof.
  unfold selected_rows. replace (List.length (isin s values))
    with (List.length s) by (unfold isin; now rewrite length_map).
  apply filter_ext. intros i. apply nth_isin.
Qed.

Lemma nth_error_eq_scalar (s : Series) (name : string) (i : nat) :
  nth_error (eq_scalar s name) i
  = option_map
      (fun x => match x with Str v => String.eqb v name | _ => false end)
      (nth_error s i).
Proof. unfold eq_scalar. apply nth_error_map. Qed.

End KeptRows.

(** X15. The details of a clicked agency are those of the first row, among
    the rows the filters left, whose agency name is the clicked text: rows
    that share a name are not told apart, a click on any of them shows the
    first. *)
Theorem first_row_is_first_match (df : DataFrame) (agency_col name : string)
  (s : Series) (i : nat) :
  well_shaped df ->
  get_series df agency_col = Ok s ->
  nth_error s i = Some (Str name) ->
  (forall j, (j < i)%nat -> nth_error s j <> Some (Str name)) ->
  first_row df agency_col name
  = Return (map (fun p => (fst p, nth i (snd p) NaN)) (cols df)).
Proof.
  intros Hw Hs Hi Hlt. unfold first_row. rewrite Hs. cbn [lift and_then].
  cbv zeta.
  assert (Hlen : List.length s = nrows df)
    by exact (well_shaped_get_series df agency_col s Hw Hs).
  assert (Hil : (i < List.length s)%nat).
  { apply nth_error_Some. rewrite Hi. discriminate. }
  assert (Hmi : nth_error (eq_scalar s name) i = Some true).
  { rewrite nth_error_eq_scalar, Hi. cbn [option_map].
    now rewrite String.eqb_refl. }
  assert (Hmj : forall j, (j < i)%nat ->
                  nth_error (eq_scalar s name) j = Some false).
  { intros j Hj. rewrite nth_error_eq_scalar.
    destruct (nth_error s j) as [x|] eqn:E.
    - cbn [option_map]. f_equal. destruct x; try reflexivity.
      apply String.eqb_neq. intros ->. exact (Hlt j Hj E).
    - apply nth_error_None in E. lia. }
  unfold filter_rows at 1. cbn [nrows].
  destruct (filter (fun b : bool => b) (eq_scalar s name)) as [|b0 bs] eqn:Ef;
    [now apply (filter_true_nonempty _ i Hmi) in Ef|].
  cbn [List.length]. f_equal. unfold filter_rows. cbn [cols].
  rewrite map_map. apply map_ext_in. intros [l x] Hin. cbn [fst snd].
  f_equal. apply hd_keep; [exact Hmi | exact Hmj |].
  unfold well_shaped in Hw. rewrite Forall_forall in Hw.
  specialize (Hw _ Hin). simpl in Hw. lia.
Qed.

Lemma first_row_is_first_match_witness :
  first_row
    (mkDF 3 [ ("agency_name", [Str "Acme"; Str "Best"; Str "Best"]);
              ("quadrant", [Str "Basic Users"; Str "Strategic Partners";
                            Str "Basic Users"]) ])
    "agency_name" "Best"
  = Return [ ("agency_name", Str "Best");
             ("quadrant", Str "Strategic Partners") ].
Proof.
  apply (first_row_is_first_match
           (mkDF 3 [ ("agency_name", [Str "Acme"; Str "Best"; Str "Best"]);
                     ("quadrant", [Str "Basic Users"; Str "Strategic Partners";
                                   Str "Basic Users"]) ])
           "agency_name" "Best" [Str "Acme"; Str "Best"; Str "Best"] 1%nat).
  - repeat constructor.
  - reflexivity.
  - reflexivity.
  - intros [|j] Hj; [discriminate | lia].
Defined.

(** X16. A filter with a selection keeps the rows whose cell in the
    filtered column is one of the selected texts and drops every other
    row, those with a blank cell included: every column of the result
    holds its cells at the positions of those rows, in order, so that the
    records stay whole; the labels, their order and the shape of the
    table are kept. Without a selection, or on a table without the
    column, the filter returns the table as it is. *)
Theorem apply_filter_rows (df : DataFrame) (col : string)
  (selected : option (list string)) :
  NoDup (columns df) -> well_shaped df ->
  exists df',
    apply_filter df col selected = Ok df'
    /\ columns df' = columns df
    /\ well_shaped df'
    /\ (nrows df' <= nrows df)%nat
    /\ (selected = None \/ selected = Some [] \/ ~ In col (columns df) ->
        df' = df)
    /\ (forall v vs s, selected = Some (v :: vs) ->
        get_series df col = Ok s ->
        let rows := selected_rows s (v :: vs) in
        (forall i, In i rows
                   <-> exists t, nth_error s i = Some (Str t)
                                 /\ In t (v :: vs))
        /\ nrows df' = List.length rows
        /\ cols df'
           = map (fun p => (fst p, map (fun i => nth i (snd p) NaN) rows))
               (cols df)
        /\ get_series df' col
           = Ok (filter
                   (fun x => match x with
                             | Str t => mem t (v :: vs)
                             | _ => false
                             end) s)
        /\ ~ In NaN (filter
                       (fun x => match x with
                                 | Str t => mem t (v :: vs)
                                 | _ => false
                                 end) s)).
Proof.
  intros Hnd Hw.
  unfold apply_filter.
  destruct selected as [[|v vs]|].
  - exists df. split; [reflexivity|]. split; [reflexivity|].
    split; [exact Hw|]. split; [lia|]. split; [reflexivity|].
    intros v' vs' s' H. discriminate H.
  - destruct (mem col (columns df)) eqn:Hm.
    + apply mem_In in Hm. destruct (get_series_NoDup df col Hnd Hm) as [s Hs].
      rewrite Hs. cbn [bind].
      pose proof (well_shaped_get_series df col s Hw Hs) as Hl.
      exists (filter_rows df (isin s (v :: vs))).
      split; [reflexivity|]. split; [apply columns_filter_rows|].
      assert (Hmask : List.length (isin s (v :: vs)) = nrows df)
        by (unfold isin; now rewrite length_map).
      split; [|split; [|split]].
      * unfold well_shaped, filter_rows. cbn [cols nrows].
        rewrite Forall_map. unfold well_shaped in Hw.
        revert Hw. apply Forall_impl. intros [l x] Hx. cbn [snd] in *.
        apply length_keep. congruence.
      * unfold filter_rows. cbn [nrows]. rewrite <- Hmask.
        apply filter_length_le.
      * intros [H|[H|H]]; [discriminate | discriminate | contradiction].
      * intros v' vs' s' Hsel Hs'. injection Hsel as Hv' Hvs'.
        subst v' vs'. injection Hs' as Hs'. subst s'. cbv zeta.
        split; [|split; [|split; [|split]]].
        -- intros i. unfold selected_rows. rewrite filter_In, in_seq. split.
           ++ intros [_ Hi].
              destruct (nth_error s i) as [[| t | | |]|]; try discriminate.
              exists t. split; [reflexivity | now apply mem_In].
           ++ intros [t [Hi Ht]]. split.
              ** split; [lia|]. apply nth_error_Some. rewrite Hi. discriminate.
              ** rewrite Hi. now apply mem_In.
        -- unfold filter_rows. cbn [nrows].
           now rewrite length_positions, positions_isin.
        -- unfold filter_rows. cbn [cols]. apply map_ext_in.
           intros [l x] Hin. cbn [fst snd]. f_equal.
           rewrite keep_positions, positions_isin; [reflexivity|].
           unfold well_shaped in Hw. rewrite Forall_forall in Hw.
           specialize (Hw _ Hin). simpl in Hw. congruence.
        -- apply get_series_Ok. apply get_series_Ok in Hs.
           unfold getitem, filter_rows in *. cbn [cols].
           rewrite <- keep_isin.
           clear -Hs. induction (cols df) as [|[l x] cs IH];
             [discriminate|].
           simpl in *. destruct (String.eqb l col) eqn:El; simpl in *.
           ++ injection Hs as -> Hs. f_equal.
              clear -Hs. induction cs as [|[l' x'] cs IH]; [reflexivity|].
              simpl in *. destruct (String.eqb l' col); [discriminate|].
              now apply IH.
           ++ now apply IH.
        -- intros Hin. apply filter_In in Hin as [_ Hin]. discriminate.
    + exists df. split; [reflexivity|]. split; [reflexivity|].
      split; [exact Hw|]. split; [lia|]. split; [reflexivity|].
      intros v' vs' s' _ Hs'. exfalso.
      assert (Hin : In col (columns df)).
      { apply getitem_In_columns. apply get_series_Ok in Hs'.
        rewrite Hs'. discriminate. }
      apply mem_In in Hin. congruence.
  - exists df. split; [reflexivity|]. split; [reflexivity|].
    split; [exact Hw|]. split; [lia|]. split; [reflexivity|].
    intros v' vs' s' H. discriminate H.
Qed.

Lemma apply_filter_rows_witness :
  exists df',
    apply_filter
      (mkDF 3 [ ("agency_name", [Str "Acme"; Str "Best"; Str "Core"]);
                ("physician_group", [Str "North"; NaN; Str "South"]) ])
      "physician_group" (Some ["North"; "South"]) = Ok df'
    /\ nrows df' = 2%nat
    /\ cols df' = [ ("agency_name", [Str "Acme"; Str "Core"]);
                    ("physician_group", [Str "North"; Str "South"]) ].
Proof.
  destruct (apply_filter_rows
              (mkDF 3 [ ("agency_name", [Str "Acme"; Str "Best"; Str "Core"]);
                        ("physician_group", [Str "North"; NaN; Str "South"]) ])
              "physician_group" (Some ["North"; "South"]))
    as [df' [E [_ [_ [_ [_ H]]]]]].
  - repeat constructor; simpl; intuition discriminate.
  - repeat constructor.
  - exists df'. split; [exact E|].
    destruct (H "North" ["South"] [Str "North"; NaN; Str "South"]
                eq_refl eq_refl) as [_ [Hn [Hc _]]].
    split; [exact Hn | exact Hc].
Defined.
